(** * Miktos: the multi-provider AI completion layer

    A shallow embedding of the provider adapters
    (openaiProvider.ts, anthropicProvider.ts, googleaiProvider.ts), of the
    base provider (baseProvider.ts) and of the model router
    (ModelService), with the properties of the design document proved or
    refuted on it; and of the stand-alone model service (modelService.ts),
    of the keys, the counters and the codec of the cache (cacheService.ts)
    and of the plain text of a mail (emailService.ts), with further
    properties of the code.

    Conventions.
    - A JavaScript string, a sequence of code units, is a [string], a
      sequence of characters: [String.length] is [text.length], and
      [substring], [startsWith], [includes] and concatenation act on the
      sequence; [toLowerCase] is modelled on the letters A-Z.
    - A thrown value is represented by its message, the only part of it
      the code reads ([error instanceof Error ? error.message : String(error)]).
    - An [async] method is a computation in the monad [M]: it threads the
      observable world (backend calls made, back-off waits, chunks handed
      to [onChunk]) and either returns or throws.
    - [chunkId] and [timestamp] of a chunk are read from the wall clock
      and are opaque to callers; they are left out of [StreamChunk]. *)

From Stdlib Require Import Ascii QArith Qround Lia.
From stdpp Require Import base strings gmap list.

Local Open Scope string_scope.
Local Open Scope list_scope.

(** ** The JavaScript runtime *)

Module JS.

(** [Boolean(s)] for a string: every string but the empty one. *)
Definition truthy (s : string) : bool :=
  match s with
  | EmptyString => false
  | String _ _ => true
  end.

(** [o || d] for an optional string [o]: [undefined] and the empty string
    are both falsy. *)
Definition or_else (o : option string) (d : string) : string :=
  match o with
  | Some s => if truthy s then s else d
  | None => d
  end.

(** [Boolean(o)] for an optional string. *)
Definition truthy_opt (o : option string) : bool :=
  match o with
  | Some s => truthy s
  | None => false
  end.

(** [o || null] for an optional string. *)
Definition or_null (o : option string) : option string :=
  match o with
  | Some s => if truthy s then Some s else None
  | None => None
  end.

(** [n || 0] for an optional number. *)
Definition num_or_zero (o : option nat) : nat := default 0 o.

Definition lower_char (c : Ascii.ascii) : Ascii.ascii :=
  let n := Ascii.nat_of_ascii c in
  if (65 <=? n)%nat && (n <=? 90)%nat then Ascii.ascii_of_nat (n + 32) else c.

(** [s.toLowerCase()], on the letters A-Z. *)
Fixpoint toLowerCase (s : string) : string :=
  match s with
  | EmptyString => EmptyString
  | String c s' => String (lower_char c) (toLowerCase s')
  end.

(** [s.startsWith(p)]. *)
Definition startsWith (s p : string) : bool := String.prefix p s.

(** [s.includes(sub)]. *)
Fixpoint includes (s sub : string) : bool :=
  String.prefix sub s ||
  match s with
  | EmptyString => false
  | String _ s' => includes s' sub
  end.

(** [s.substring(from, to)] for [from <= to]: the characters at the
    positions [from], ..., [to - 1] that exist. *)
Definition substring (s : string) (from to : nat) : string :=
  String.substring from (to - from) s.

(** [pieces.join(sep)]. *)
Definition join (sep : string) (pieces : list string) : string :=
  String.concat sep pieces.

(** The line feed, written \n in the source. *)
Definition newline : string := String (Ascii.ascii_of_nat 10) EmptyString.

(** [Math.ceil(n / d)] on lengths. *)
Definition ceil_div (n d : nat) : nat := (n + (d - 1)) / d.

End JS.

(** ** What the imported packages provide

    [miktos-shared/types] and [miktos-shared/constants] are imported by
    every provider; their text is not part of the services, so the string
    values of their enums and constants are parameters. [JSON.stringify]
    and the rounding of a real to the nearest binary64 number belong to
    the runtime. [JSON.stringify] throws a TypeError on some values: on a
    BigInt, on an object that contains itself. *)

Class Shared := {
  (** [ContentBlockType] *)
  ContentBlockType_TEXT : string;
  ContentBlockType_CODE : string;
  ContentBlockType_TOOL_USE : string;
  ContentBlockType_TOOL_RESULT : string;
  ContentBlockType_IMAGE : string;
  (** [MODEL_IDS] *)
  MODEL_IDS_GPT_4 : string;
  MODEL_IDS_GPT_4_TURBO : string;
  MODEL_IDS_GPT_3_5_TURBO : string;
  MODEL_IDS_CLAUDE_3_OPUS : string;
  MODEL_IDS_CLAUDE_3_SONNET : string;
  MODEL_IDS_CLAUDE_3_HAIKU : string;
  MODEL_IDS_GEMINI_PRO : string;
  MODEL_IDS_GEMINI_ULTRA : string;
  (** [PROVIDERS] *)
  PROVIDERS_OPENAI : string;
  PROVIDERS_ANTHROPIC : string;
  PROVIDERS_GOOGLE : string
}.

Class Runtime := {
  (** the values [JSON.stringify] is applied to; its text for a value on
      which it returns; and the message of the TypeError it throws on a
      value, [None] for a value on which it returns *)
  JSValue : Type;
  JSON_stringify : JSValue -> string;
  JSON_error : JSValue -> option string;
  (** rounding of an exact result to a binary64 number *)
  fl : Q -> Q
}.

(** The members of the enum [ContentBlockType] are pairwise different. *)
Definition distinct_block_types `{Shared} : Prop :=
  NoDup [ContentBlockType_TEXT; ContentBlockType_CODE; ContentBlockType_TOOL_USE;
         ContentBlockType_TOOL_RESULT; ContentBlockType_IMAGE].

(** The members of [PROVIDERS] are pairwise different. *)
Definition distinct_providers `{Shared} : Prop :=
  NoDup [PROVIDERS_OPENAI; PROVIDERS_ANTHROPIC; PROVIDERS_GOOGLE].

(** ** The provider-agnostic data model ([miktos-shared/types])

    The declarations of these types are not among the services; each is
    modelled from section 3 of the design document, with the fields the
    providers read or write. *)

(** Modelled from the spec: the enum [MessageRole] of [miktos-shared/types],
    role: enum{SYSTEM, USER, ASSISTANT, TOOL}. *)
Inductive MessageRole := SYSTEM | USER | ASSISTANT | TOOL.

#[global] Instance MessageRole_eq_dec : EqDecision MessageRole.
Proof. solve_decision. Defined.

(** Modelled from the spec: the type [ContentBlock] of [miktos-shared/types],
    a tagged variant over TEXT(text), CODE(code, language?),
    TOOL_USE(toolName, ...), TOOL_RESULT(result), IMAGE(caption?). The
    providers read it as an object with a [type] tag and optional fields;
    [None] is a missing field. *)
Module ContentBlock.
Record t `{Runtime} := mk {
  type : string;
  text : option string;
  code : option string;
  language : option string;
  toolName : option string;
  result : option JSValue;
  caption : option string
}.
Arguments mk {_}.
End ContentBlock.

(** Modelled from the spec: the type [Message] of [miktos-shared/types],
    { role, content: ordered sequence of ContentBlock, toolCallId? }. *)
Module Message.
Record t `{Runtime} := mk {
  role : MessageRole;
  content : list ContentBlock.t;
  toolCallId : option string
}.
Arguments mk {_}.
End Message.

(** Modelled from the spec: the field [prompt] of a request, either a single
    string or an ordered sequence of Message ([Array.isArray(prompt)]). *)
Inductive Prompt `{Runtime} :=
| PromptText (s : string)
| PromptMessages (ms : list Message.t).

(** Modelled from the spec: the type [AIModelRequest] of
    [miktos-shared/types] (CompletionRequest in the design document). *)
Module AIModelRequest.
Record t `{Runtime} := mk {
  modelId : string;
  prompt : Prompt;
  systemPrompt : option string;
  temperature : option Q;
  maxTokens : option nat;
  stopSequences : option (list string);
  requestId : option string
}.
Arguments mk {_}.
End AIModelRequest.

(** Modelled from the spec: the [usage] of a response,
    {promptTokens, completionTokens, totalTokens, estimatedCost}. *)
(** A number as the cost arithmetic yields it: a binary64 value, written
    as the rational it is, or NaN. *)
Inductive JSNumber :=
| Num (q : Q)
| NaN.

Module Usage.
Record t := mk {
  promptTokens : nat;
  completionTokens : nat;
  totalTokens : nat;
  estimatedCost : JSNumber
}.
End Usage.

(** Modelled from the spec: the type [AIModelResponse] of
    [miktos-shared/types] (CompletionResponse in the design document); of
    the metadata, the finish or stop reason. *)
Module AIModelResponse.
Record t := mk {
  modelId : string;
  provider : string;
  content : string;
  usage : Usage.t;
  (** [metadata.finishReason] or [metadata.stopReason] *)
  finishReason : option string
}.
End AIModelResponse.

(** Modelled from the spec: the type of a chunk, enum{CONTENT_DELTA, ERROR},
    written ['content_delta'] and ['error'] by the adapters. *)
Inductive ChunkType := CONTENT_DELTA | ERROR.

#[global] Instance ChunkType_eq_dec : EqDecision ChunkType.
Proof. solve_decision. Defined.

Inductive Payload :=
| PayloadText (text : string)
| PayloadError (error : string).

(** Modelled from the spec: the type [StreamChunk] of [miktos-shared/types],
    without [chunkId] and [timestamp]; of the metadata, the provider and
    the usage. *)
Module StreamChunk.
Record t := mk {
  streamId : string;
  type : ChunkType;
  payload : Payload;
  isFinal : bool;
  modelId : string;
  (** [metadata.provider], [metadata.usage] *)
  metadata_provider : option string;
  metadata_usage : option Usage.t
}.
End StreamChunk.

(** ** Rendering content blocks

    The arrow function mapped over the blocks by [getTextFromContentBlocks];
    its text is the same in the three providers. [renderBlock] is the text
    it returns, the serialisation of a tool result taken to return;
    [tryRenderBlock] is the same function with the TypeError that the
    serialisation may throw. *)

Section Rendering.
Context `{Shared, Runtime}.

Definition renderBlock (block : ContentBlock.t) : string :=
  let ty := ContentBlock.type block in
  if bool_decide (ty = ContentBlockType_TEXT) && JS.truthy_opt (ContentBlock.text block) then
    default EmptyString (ContentBlock.text block)
  else if bool_decide (ty = ContentBlockType_CODE) && JS.truthy_opt (ContentBlock.code block) then
    "```" +:+ JS.or_else (ContentBlock.language block) EmptyString +:+ JS.newline
      +:+ default EmptyString (ContentBlock.code block) +:+ JS.newline +:+ "```"
  else if bool_decide (ty = ContentBlockType_TOOL_USE) && JS.truthy_opt (ContentBlock.toolName block) then
    "[Tool use: " +:+ default EmptyString (ContentBlock.toolName block) +:+ "]"
  else if bool_decide (ty = ContentBlockType_TOOL_RESULT) then
    "[Tool result: " +:+
      match ContentBlock.result block with
      | Some v => JSON_stringify v
      | None => "undefined"
      end +:+ "]"
  else if bool_decide (ty = ContentBlockType_IMAGE) && JS.truthy_opt (ContentBlock.caption block) then
    "[Image: " +:+ default EmptyString (ContentBlock.caption block) +:+ "]"
  else
    "[" +:+ (if JS.truthy ty then ty else "unknown") +:+ " content]".

(** The last branch of [renderBlock]: [`[${block.type || 'unknown'} content]`]. *)
Definition placeholder (block : ContentBlock.t) : string :=
  "[" +:+ (if JS.truthy (ContentBlock.type block) then ContentBlock.type block else "unknown")
  +:+ " content]".

(** [blocks.map(...).join('\n')]; the parameter is declared as an array,
    and it is one for every [Message]. *)
Definition blocksToText (blocks : list ContentBlock.t) : string :=
  JS.join JS.newline (map renderBlock blocks).

(** What an expression yields that may throw a TypeError: its text, or the
    message of the error. *)
Inductive Rendered :=
| Text (text : string)
| TypeError (message : string).

(** [JSON.stringify(block.result)] inside the template literal; a missing
    result is [undefined], which is not serialised and reads [undefined]. *)
Definition stringifyResult (result : option JSValue) : Rendered :=
  match result with
  | Some v =>
      match JSON_error v with
      | Some message => TypeError message
      | None => Text (JSON_stringify v)
      end
  | None => Text "undefined"
  end.

Definition tryRenderBlock (block : ContentBlock.t) : Rendered :=
  let ty := ContentBlock.type block in
  if bool_decide (ty = ContentBlockType_TEXT) && JS.truthy_opt (ContentBlock.text block) then
    Text (default EmptyString (ContentBlock.text block))
  else if bool_decide (ty = ContentBlockType_CODE) && JS.truthy_opt (ContentBlock.code block) then
    Text ("```" +:+ JS.or_else (ContentBlock.language block) EmptyString +:+ JS.newline
            +:+ default EmptyString (ContentBlock.code block) +:+ JS.newline +:+ "```")
  else if bool_decide (ty = ContentBlockType_TOOL_USE) && JS.truthy_opt (ContentBlock.toolName block) then
    Text ("[Tool use: " +:+ default EmptyString (ContentBlock.toolName block) +:+ "]")
  else if bool_decide (ty = ContentBlockType_TOOL_RESULT) then
    match stringifyResult (ContentBlock.result block) with
    | Text json => Text ("[Tool result: " +:+ json +:+ "]")
    | TypeError message => TypeError message
    end
  else if bool_decide (ty = ContentBlockType_IMAGE) && JS.truthy_opt (ContentBlock.caption block) then
    Text ("[Image: " +:+ default EmptyString (ContentBlock.caption block) +:+ "]")
  else
    Text ("[" +:+ (if JS.truthy ty then ty else "unknown") +:+ " content]").

(** [blocks.map(...)]: the renderings in order; the first block at which
    the arrow function throws ends the mapping with its error. *)
Fixpoint tryRenderBlocks (blocks : list ContentBlock.t) : list string + string :=
  match blocks with
  | [] => inl []
  | block :: rest =>
      match tryRenderBlock block with
      | Text piece =>
          match tryRenderBlocks rest with
          | inl pieces => inl (piece :: pieces)
          | inr message => inr message
          end
      | TypeError message => inr message
      end
  end.

(** [blocks.map(...).join('\n')], with the error of the mapping. *)
Definition tryBlocksToText (blocks : list ContentBlock.t) : Rendered :=
  match tryRenderBlocks blocks with
  | inl pieces => Text (JS.join JS.newline pieces)
  | inr message => TypeError message
  end.

(** A block whose rendering does not meet a TypeError: if it is a
    TOOL_RESULT block with a result, [JSON.stringify] returns on it. *)
Definition serialisable (block : ContentBlock.t) : Prop :=
  forall v,
    ContentBlock.type block = ContentBlockType_TOOL_RESULT ->
    ContentBlock.result block = Some v ->
    JSON_error v = None.

End Rendering.


(** ** Effects of an asynchronous method

    The world an adapter acts on: the requests it has sent to its backend
    (oldest first), the delays it has waited with [setTimeout], and the
    chunks it has handed to [onChunk], in the order of the calls. *)

Module World.
Record t (Req : Type) := mk {
  sent : list Req;
  waits : list nat;
  emitted : list StreamChunk.t
}.
Arguments mk {Req}.
Arguments sent {Req}.
Arguments waits {Req}.
Arguments emitted {Req}.
Definition init {Req : Type} : t Req := mk [] [] [].
(** The world after more requests, more waits, more chunks. *)
Definition sends {Req : Type} (w : t Req) (requests : list Req) : t Req :=
  mk (sent w ++ requests) (waits w) (emitted w).
Definition waited {Req : Type} (w : t Req) (delays : list nat) : t Req :=
  mk (sent w) (waits w ++ delays) (emitted w).
Definition emits {Req : Type} (w : t Req) (chunks : list StreamChunk.t) : t Req :=
  mk (sent w) (waits w) (emitted w ++ chunks).
End World.

(** How a computation ends: with a value, with a thrown error (its
    message), or cut off because a loop was given too few iterations. *)
Inductive Outcome (A : Type) :=
| Return (a : A)
| Throw (message : string)
| OutOfFuel.
Arguments Return {A}.
Arguments Throw {A}.
Arguments OutOfFuel {A}.

Definition M (Req A : Type) : Type := World.t Req -> Outcome A * World.t Req.

Definition ret {Req A} (a : A) : M Req A := fun w => (Return a, w).

Definition throw {Req A} (message : string) : M Req A := fun w => (Throw message, w).

Definition out_of_fuel {Req A} : M Req A := fun w => (OutOfFuel, w).

Definition bind {Req A B} (m : M Req A) (k : A -> M Req B) : M Req B :=
  fun w =>
    match m w with
    | (Return a, w') => k a w'
    | (Throw message, w') => (Throw message, w')
    | (OutOfFuel, w') => (OutOfFuel, w')
    end.

(** [try { m } catch (error) { handler }]: what [m] did before it threw
    stays done. *)
Definition try_catch {Req A} (m : M Req A) (handler : string -> M Req A) : M Req A :=
  fun w =>
    match m w with
    | (Throw message, w') => handler message w'
    | other => other
    end.

Declare Scope async_scope.
Delimit Scope async_scope with async.
Notation "x <- m ;; k" := (bind m (fun x => k))
  (at level 100, m at next level, right associativity) : async_scope.
Notation "m ;;; k" := (bind m (fun _ => k))
  (at level 100, right associativity) : async_scope.
Local Open Scope async_scope.

(** How the promise of a backend call settles. *)
Inductive Settled (A : Type) :=
| Resolved (a : A)
| Rejected (message : string).
Arguments Resolved {A}.
Arguments Rejected {A}.

(** [await client.method(request)]: the backend answers the n-th request
    it receives (n counted from 0) by [backend n request]. *)
Definition call {Req Resp} (backend : nat -> Req -> Settled Resp) (request : Req) : M Req Resp :=
  fun w =>
    (match backend (length (World.sent w)) request with
     | Resolved response => Return response
     | Rejected message => Throw message
     end,
     World.sends w [request]).

(** [await new Promise(resolve => setTimeout(resolve, delay))]. *)
Definition sleep {Req} (delay : nat) : M Req unit :=
  fun w => (Return tt, World.waited w [delay]).

(** [onChunk(chunk)]: the caller's sink records the chunk; it does not
    throw. *)
Definition onChunk {Req} (chunk : StreamChunk.t) : M Req unit :=
  fun w => (Return tt, World.emits w [chunk]).

(** An asynchronous iterable: the items it yields, then either its end or
    the error it throws. *)
Module Stream.
Record t (E : Type) := mk {
  items : list E;
  failure : option string
}.
Arguments mk {E}.
Arguments items {E}.
Arguments failure {E}.
End Stream.

(** [for await (const item of stream) { body }] over a loop state. *)
Fixpoint for_items {Req E S} (body : S -> E -> M Req S) (items : list E) (s : S) : M Req S :=
  match items with
  | [] => ret s
  | item :: rest => s' <- body s item ;; for_items body rest s'
  end.

Definition for_await {Req E S} (stream : Stream.t E) (body : S -> E -> M Req S) (s : S) : M Req S :=
  s' <- for_items body (Stream.items stream) s ;;
  match Stream.failure stream with
  | Some message => throw message
  | None => ret s'
  end.

(** The observations of one call that starts in the empty world. *)
Definition run {Req A} (m : M Req A) : Outcome A * World.t Req := m World.init.

(** The chunk every [catch] block of a [generateStream] hands over. *)
Definition errorChunk (streamId message modelId provider : string) : StreamChunk.t :=
  StreamChunk.mk streamId ERROR (PayloadError message) true modelId (Some provider) None.

(** A chunk that carries text and is not the last one. *)
Definition partial_delta (chunk : StreamChunk.t) : Prop :=
  StreamChunk.type chunk = CONTENT_DELTA /\ StreamChunk.isFinal chunk = false.

(** The text a chunk contributes: its [payload.text] when it is a
    CONTENT_DELTA. *)
Definition delta_text (chunk : StreamChunk.t) : string :=
  match StreamChunk.type chunk, StreamChunk.payload chunk with
  | CONTENT_DELTA, PayloadText text => text
  | _, _ => EmptyString
  end.

(** The text of the CONTENT_DELTA chunks of a stream, in emission order,
    concatenated. *)
Definition concat_deltas (chunks : list StreamChunk.t) : string :=
  JS.join EmptyString (map delta_text chunks).

(** The streaming invariant of the design document, for the chunks of one
    call and the response it returns: the texts of the chunks concatenate
    to the content, and exactly one chunk is final, the last one. *)
Definition StreamingInvariant (chunks : list StreamChunk.t) (r : AIModelResponse.t) : Prop :=
  concat_deltas chunks = AIModelResponse.content r /\
  exists earlier final,
    chunks = earlier ++ [final] /\
    StreamChunk.isFinal final = true /\
    Forall (fun chunk => StreamChunk.isFinal chunk = false) earlier.

Definition final_chunks (chunks : list StreamChunk.t) : list StreamChunk.t :=
  filter (fun chunk => StreamChunk.isFinal chunk = true) chunks.



(** ** Cost tables

    A table [costs: Record<string, { input, output }>] is an object literal
    with one own property per model id, the prices in USD per 1K tokens.
    Its own properties are a finite map; like every object it also has the
    members it inherits from [Object.prototype], under their names. *)

Module ModelCost.
Record t := mk { input : Q; output : Q }.
End ModelCost.

(** What [costs[key]] is when it is not [undefined]: an entry of the table,
    or a member every object inherits (a function, or the prototype itself
    under [__proto__]). An inherited member is truthy and has neither an
    [input] nor an [output]. *)
Inductive Member :=
| Entry (modelCost : ModelCost.t)
| Inherited.

(** The names of the members of [Object.prototype]. *)
Definition inheritedNames : list string :=
  ["constructor"; "__defineGetter__"; "__defineSetter__"; "hasOwnProperty";
   "__lookupGetter__"; "__lookupSetter__"; "isPrototypeOf"; "propertyIsEnumerable";
   "toString"; "valueOf"; "__proto__"; "toLocaleString"].

Section Cost.
Context `{Runtime}.

(** [costs[key]]: an own property first, then the prototype; [None] stands
    for [undefined]. *)
Definition member (costs : gmap string ModelCost.t) (key : string) : option Member :=
  match costs !! key with
  | Some modelCost => Some (Entry modelCost)
  | None => if bool_decide (key ∈ inheritedNames) then Some Inherited else None
  end.

(** [costs[modelId] || costs[fallback]] *)
Definition modelCostFor (costs : gmap string ModelCost.t) (fallback modelId : string)
  : option Member :=
  match member costs modelId with
  | Some modelCost => Some modelCost
  | None => member costs fallback
  end.

(** The arithmetic shared by the three [calculateCost] methods, every
    operation rounded to binary64:
    [(promptTokens / 1000) * modelCost.input + (completionTokens / 1000) * modelCost.output]. *)
Definition costOf (modelCost : ModelCost.t) (promptTokens completionTokens : nat) : Q :=
  let inputCost :=
    fl (fl (inject_Z (Z.of_nat promptTokens) / 1000) * fl (ModelCost.input modelCost)) in
  let outputCost :=
    fl (fl (inject_Z (Z.of_nat completionTokens) / 1000) * fl (ModelCost.output modelCost)) in
  fl (inputCost + outputCost).

(** The same arithmetic on what the lookup gave: with an inherited member
    [modelCost.input] and [modelCost.output] are [undefined], both products
    are NaN and so is their sum. *)
Definition costWith (modelCost : Member) (promptTokens completionTokens : nat) : JSNumber :=
  match modelCost with
  | Entry entry => Num (costOf entry promptTokens completionTokens)
  | Inherited => NaN
  end.

(** Reading [modelCost.input] of [undefined] throws a TypeError. *)
Definition cost_or_throw {Req} (cost : option JSNumber) : M Req JSNumber :=
  match cost with
  | Some c => ret c
  | None => throw "Cannot read properties of undefined (reading 'input')"
  end.

End Cost.

(** ** The OpenAI adapter (openaiProvider.ts) *)

Module OpenAI.

Module ChatMessage.
Record t := mk {
  role : string;
  content : string;
  tool_call_id : option string
}.
End ChatMessage.

Module ChatRequest.
Record t := mk {
  model : string;
  messages : list ChatMessage.t;
  temperature : Q;
  max_tokens : option nat;
  stop : option (list string);
  stream : bool
}.
End ChatRequest.

Module CompletionUsage.
Record t := mk {
  prompt_tokens : nat;
  completion_tokens : nat;
  total_tokens : nat
}.
End CompletionUsage.

Module Choice.
Record t := mk {
  (** [message?.content] *)
  message_content : option string;
  finish_reason : option string
}.
End Choice.

Module ChatCompletion.
Record t := mk {
  choices : list Choice.t;
  usage : option CompletionUsage.t
}.
End ChatCompletion.

Module ChatCompletionChunk.
Record t := mk {
  (** [choices[0]?.delta?.content] *)
  delta_content : option string;
  usage : option CompletionUsage.t
}.
End ChatCompletionChunk.

(** The loop variables of [generateStream]. *)
Module StreamState.
Record t := mk {
  totalPromptTokens : nat;
  totalCompletionTokens : nat;
  accumulatedContent : string
}.
End StreamState.

Section Provider.
Context `{Shared, Runtime}.
(** [this.client.chat.completions.create], without and with [stream: true]. *)
Variable create : nat -> ChatRequest.t -> Settled ChatCompletion.t.
Variable create_stream : nat -> ChatRequest.t -> Settled (Stream.t ChatCompletionChunk.t).

Definition getTextFromContentBlocks (blocks : list ContentBlock.t) : string :=
  blocksToText blocks.

Definition countTokens (text : string) : nat := JS.ceil_div (String.length text) 4.

Definition costs : gmap string ModelCost.t :=
  <[MODEL_IDS_GPT_3_5_TURBO := ModelCost.mk (15 # 10000) (2 # 1000)]>
  (<[MODEL_IDS_GPT_4_TURBO := ModelCost.mk (1 # 100) (3 # 100)]>
  (<[MODEL_IDS_GPT_4 := ModelCost.mk (3 # 100) (6 # 100)]> ∅)).

Definition calculateCost (modelId : string) (promptTokens completionTokens : nat)
  : option JSNumber :=
  modelCost ← modelCostFor costs MODEL_IDS_GPT_3_5_TURBO modelId;
  Some (costWith modelCost promptTokens completionTokens).

Definition formatMessage (message : Message.t) : ChatMessage.t :=
  let contentText := getTextFromContentBlocks (Message.content message) in
  match Message.role message with
  | SYSTEM => ChatMessage.mk "system" contentText None
  | USER => ChatMessage.mk "user" contentText None
  | ASSISTANT => ChatMessage.mk "assistant" contentText None
  | TOOL =>
      ChatMessage.mk "tool" contentText
        (Some (JS.or_else (Message.toolCallId message) "placeholder-tool-call-id"))
  end.

(** [if (systemPrompt) messages.push({ role: 'system', content: systemPrompt })] *)
Definition systemMessage (systemPrompt : option string) : list ChatMessage.t :=
  if JS.truthy_opt systemPrompt
  then [ChatMessage.mk "system" (default EmptyString systemPrompt) None]
  else [].

Definition formatMessages (messages : list Message.t) (systemPrompt : option string)
  : list ChatMessage.t :=
  systemMessage systemPrompt ++ map formatMessage messages.

(** The messages sent for either kind of prompt. *)
Definition requestMessages (params : AIModelRequest.t) : list ChatMessage.t :=
  match AIModelRequest.prompt params with
  | PromptText prompt =>
      systemMessage (AIModelRequest.systemPrompt params)
      ++ [ChatMessage.mk "user" prompt None]
  | PromptMessages messages =>
      formatMessages messages (AIModelRequest.systemPrompt params)
  end.

Definition request (params : AIModelRequest.t) (stream : bool) : ChatRequest.t :=
  ChatRequest.mk (AIModelRequest.modelId params) (requestMessages params)
    (default (7 # 10)%Q (AIModelRequest.temperature params))
    (AIModelRequest.maxTokens params) (AIModelRequest.stopSequences params) stream.

(** Both branches of [generate] build the same response from the answer. *)
Definition generate (params : AIModelRequest.t) : M ChatRequest.t AIModelResponse.t :=
  try_catch
    (let modelId := AIModelRequest.modelId params in
     response <- call create (request params false) ;;
     let choice := head (ChatCompletion.choices response) in
     let content := JS.or_else (choice ≫= Choice.message_content) EmptyString in
     let usage := ChatCompletion.usage response in
     let prompt_tokens := JS.num_or_zero (CompletionUsage.prompt_tokens <$> usage) in
     let completion_tokens := JS.num_or_zero (CompletionUsage.completion_tokens <$> usage) in
     estimatedCost <- cost_or_throw (calculateCost modelId prompt_tokens completion_tokens) ;;
     ret (AIModelResponse.mk modelId "openai" content
            (Usage.mk prompt_tokens completion_tokens
               (JS.num_or_zero (CompletionUsage.total_tokens <$> usage)) estimatedCost)
            (choice ≫= Choice.finish_reason)))
    (fun error => throw ("OpenAI API Error: " +:+ error)).

(** The response [generate] builds from an answer of the backend, up to
    the estimated cost. *)
Definition responseOf (params : AIModelRequest.t) (response : ChatCompletion.t)
    (cost : JSNumber)
  : AIModelResponse.t :=
  let choice := head (ChatCompletion.choices response) in
  let usage := ChatCompletion.usage response in
  AIModelResponse.mk (AIModelRequest.modelId params) "openai"
    (JS.or_else (choice ≫= Choice.message_content) EmptyString)
    (Usage.mk (JS.num_or_zero (CompletionUsage.prompt_tokens <$> usage))
       (JS.num_or_zero (CompletionUsage.completion_tokens <$> usage))
       (JS.num_or_zero (CompletionUsage.total_tokens <$> usage)) cost)
    (choice ≫= Choice.finish_reason).

Definition streamStep (streamId modelId : string) (st : StreamState.t)
    (chunk : ChatCompletionChunk.t) : M ChatRequest.t StreamState.t :=
  let contentDelta := JS.or_else (ChatCompletionChunk.delta_content chunk) EmptyString in
  st1 <- (if JS.truthy contentDelta then
            onChunk (StreamChunk.mk streamId CONTENT_DELTA (PayloadText contentDelta)
                       false modelId (Some "openai") None) ;;;
            ret (StreamState.mk (StreamState.totalPromptTokens st)
                   (StreamState.totalCompletionTokens st)
                   (StreamState.accumulatedContent st +:+ contentDelta))
          else ret st) ;;
  match ChatCompletionChunk.usage chunk with
  | Some usage =>
      ret (StreamState.mk (CompletionUsage.prompt_tokens usage)
             (CompletionUsage.completion_tokens usage)
             (StreamState.accumulatedContent st1))
  | None => ret st1
  end.

Definition generateStream (params : AIModelRequest.t) (streamId : string)
  : M ChatRequest.t AIModelResponse.t :=
  try_catch
    (let modelId := AIModelRequest.modelId params in
     let messages := requestMessages params in
     stream <- call create_stream (request params true) ;;
     st <- for_await stream (streamStep streamId modelId)
             (StreamState.mk 0 0 EmptyString) ;;
     let accumulatedContent := StreamState.accumulatedContent st in
     let totalPromptTokens :=
       if (StreamState.totalPromptTokens st =? 0)%nat
       then foldl (fun total message => total + countTokens (ChatMessage.content message))
              0 messages
       else StreamState.totalPromptTokens st in
     let totalCompletionTokens :=
       if (StreamState.totalCompletionTokens st =? 0)%nat
       then countTokens accumulatedContent
       else StreamState.totalCompletionTokens st in
     estimatedCost <- cost_or_throw (calculateCost modelId totalPromptTokens totalCompletionTokens) ;;
     let usage := Usage.mk totalPromptTokens totalCompletionTokens
                    (totalPromptTokens + totalCompletionTokens) estimatedCost in
     onChunk (StreamChunk.mk streamId CONTENT_DELTA (PayloadText EmptyString)
                true modelId (Some "openai") (Some usage)) ;;;
     ret (AIModelResponse.mk modelId "openai" accumulatedContent usage (Some "stop")))
    (fun error =>
       onChunk (errorChunk streamId error (AIModelRequest.modelId params) "openai") ;;;
       throw ("OpenAI Streaming Error: " +:+ error)).

End Provider.
End OpenAI.


(** ** The Anthropic adapter (anthropicProvider.ts) *)

Module Anthropic.

Module MessageParam.
Record t := mk {
  role : string;
  content : string
}.
End MessageParam.

Module MessageCreateParams.
Record t := mk {
  model : string;
  messages : list MessageParam.t;
  temperature : Q;
  max_tokens : nat;
  stop_sequences : option (list string);
  system : option string;
  stream : bool
}.
End MessageCreateParams.

(** [AnthropicContentBlock]; [text = None] when the block has no [text]. *)
Module AnthropicContentBlock.
Record t := mk {
  type : string;
  text : option string
}.
End AnthropicContentBlock.

Module ResponseUsage.
Record t := mk {
  input_tokens : option nat;
  output_tokens : option nat
}.
End ResponseUsage.

Module AnthropicMessage.
Record t := mk {
  content : list AnthropicContentBlock.t;
  usage : option ResponseUsage.t;
  stop_reason : option string
}.
End AnthropicMessage.

(** The loop variables of [generateStream]. *)
Module StreamState.
Record t := mk {
  totalPromptTokens : nat;
  totalCompletionTokens : nat;
  accumulatedContent : string
}.
End StreamState.

Section Provider.
Context `{Shared, Runtime}.

(** [chunk.delta] of a [content_block_delta] event, when it is truthy, by
    what the code tells apart: an object with a [text] property, with that
    text (the empty text for a falsy one); an object without one, with the
    text [JSON.stringify] gives for it; and a value that is no object, on
    which ['text' in chunk.delta] throws a TypeError, with the text the
    error names it by. An event is parsed from the JSON text of the stream,
    so the serialisation of an object delta returns. *)
Inductive Delta :=
| TextDelta (text : string)
| ObjectDelta (json : string)
| PrimitiveDelta (shown : string).

(** The message of the TypeError of the [in] operator. *)
Definition inOperatorError (shown : string) : string :=
  "Cannot use 'in' operator to search for 'text' in " +:+ shown.

(** The events of a message stream, by [chunk.type]; the [delta] of a
    [content_block_delta] event is [None] when [chunk.delta] is falsy. *)
Inductive StreamEvent :=
| content_block_delta (delta : option Delta)
| message_delta (usage : option ResponseUsage.t)
| other_event.

(** [this.client.messages.create], without and with [stream: true]. *)
Variable create : nat -> MessageCreateParams.t -> Settled AnthropicMessage.t.
Variable create_stream : nat -> MessageCreateParams.t -> Settled (Stream.t StreamEvent).

Definition getTextFromContentBlocks (blocks : list ContentBlock.t) : string :=
  blocksToText blocks.

(** [Math.ceil(text.length / 4.5)]. *)
Definition countTokens (text : string) : nat := JS.ceil_div (2 * String.length text) 9.

Definition costs : gmap string ModelCost.t :=
  <[MODEL_IDS_CLAUDE_3_HAIKU := ModelCost.mk (25 # 100000) (125 # 100000)]>
  (<[MODEL_IDS_CLAUDE_3_SONNET := ModelCost.mk (3 # 1000) (15 # 1000)]>
  (<[MODEL_IDS_CLAUDE_3_OPUS := ModelCost.mk (15 # 1000) (75 # 1000)]> ∅)).

Definition calculateCost (modelId : string) (promptTokens completionTokens : nat)
  : option JSNumber :=
  modelCost ← modelCostFor costs MODEL_IDS_CLAUDE_3_HAIKU modelId;
  Some (costWith modelCost promptTokens completionTokens).

Definition extractTextFromContent (content : list AnthropicContentBlock.t) : string :=
  JS.join JS.newline
    (filter (fun piece => JS.truthy piece = true)
       (map (fun block => default EmptyString (AnthropicContentBlock.text block)) content)).

(** The arrow function of [formatMessages]; [None] is its [null]. *)
Definition formatMessage (message : Message.t) : option MessageParam.t :=
  let contentText := getTextFromContentBlocks (Message.content message) in
  match Message.role message with
  | USER => Some (MessageParam.mk "user" contentText)
  | ASSISTANT => Some (MessageParam.mk "assistant" contentText)
  | SYSTEM | TOOL => None
  end.

(** [messages.map(...).filter(Boolean)]; [systemPrompt] is not read. *)
Definition formatMessages (messages : list Message.t) (systemPrompt : option string)
  : list MessageParam.t :=
  omap formatMessage messages.

Definition requestMessages (params : AIModelRequest.t) : list MessageParam.t :=
  match AIModelRequest.prompt params with
  | PromptText prompt => [MessageParam.mk "user" prompt]
  | PromptMessages messages => formatMessages messages (AIModelRequest.systemPrompt params)
  end.

(** [maxTokens || 1024] *)
Definition max_tokens_of (params : AIModelRequest.t) : nat :=
  match AIModelRequest.maxTokens params with
  | Some (S n) => S n
  | _ => 1024
  end.

Definition request (params : AIModelRequest.t) (system : option string) (stream : bool)
  : MessageCreateParams.t :=
  MessageCreateParams.mk (AIModelRequest.modelId params) (requestMessages params)
    (default (7 # 10)%Q (AIModelRequest.temperature params))
    (max_tokens_of params) (AIModelRequest.stopSequences params) system stream.

(** Both branches of [generate] pass [system: systemPrompt] and build the
    same response from the answer. *)
Definition generate (params : AIModelRequest.t) : M MessageCreateParams.t AIModelResponse.t :=
  try_catch
    (let modelId := AIModelRequest.modelId params in
     response <- call create (request params (AIModelRequest.systemPrompt params) false) ;;
     let content := extractTextFromContent (AnthropicMessage.content response) in
     let usage := AnthropicMessage.usage response in
     let input_tokens := JS.num_or_zero (usage ≫= ResponseUsage.input_tokens) in
     let output_tokens := JS.num_or_zero (usage ≫= ResponseUsage.output_tokens) in
     estimatedCost <- cost_or_throw (calculateCost modelId input_tokens output_tokens) ;;
     ret (AIModelResponse.mk modelId "anthropic" content
            (Usage.mk input_tokens output_tokens (input_tokens + output_tokens) estimatedCost)
            (AnthropicMessage.stop_reason response)))
    (fun error => throw ("Anthropic API Error: " +:+ error)).

(** The response [generate] builds from an answer of the backend, up to
    the estimated cost. *)
Definition responseOf (params : AIModelRequest.t) (response : AnthropicMessage.t)
    (cost : JSNumber)
  : AIModelResponse.t :=
  let usage := AnthropicMessage.usage response in
  let input_tokens := JS.num_or_zero (usage ≫= ResponseUsage.input_tokens) in
  let output_tokens := JS.num_or_zero (usage ≫= ResponseUsage.output_tokens) in
  AIModelResponse.mk (AIModelRequest.modelId params) "anthropic"
    (extractTextFromContent (AnthropicMessage.content response))
    (Usage.mk input_tokens output_tokens (input_tokens + output_tokens) cost)
    (AnthropicMessage.stop_reason response).

(** The [system] value of a streaming request: [systemPrompt], or, when
    that is falsy and the prompt is an array with a SYSTEM message, the
    text of the first such message. *)
Definition streamSystem (params : AIModelRequest.t) : option string :=
  let system := AIModelRequest.systemPrompt params in
  match AIModelRequest.prompt params with
  | PromptText _ => system
  | PromptMessages messages =>
      match find (fun m => bool_decide (Message.role m = SYSTEM)) messages with
      | Some systemMessage =>
          if negb (JS.truthy_opt system)
          then Some (getTextFromContentBlocks (Message.content systemMessage))
          else system
      | None => system
      end
  end.

Definition streamStep (streamId modelId : string) (st : StreamState.t)
    (chunk : StreamEvent) : M MessageCreateParams.t StreamState.t :=
  match chunk with
  | content_block_delta (Some (PrimitiveDelta shown)) => throw (inOperatorError shown)
  | content_block_delta delta =>
      let textDelta :=
        match delta with
        | Some (TextDelta text) => text
        | Some (ObjectDelta json) => json
        | _ => EmptyString
        end in
      if JS.truthy textDelta then
        onChunk (StreamChunk.mk streamId CONTENT_DELTA (PayloadText textDelta)
                   false modelId (Some "anthropic") None) ;;;
        ret (StreamState.mk (StreamState.totalPromptTokens st)
               (StreamState.totalCompletionTokens st)
               (StreamState.accumulatedContent st +:+ textDelta))
      else ret st
  | message_delta (Some usage) =>
      ret (StreamState.mk (JS.num_or_zero (ResponseUsage.input_tokens usage))
             (JS.num_or_zero (ResponseUsage.output_tokens usage))
             (StreamState.accumulatedContent st))
  | message_delta None => ret st
  | other_event => ret st
  end.

Definition generateStream (params : AIModelRequest.t) (streamId : string)
  : M MessageCreateParams.t AIModelResponse.t :=
  try_catch
    (let modelId := AIModelRequest.modelId params in
     let messages := requestMessages params in
     let system := streamSystem params in
     stream <- call create_stream (request params system true) ;;
     st <- for_await stream (streamStep streamId modelId)
             (StreamState.mk 0 0 EmptyString) ;;
     let accumulatedContent := StreamState.accumulatedContent st in
     let totalPromptTokens :=
       if (StreamState.totalPromptTokens st =? 0)%nat
       then foldl (fun total message => total + countTokens (MessageParam.content message))
              0 messages
            + (if JS.truthy_opt system then countTokens (default EmptyString system) else 0)
       else StreamState.totalPromptTokens st in
     let totalCompletionTokens :=
       if (StreamState.totalCompletionTokens st =? 0)%nat
       then countTokens accumulatedContent
       else StreamState.totalCompletionTokens st in
     estimatedCost <- cost_or_throw (calculateCost modelId totalPromptTokens totalCompletionTokens) ;;
     let usage := Usage.mk totalPromptTokens totalCompletionTokens
                    (totalPromptTokens + totalCompletionTokens) estimatedCost in
     onChunk (StreamChunk.mk streamId CONTENT_DELTA (PayloadText EmptyString)
                true modelId (Some "anthropic") (Some usage)) ;;;
     ret (AIModelResponse.mk modelId "anthropic" accumulatedContent usage (Some "end_turn")))
    (fun error =>
       onChunk (errorChunk streamId error (AIModelRequest.modelId params) "anthropic") ;;;
       throw ("Anthropic Streaming Error: " +:+ error)).

End Provider.
End Anthropic.


(** ** The Google adapter (googleaiProvider.ts) *)

Module Google.

Module GoogleMessage.
Record t := mk {
  content : string;
  author : option string
}.
End GoogleMessage.

Module GenerateMessageRequest.
Record t := mk {
  model : string;
  (** [prompt.messages] *)
  messages : list GoogleMessage.t;
  temperature : Q;
  candidateCount : nat;
  topK : nat;
  topP : Q
}.
End GenerateMessageRequest.

Module Candidate.
Record t := mk {
  content : option string;
  finishReason : option string
}.
End Candidate.

(** [response[0]], the first component of the answer of [generateMessage]. *)
Module GenerateMessageResponse.
Record t := mk {
  candidates : list Candidate.t
}.
End GenerateMessageResponse.

Section Provider.
Context `{Shared, Runtime}.
(** [this.client.generateMessage]. *)
Variable generateMessage :
  nat -> GenerateMessageRequest.t -> Settled GenerateMessageResponse.t.

Definition maxRetries : nat := 3.

Definition chunkSize : nat := 10.

Definition getTextFromContentBlocks (blocks : list ContentBlock.t) : string :=
  blocksToText blocks.

Definition countTokens (text : string) : nat := JS.ceil_div (String.length text) 4.

Definition costs : gmap string ModelCost.t :=
  <[MODEL_IDS_GEMINI_ULTRA := ModelCost.mk (375 # 100000) (1125 # 100000)]>
  (<[MODEL_IDS_GEMINI_PRO := ModelCost.mk (125 # 100000) (375 # 100000)]> ∅).

Definition calculateCost (modelId : string) (promptTokens completionTokens : nat)
  : option JSNumber :=
  modelCost ← modelCostFor costs MODEL_IDS_GEMINI_PRO modelId;
  Some (costWith modelCost promptTokens completionTokens).

Definition mapRoleToAuthor (role : MessageRole) : string :=
  match role with
  | USER => "user"
  | ASSISTANT => "model"
  | SYSTEM => "system"
  | TOOL => "user"
  end.

Definition formatMessage (message : Message.t) : GoogleMessage.t :=
  let contentText := getTextFromContentBlocks (Message.content message) in
  GoogleMessage.mk contentText (Some (mapRoleToAuthor (Message.role message))).

(** [messages.map(...)]; [systemPrompt] is not read. *)
Definition formatMessages (messages : list Message.t) (systemPrompt : option string)
  : list GoogleMessage.t :=
  map formatMessage messages.

Definition formatModelName (modelId : string) : string :=
  if negb (JS.includes modelId "/") then "models/" +:+ modelId else modelId.

Definition requestMessages (params : AIModelRequest.t) : list GoogleMessage.t :=
  match AIModelRequest.prompt params with
  | PromptText prompt => [GoogleMessage.mk prompt None]
  | PromptMessages messages => formatMessages messages None
  end.

Definition request (params : AIModelRequest.t) : GenerateMessageRequest.t :=
  GenerateMessageRequest.mk (formatModelName (AIModelRequest.modelId params))
    (requestMessages params)
    (default (7 # 10)%Q (AIModelRequest.temperature params))
    1 40 (95 # 100)%Q.

(** The token estimate of the input: of the prompt string, or summed over
    the text of every message. *)
Definition inputTokens (params : AIModelRequest.t) : nat :=
  match AIModelRequest.prompt params with
  | PromptText prompt => countTokens prompt
  | PromptMessages messages =>
      foldl (fun totalInputTokens message =>
               totalInputTokens
               + countTokens (getTextFromContentBlocks (Message.content message)))
        0 messages
  end.

(** The body of the [try] block of [generate]: one call and the response
    built from its answer. *)
Definition attempt (params : AIModelRequest.t) : M GenerateMessageRequest.t AIModelResponse.t :=
  let modelId := AIModelRequest.modelId params in
  response <- call generateMessage (request params) ;;
  let candidate := head (GenerateMessageResponse.candidates response) in
  let content := JS.or_else (candidate ≫= Candidate.content) EmptyString in
  let totalInputTokens := inputTokens params in
  let outputTokens := countTokens content in
  estimatedCost <- cost_or_throw (calculateCost modelId totalInputTokens outputTokens) ;;
  ret (AIModelResponse.mk modelId "google" content
         (Usage.mk totalInputTokens outputTokens (totalInputTokens + outputTokens) estimatedCost)
         (JS.or_null (candidate ≫= Candidate.finishReason))).

(** The response [generate] builds from an answer of the backend, up to
    the estimated cost. *)
Definition responseOf (params : AIModelRequest.t) (response : GenerateMessageResponse.t)
    (cost : JSNumber)
  : AIModelResponse.t :=
  let candidate := head (GenerateMessageResponse.candidates response) in
  let content := JS.or_else (candidate ≫= Candidate.content) EmptyString in
  AIModelResponse.mk (AIModelRequest.modelId params) "google" content
    (Usage.mk (inputTokens params) (countTokens content)
       (inputTokens params + countTokens content) cost)
    (JS.or_null (candidate ≫= Candidate.finishReason)).

Definition isRateLimitError (errorMessage : string) : bool :=
  JS.includes (JS.toLowerCase errorMessage) "quota"
  || JS.includes (JS.toLowerCase errorMessage) "rate"
  || JS.includes (JS.toLowerCase errorMessage) "limit".

(** [while (retries <= maxRetries) { try { ... } catch (error) { ... } }]
    followed by the [throw] after the loop; [fuel] bounds the number of
    iterations. *)
Fixpoint generateLoop (fuel : nat) (params : AIModelRequest.t) (retries delay : nat)
  : M GenerateMessageRequest.t AIModelResponse.t :=
  match fuel with
  | 0 => out_of_fuel
  | S fuel' =>
      if (retries <=? maxRetries)%nat then
        try_catch (attempt params)
          (fun errorMessage =>
             if isRateLimitError errorMessage && (retries <? maxRetries)%nat then
               sleep delay ;;;
               generateLoop fuel' params (retries + 1) (delay * 2)
             else throw ("Google AI API Error: " +:+ errorMessage))
      else throw "Google AI API Error: Maximum retry limit reached"
  end.

Definition generate (params : AIModelRequest.t) : M GenerateMessageRequest.t AIModelResponse.t :=
  generateLoop (maxRetries + 2) params 0 1000.

(** The loop of [generate] with an arbitrary statement [after] in the place
    of the [throw] that follows the loop. *)
Fixpoint generateLoopThen (after : M GenerateMessageRequest.t AIModelResponse.t)
    (fuel : nat) (params : AIModelRequest.t) (retries delay : nat)
  : M GenerateMessageRequest.t AIModelResponse.t :=
  match fuel with
  | 0 => out_of_fuel
  | S fuel' =>
      if (retries <=? maxRetries)%nat then
        try_catch (attempt params)
          (fun errorMessage =>
             if isRateLimitError errorMessage && (retries <? maxRetries)%nat then
               sleep delay ;;;
               generateLoopThen after fuel' params (retries + 1) (delay * 2)
             else throw ("Google AI API Error: " +:+ errorMessage))
      else after
  end.


(** [while (sentChars < text.length) { ... }] of [generateStream]. *)
Fixpoint streamLoop (fuel : nat) (streamId : string) (response : AIModelResponse.t)
    (sentChars : nat) : M GenerateMessageRequest.t unit :=
  match fuel with
  | 0 => out_of_fuel
  | S fuel' =>
      let text := AIModelResponse.content response in
      if (sentChars <? String.length text)%nat then
        let chunk := JS.substring text sentChars (sentChars + chunkSize) in
        let sentChars := sentChars + chunkSize in
        let last := (String.length text <=? sentChars)%nat in
        onChunk (StreamChunk.mk streamId CONTENT_DELTA (PayloadText chunk) last
                   (AIModelResponse.modelId response) None
                   (if last then Some (AIModelResponse.usage response) else None)) ;;;
        sleep 50 ;;;
        streamLoop fuel' streamId response sentChars
      else ret tt
  end.

Definition generateStream (params : AIModelRequest.t) (streamId : string)
  : M GenerateMessageRequest.t AIModelResponse.t :=
  try_catch
    (response <- generate params ;;
     streamLoop (String.length (AIModelResponse.content response) + 1) streamId response 0 ;;;
     ret response)
    (fun error =>
       onChunk (errorChunk streamId error (AIModelRequest.modelId params) "google") ;;;
       throw ("Google AI Streaming Error: " +:+ error)).

End Provider.
End Google.

(** ** The base provider (baseProvider.ts) *)

Module BaseModelProvider.
Section Provider.
Context `{Runtime} {Req : Type}.
(** The abstract method [generate] of the subclass. *)
Variable generate : AIModelRequest.t -> M Req AIModelResponse.t.

(** The default [generateStream]: one call of [generate], one chunk. *)
Definition generateStream (params : AIModelRequest.t) (streamId : string)
  : M Req AIModelResponse.t :=
  response <- generate params ;;
  onChunk (StreamChunk.mk streamId CONTENT_DELTA
             (PayloadText (AIModelResponse.content response)) true
             (AIModelResponse.modelId response)
             (Some (AIModelResponse.provider response))
             (Some (AIModelResponse.usage response))) ;;;
  ret response.

(** [Boolean(this.apiKey)] *)
Definition isAvailable (apiKey : string) : bool := JS.truthy apiKey.

End Provider.
End BaseModelProvider.

(** ** The model router (class ModelService) *)

Module ModelService.

(** The part of [AppConfig] the router reads. *)
Module AppConfig.
Record t := mk {
  openaiApiKey : option string;
  anthropicApiKey : option string;
  geminiApiKey : option string
}.
End AppConfig.

(** A constructed adapter, with the key it was given. *)
Inductive ModelProvider :=
| OpenAIProvider (apiKey : string)
| AnthropicProvider (apiKey : string)
| GoogleAIProvider (apiKey : string).

Definition apiKey (p : ModelProvider) : string :=
  match p with
  | OpenAIProvider k | AnthropicProvider k | GoogleAIProvider k => k
  end.

Section Router.
Context `{Shared}.

(** [if (key) this.providers.set(id, new Provider(key))] *)
Definition register (id : string) (key : option string) (make : string -> ModelProvider)
    (providers : gmap string ModelProvider) : gmap string ModelProvider :=
  match key with
  | Some k => if JS.truthy k then <[id := make k]> providers else providers
  | None => providers
  end.

(** The three [if] statements of [initializeProviders], in order; the
    constructors of the adapters are taken not to throw, so the [catch] of
    the method is not entered. *)
Definition initializeProviders (config : AppConfig.t) : gmap string ModelProvider :=
  register PROVIDERS_GOOGLE (AppConfig.geminiApiKey config) GoogleAIProvider
    (register PROVIDERS_ANTHROPIC (AppConfig.anthropicApiKey config) AnthropicProvider
       (register PROVIDERS_OPENAI (AppConfig.openaiApiKey config) OpenAIProvider ∅)).

(** The [if] chain on the prefix of the model id; [None] when the chain
    ends in [return null]. *)
Definition providerIdOf (modelId : string) : option string :=
  if JS.startsWith modelId "gpt" then Some PROVIDERS_OPENAI
  else if JS.startsWith modelId "claude" then Some PROVIDERS_ANTHROPIC
  else if JS.startsWith modelId "gemini" then Some PROVIDERS_GOOGLE
  else None.

(** [None] is the [null] of the source. *)
Definition getProviderForModel (providers : gmap string ModelProvider) (modelId : string)
  : option ModelProvider :=
  match providerIdOf modelId with
  | Some provider => providers !! provider
  | None => None
  end.

Definition isProviderAvailable (providers : gmap string ModelProvider) (provider : string)
  : bool :=
  match providers !! provider with
  | Some modelProvider => BaseModelProvider.isAvailable (apiKey modelProvider)
  | None => false
  end.

(** [Array.from(this.providers.keys())], as the set of its elements: a
    finite map does not record the order of insertion. *)
Definition getAvailableProviders (providers : gmap string ModelProvider) : gset string :=
  dom providers.

End Router.
End ModelService.

(** ** The stand-alone model service (modelService.ts) *)

Module ModelServiceImplementation.

(** An element of [params.messages]. *)
Module ChatTurn.
Record t := mk {
  role : string;
  content : string
}.
End ChatTurn.

Module Options.
Record t := mk {
  temperature : option Q;
  maxTokens : option nat;
  system : option string
}.
End Options.

Module Params.
Record t := mk {
  provider : string;
  model : string;
  messages : list ChatTurn.t;
  options : option Options.t
}.
End Params.

(** [requestBody] *)
Module RequestBody.
Record t := mk {
  model : string;
  messages : list ChatTurn.t;
  max_tokens : nat;
  temperature : option Q;
  system : option string
}.
End RequestBody.

(** [mockUsage] *)
Module MockUsage.
Record t := mk {
  promptTokens : Q;
  completionTokens : Q;
  totalTokens : Q
}.
End MockUsage.

(** The [usage] of a result: [response.usage] handed on, or [mockUsage]. *)
Inductive ResultUsage :=
| Reported (usage : option Anthropic.ResponseUsage.t)
| Estimated (usage : MockUsage.t).

(** The result of [generate], without its [metadata]. *)
Module Result.
Record t := mk {
  content : string;
  usage : ResultUsage
}.
End Result.

Definition doubleQuote : string := String (Ascii.ascii_of_nat 34) EmptyString.

Section Service.
Context `{Runtime}.
(** [this.anthropic]: [None] when the constructor found no
    [ANTHROPIC_API_KEY]; otherwise its [messages.create]. *)
Variable anthropic :
  option (nat -> RequestBody.t -> Settled Anthropic.AnthropicMessage.t).

Definition requestBody (params : Params.t) : RequestBody.t :=
  let options := Params.options params in
  RequestBody.mk (Params.model params)
    (map (fun msg => ChatTurn.mk (ChatTurn.role msg) (ChatTurn.content msg))
       (Params.messages params))
    (match options ≫= Options.maxTokens with
     | Some (S n) => S n
     | _ => 1024
     end)
    (options ≫= Options.temperature)
    (options ≫= Options.system).

(** [response.content.map(block => block.type === 'text' ? block.text : '').join('')];
    [join] writes nothing for an [undefined] element. *)
Definition responseContent (response : Anthropic.AnthropicMessage.t) : string :=
  JS.join EmptyString
    (map (fun block =>
            if bool_decide (Anthropic.AnthropicContentBlock.type block = "text")
            then default EmptyString (Anthropic.AnthropicContentBlock.text block)
            else EmptyString)
       (Anthropic.AnthropicMessage.content response)).

(** The template literal [mockContent], for [params.model] and the content
    of the last message. *)
Definition mockContent (model lastContent : string) : string :=
  "// Mock AI-generated content for model " +:+ model +:+ JS.newline
  +:+ "// Based on prompt: " +:+ JS.substring lastContent 0 50 +:+ "..." +:+ JS.newline
  +:+ "function mockFunction() {" +:+ JS.newline
  +:+ "  console.log(" +:+ doubleQuote +:+ "Hello from mock AI!" +:+ doubleQuote +:+ ");"
  +:+ JS.newline
  +:+ "}" +:+ JS.newline.

(** [text.length / 4], not rounded to a whole number. *)
Definition quarter (text : string) : Q := fl (inject_Z (Z.of_nat (String.length text)) / 4).

Definition mockUsage (messages : list ChatTurn.t) (content : string) : MockUsage.t :=
  let promptTokens :=
    foldl (fun sum msg => fl (sum + quarter (ChatTurn.content msg))) 0%Q messages in
  let completionTokens := quarter content in
  MockUsage.mk promptTokens completionTokens (fl (promptTokens + completionTokens)).

(** [generate]: the Anthropic branch, the branch that throws for a missing
    client, and the mock answer after a wait of 500 ms. Reading [.content]
    of the last message of an empty array throws a TypeError. *)
Definition generate (params : Params.t) : M RequestBody.t Result.t :=
  if bool_decide (Params.provider params = "anthropic") then
    match anthropic with
    | Some create =>
        try_catch
          (response <- call create (requestBody params) ;;
           ret (Result.mk (responseContent response)
                  (Reported (Anthropic.AnthropicMessage.usage response))))
          (fun error => throw ("Anthropic API Error: " +:+ error))
    | None => throw "Anthropic client not initialized. Please provide ANTHROPIC_API_KEY."
    end
  else
    sleep 500 ;;;
    match last (Params.messages params) with
    | Some message =>
        let content := mockContent (Params.model params) (ChatTurn.content message) in
        ret (Result.mk content (Estimated (mockUsage (Params.messages params) content)))
    | None => throw "Cannot read properties of undefined (reading 'content')"
    end.

End Service.
End ModelServiceImplementation.

(** ** The cache (cacheService.ts) *)

Module CacheService.

Definition MAX_KEY_LENGTH : nat := 250.

(** [Math.min(Math.pow(2, retries) * 100, 10000)]. The powers of two and
    their products with 100 are exact in binary64 until they overflow to
    Infinity, where the minimum is 10000 as it is here. *)
Definition reconnectStrategy (retries : N) : N := N.min (2 ^ retries * 100) 10000.

Definition DEFAULT_TTL : nat := 3600.

Definition COMPRESSION_THRESHOLD : nat := 1024.

Module CacheOptions.
Record t := mk {
  ttl : option nat;
  compress : option bool;
  namespace : option string
}.
End CacheOptions.

(** [cacheData], the object stored with a value. *)
Module CacheData.
Record t := mk {
  value : string;
  compressed : bool;
  timestamp : nat;
  ttl : nat
}.
End CacheData.

Module Stats.
Record t := mk {
  hits : nat;
  misses : nat
}.
End Stats.

Definition hit (stats : Stats.t) : Stats.t :=
  Stats.mk (S (Stats.hits stats)) (Stats.misses stats).

Definition miss (stats : Stats.t) : Stats.t :=
  Stats.mk (Stats.hits stats) (S (Stats.misses stats)).

Section Cache.
Context `{Runtime}.
(** [crypto.createHash('sha256').update(s).digest('hex')] *)
Variable sha256_hex : string -> string.

(** A [key: string | object]. *)
Inductive Key :=
| StringKey (key : string)
| ObjectKey (data : JSValue).

Definition generateKey (data : JSValue) (namespace : option string) : string :=
  let hash := JS.substring (sha256_hex (JSON_stringify data)) 0 32 in
  let prefix :=
    if JS.truthy_opt namespace
    then "miktos:" +:+ default EmptyString namespace +:+ ":"
    else "miktos:" in
  let key := prefix +:+ hash in
  if (MAX_KEY_LENGTH <? String.length key)%nat
  then JS.substring key 0 MAX_KEY_LENGTH
  else key.

(** [typeof key === 'string' ? key : this.generateKey(key, namespace)] *)
Definition cacheKey (key : Key) (namespace : option string) : string :=
  match key with
  | StringKey k => k
  | ObjectKey data => generateKey data namespace
  end.

(** [get], as a function of the counters. The answer is of type
    [T | null]: [null] is the [null] the method returns when it has no
    value, and the value read from the cache is returned as it is, so it is
    [null] as well when the text [null] was stored. [available] is
    [this.isConnected && this.redis]; [redis_get] is the outcome of
    [this.redis.get(cacheKey)], [None] for [null]; [decode] is
    [JSON.parse(cached)], [decompressData] and [JSON.parse] of the value, one
    after the other, [None] when one of them throws. The serialisation of
    an object key is taken not to throw. *)
Definition get {T : Type} (null : T) (available : bool)
    (redis_get : string -> Settled (option string))
    (decode : string -> option T) (key : Key) (namespace : option string)
    (stats : Stats.t) : T * Stats.t :=
  if negb available then (null, miss stats)
  else
    match redis_get (cacheKey key namespace) with
    | Rejected _ => (null, miss stats)
    | Resolved cached =>
        if negb (JS.truthy_opt cached) then (null, miss stats)
        else
          let stats := hit stats in
          match decode (default EmptyString cached) with
          | Some value => (value, stats)
          | None => (null, miss stats)
          end
    end.

(** [zlib.gzipSync(data).toString('base64')], and
    [zlib.gunzipSync(Buffer.from(data, 'base64')).toString()], [None] when
    it throws. *)
Variable gzip : string -> string.
Variable gunzip : string -> option string.
(** [JSON.stringify(cacheData)]; [JSON.parse(cached)] read as a [cacheData]
    object and [JSON.parse] of a value, [None] when the reading fails. *)
Variable stringifyData : CacheData.t -> string.
Variable parseData : string -> option CacheData.t.
Variable parseValue : string -> option JSValue.

Definition compressData (data : string) : string :=
  if (COMPRESSION_THRESHOLD <? String.length data)%nat then gzip data else data.

Definition decompressData (data : string) (compressed : bool) : option string :=
  if compressed then gunzip data else Some data.

(** What [get] does with a stored string after counting the hit. *)
Definition decode (cached : string) : option JSValue :=
  cacheData ← parseData cached;
  decompressedValue ← decompressData (CacheData.value cacheData)
                        (CacheData.compressed cacheData);
  parseValue decompressedValue.

(** [set], over the strings Redis holds, their expiry aside. [setEx_fails]
    tells whether [this.redis.setEx] rejects, [now] is [Date.now()]. The
    serialisation of the key and of the value and the compression are
    taken not to throw. *)
Definition set (available setEx_fails : bool) (now : nat) (key : Key) (value : JSValue)
    (options : CacheOptions.t) (store : gmap string string) : bool * gmap string string :=
  if negb available then (false, store)
  else
    let cacheKey := cacheKey key (CacheOptions.namespace options) in
    let ttl :=
      match CacheOptions.ttl options with
      | Some (S n) => S n
      | _ => DEFAULT_TTL
      end in
    let serializedValue := JSON_stringify value in
    let shouldCompress :=
      negb (bool_decide (CacheOptions.compress options = Some false))
      && (COMPRESSION_THRESHOLD <? String.length serializedValue)%nat in
    let finalValue := if shouldCompress then compressData serializedValue else serializedValue in
    let cacheData := CacheData.mk finalValue shouldCompress now ttl in
    if setEx_fails then (false, store)
    else (true, <[cacheKey := stringifyData cacheData]> store).

End Cache.
End CacheService.


(** ** The mailer (emailService.ts) *)

Module EmailService.

(** [html.replace(/<[^>]*>/g, '')]. The pattern matches at a [<] that is
    followed, however far, by a [>], up to the first such [>]; the scan
    goes on behind the match. [inTag] tells that the scan is inside a
    match. *)
Fixpoint stripTags (inTag : bool) (html : string) : string :=
  match html with
  | EmptyString => EmptyString
  | String c rest =>
      if inTag then
        if Ascii.eqb c ">" then stripTags false rest else stripTags true rest
      else if Ascii.eqb c "<" && JS.includes rest ">" then stripTags true rest
      else String c (stripTags false rest)
  end.

(** [text || html.replace(/<[^>]*>/g, '')] of [sendEmail]. *)
Definition plainText (text : option string) (html : string) : string :=
  if JS.truthy_opt text then default EmptyString text else stripTags false html.

End EmailService.


(** ** A concrete configuration

    One choice of the imported constants and of the runtime, used to run
    the adapters on examples: the enum members named after themselves,
    [JSON.stringify] on the three literals [null], [true] and [false], and
    exact arithmetic for the rounding. *)

Inductive Literal := LitNull | LitTrue | LitFalse.

Definition stringifyLiteral (v : Literal) : string :=
  match v with
  | LitNull => "null"
  | LitTrue => "true"
  | LitFalse => "false"
  end.

Definition exampleShared : Shared := {|
  ContentBlockType_TEXT := "text";
  ContentBlockType_CODE := "code";
  ContentBlockType_TOOL_USE := "tool_use";
  ContentBlockType_TOOL_RESULT := "tool_result";
  ContentBlockType_IMAGE := "image";
  MODEL_IDS_GPT_4 := "gpt-4";
  MODEL_IDS_GPT_4_TURBO := "gpt-4-turbo";
  MODEL_IDS_GPT_3_5_TURBO := "gpt-3.5-turbo";
  MODEL_IDS_CLAUDE_3_OPUS := "claude-3-opus";
  MODEL_IDS_CLAUDE_3_SONNET := "claude-3-sonnet";
  MODEL_IDS_CLAUDE_3_HAIKU := "claude-3-haiku";
  MODEL_IDS_GEMINI_PRO := "gemini-pro";
  MODEL_IDS_GEMINI_ULTRA := "gemini-ultra";
  PROVIDERS_OPENAI := "openai";
  PROVIDERS_ANTHROPIC := "anthropic";
  PROVIDERS_GOOGLE := "google"
|}.

Definition exampleRuntime : Runtime := {|
  JSValue := Literal;
  JSON_stringify := stringifyLiteral;
  JSON_error := fun _ => None;
  fl := fun q => q
|}.

(** Example requests and backends. *)
Definition textRequest (modelId prompt : string) : @AIModelRequest.t exampleRuntime :=
  AIModelRequest.mk modelId (PromptText prompt) None None None None None.

Definition messagesRequest (modelId : string) (messages : list (@Message.t exampleRuntime))
  : @AIModelRequest.t exampleRuntime :=
  AIModelRequest.mk modelId (PromptMessages messages) None None None None None.

(** A backend that always answers [answer]. *)
Definition answering {Req Resp} (answer : Resp) : nat -> Req -> Settled Resp :=
  fun _ _ => Resolved answer.

(** A backend that rejects every request with [message]. *)
Definition rejecting {Req Resp} (message : string) : nat -> Req -> Settled Resp :=
  fun _ _ => Rejected message.


Definition googleAnswer (content : string) : Google.GenerateMessageResponse.t :=
  Google.GenerateMessageResponse.mk [Google.Candidate.mk (Some content) (Some "STOP")].

(** An OpenAI answer, with or without the usage the backend reports. *)
Definition openaiAnswer (content : string) (usage : option OpenAI.CompletionUsage.t)
  : OpenAI.ChatCompletion.t :=
  OpenAI.ChatCompletion.mk [OpenAI.Choice.mk (Some content) (Some "stop")] usage.

Definition anthropicAnswer (content : string) (usage : option Anthropic.ResponseUsage.t)
  : Anthropic.AnthropicMessage.t :=
  Anthropic.AnthropicMessage.mk [Anthropic.AnthropicContentBlock.mk "text" (Some content)]
    usage (Some "end_turn").

(** The adapter registered for a present, non-empty key. *)
Definition adapterFor (key : option string) (make : string -> ModelService.ModelProvider)
  : option ModelService.ModelProvider :=
  match key with
  | Some k => if JS.truthy k then Some (make k) else None
  | None => None
  end.

(** A message of one text block. *)
Definition textMessage (role : MessageRole) (s : string) : @Message.t exampleRuntime :=
  Message.mk role [ContentBlock.mk "text" (Some s) None None None None None] None.

(** The name the OpenAI and the Google adapter give to a role. *)
Definition openaiRole (role : MessageRole) : string :=
  match role with
  | SYSTEM => "system"
  | USER => "user"
  | ASSISTANT => "assistant"
  | TOOL => "tool"
  end.

Definition googleAuthor (role : MessageRole) : string :=
  match role with
  | SYSTEM => "system"
  | USER => "user"
  | ASSISTANT => "model"
  | TOOL => "user"
  end.

(** A configuration with an OpenAI and a Google key only. *)
Definition twoKeys : ModelService.AppConfig.t :=
  ModelService.AppConfig.mk (Some "sk-1") None (Some "g-1").

(** A rounding that is not exact: to the nearest multiple of 1/1024,
    halves upwards. *)
Definition roundToGrid (q : Q) : Q := inject_Z (Qfloor (q * 1024 + (1 # 2))) / 1024.

Definition gridRuntime : Runtime := {|
  JSValue := Literal;
  JSON_stringify := stringifyLiteral;
  JSON_error := fun _ => None;
  fl := roundToGrid
|}.


Definition exampleGunzip (data : string) : option string :=
  match data with
  | String "z"%char rest => Some rest
  | _ => None
  end.

Fixpoint ones (n : nat) (rest : string) : string :=
  match n with
  | 0 => String ","%char rest
  | S n' => String "1"%char (ones n' rest)
  end.

Fixpoint take_ones (s : string) : nat * string :=
  match s with
  | String "1"%char rest => let (n, rest') := take_ones rest in (S n, rest')
  | String _ rest => (0, rest)
  | EmptyString => (0, EmptyString)
  end.

Definition exampleStringifyData (data : CacheService.CacheData.t) : string :=
  String (if CacheService.CacheData.compressed data then "1"%char else "0"%char)
    (ones (CacheService.CacheData.timestamp data)
       (ones (CacheService.CacheData.ttl data) (CacheService.CacheData.value data))).

Definition exampleParseData (cached : string) : option CacheService.CacheData.t :=
  match cached with
  | String flag rest =>
      let (timestamp, rest1) := take_ones rest in
      let (ttl, value) := take_ones rest1 in
      Some (CacheService.CacheData.mk value (bool_decide (flag = "1"%char)) timestamp ttl)
  | EmptyString => None
  end.

Definition exampleParseValue (text : string) : option Literal :=
  if bool_decide (text = "null") then Some LitNull
  else if bool_decide (text = "true") then Some LitTrue
  else if bool_decide (text = "false") then Some LitFalse
  else None.

(** The rendering of a block as the design document words it: chosen by
    the type tag alone. *)
Definition documentedRenderBlock `{Shared, Runtime} (block : ContentBlock.t) : string :=
  let ty := ContentBlock.type block in
  if bool_decide (ty = ContentBlockType_TEXT) then
    default EmptyString (ContentBlock.text block)
  else if bool_decide (ty = ContentBlockType_CODE) then
    "```" +:+ default EmptyString (ContentBlock.language block) +:+ JS.newline
      +:+ default EmptyString (ContentBlock.code block) +:+ JS.newline +:+ "```"
  else if bool_decide (ty = ContentBlockType_TOOL_USE) then
    "[Tool use: " +:+ default EmptyString (ContentBlock.toolName block) +:+ "]"
  else if bool_decide (ty = ContentBlockType_TOOL_RESULT) then
    "[Tool result: " +:+
      match ContentBlock.result block with
      | Some v => JSON_stringify v
      | None => "undefined"
      end +:+ "]"
  else if bool_decide (ty = ContentBlockType_IMAGE) then
    "[Image: " +:+ default EmptyString (ContentBlock.caption block) +:+ "]"
  else
    "[" +:+ ty +:+ " content]".

(** Example blocks. *)
Definition emptyTextBlock : @ContentBlock.t exampleRuntime :=
  ContentBlock.mk "text" (Some EmptyString) None None None None None.

Definition imageWithoutCaption : @ContentBlock.t exampleRuntime :=
  ContentBlock.mk "image" None None None None None None.

Definition textBlock (s : string) : @ContentBlock.t exampleRuntime :=
  ContentBlock.mk "text" (Some s) None None None None None.

Definition resultBlock (result : option Literal) : @ContentBlock.t exampleRuntime :=
  @ContentBlock.mk exampleRuntime "tool_result" None None None None result None.

(** A runtime with a value on which [JSON.stringify] throws: the values
    are [true] and the BigInts, written by their digits. No text is read
    for a BigInt. *)
Inductive Scalar :=
| ScalarTrue
| ScalarBigInt (digits : string).

Definition scalarRuntime : Runtime := {|
  JSValue := Scalar;
  JSON_stringify := fun v =>
    match v with
    | ScalarTrue => "true"
    | ScalarBigInt _ => EmptyString
    end;
  JSON_error := fun v =>
    match v with
    | ScalarTrue => None
    | ScalarBigInt _ => Some "Do not know how to serialize a BigInt"
    end;
  fl := fun q => q
|}.

(** A TOOL_RESULT block whose result is the BigInt [1n]. *)
Definition bigIntResultBlock : @ContentBlock.t scalarRuntime :=
  @ContentBlock.mk scalarRuntime "tool_result" None None None None
    (Some (ScalarBigInt "1")) None.

Definition scalarTextBlock (s : string) : @ContentBlock.t scalarRuntime :=
  ContentBlock.mk "text" (Some s) None None None None None.

(** A model id that the lookup of a table prices: one of the table, or
    one that is not the name of an inherited member. *)
Definition priced (costs : gmap string ModelCost.t) (modelId : string) : Prop :=
  is_Some (costs !! modelId) \/ modelId ∉ inheritedNames.

(** What the design document asks of a cost estimator over a price table
    with a default tier, on the model ids the lookup prices: it yields a
    cost, never a negative one; the cost does not decrease when either token
    count grows; it is zero for zero tokens; and a model id that is not in
    the table is priced as the default tier. *)
Definition CostEstimator (calculateCost : string -> nat -> nat -> option JSNumber)
    (costs : gmap string ModelCost.t) (fallback : string) : Prop :=
  (forall modelId p c,
     priced costs modelId ->
     exists cost, calculateCost modelId p c = Some (Num cost) /\ (0 <= cost)%Q) /\
  (forall modelId p c p' c' cost cost',
     p <= p' -> c <= c' ->
     calculateCost modelId p c = Some (Num cost) ->
     calculateCost modelId p' c' = Some (Num cost') ->
     (cost <= cost')%Q) /\
  (forall modelId cost, calculateCost modelId 0 0 = Some (Num cost) -> (cost == 0)%Q) /\
  (forall modelId p c,
     costs !! modelId = None -> modelId ∉ inheritedNames ->
     calculateCost modelId p c = calculateCost fallback p c).

(** The facts about rounding to binary64 that the cost arithmetic relies
    on: rounding is monotone and keeps zero. *)
Definition monotone_rounding `{Runtime} : Prop :=
  forall x y : Q, (x <= y)%Q -> (fl x <= fl y)%Q.

Definition rounding_keeps_zero `{Runtime} : Prop := (fl 0 == 0)%Q.

(** * Properties *)

(** ** Strings *)

Lemma truthy_true_iff (s : string) : JS.truthy s = true <-> s <> EmptyString.
Proof. destruct s; simpl; split; congruence. Qed.

Lemma truthy_opt_Some (o : option string) (s : string) :
  o = Some s -> s <> EmptyString -> JS.truthy_opt o = true.
Proof. intros -> Hs. now apply truthy_true_iff. Qed.

Lemma or_else_truthy (o : option string) (d : string) :
  JS.truthy_opt o = true -> JS.or_else o d = default EmptyString o.
Proof. destruct o as [s|]; simpl; [|discriminate]. now intros ->. Qed.

(** ** Rendering of content blocks *)

Section RenderingFacts.
Context `{Shared, Runtime}.

Lemma distinct_block_types_ne :
  distinct_block_types ->
  ContentBlockType_TEXT <> ContentBlockType_CODE /\
  ContentBlockType_TEXT <> ContentBlockType_TOOL_USE /\
  ContentBlockType_TEXT <> ContentBlockType_TOOL_RESULT /\
  ContentBlockType_TEXT <> ContentBlockType_IMAGE /\
  ContentBlockType_CODE <> ContentBlockType_TOOL_USE /\
  ContentBlockType_CODE <> ContentBlockType_TOOL_RESULT /\
  ContentBlockType_CODE <> ContentBlockType_IMAGE /\
  ContentBlockType_TOOL_USE <> ContentBlockType_TOOL_RESULT /\
  ContentBlockType_TOOL_USE <> ContentBlockType_IMAGE /\
  ContentBlockType_TOOL_RESULT <> ContentBlockType_IMAGE.
Proof.
  unfold distinct_block_types. rewrite !NoDup_cons.
  intros (H1 & H2 & H3 & H4 & _).
  repeat split; intros E; set_solver.
Qed.

(** Where the serialisation of the result returns, the arrow function
    returns the text of [renderBlock]. *)
Lemma tryRenderBlock_serialisable (block : ContentBlock.t) :
  serialisable block -> tryRenderBlock block = Text (renderBlock block).
Proof.
  intros Hs. unfold tryRenderBlock, renderBlock. cbv zeta.
  destruct (bool_decide (_ = ContentBlockType_TEXT) && _); [reflexivity|].
  destruct (bool_decide (_ = ContentBlockType_CODE) && _); [reflexivity|].
  destruct (bool_decide (_ = ContentBlockType_TOOL_USE) && _); [reflexivity|].
  case_bool_decide as Ht.
  - unfold stringifyResult.
    destruct (ContentBlock.result block) as [v|] eqn:Hr; [|reflexivity].
    now rewrite (Hs v Ht Hr).
  - destruct (bool_decide (_ = ContentBlockType_IMAGE) && _); reflexivity.
Qed.

Lemma tryRenderBlocks_serialisable (blocks : list ContentBlock.t) :
  Forall serialisable blocks -> tryRenderBlocks blocks = inl (map renderBlock blocks).
Proof.
  induction 1 as [|block blocks Hblock _ IH]; [reflexivity|].
  cbn [tryRenderBlocks map]. now rewrite (tryRenderBlock_serialisable _ Hblock), IH.
Qed.

(** C6, as amended. On a sequence of blocks in which [JSON.stringify]
    returns on the result of every TOOL_RESULT block, the conversion
    returns: it is a function of the blocks, the same in the three
    adapters, and yields the renderings of the blocks, in order, joined by
    a line feed, one rendering per block. A TEXT block with a non-empty
    text renders as that text; a CODE block with a non-empty code as a
    fenced block tagged with its language (no tag when the language is
    missing or empty); a TOOL_USE block with a non-empty tool name as
    [Tool use: name]; a TOOL_RESULT block as [Tool result: json], and as
    [Tool result: undefined] when it has no result; an IMAGE block with a
    non-empty caption as [Image: caption]; and every other block, that is a
    block of another type or a TEXT, CODE, TOOL_USE or IMAGE block whose
    text, code, tool name or caption is missing or empty, as the
    placeholder [type content] ([unknown content] when the type is
    empty). *)
Theorem C6_blocks_to_text (blocks : list ContentBlock.t) (block : ContentBlock.t) :
  distinct_block_types ->
  (Forall serialisable blocks ->
   tryBlocksToText blocks = Text (JS.join JS.newline (map renderBlock blocks))) /\
  (serialisable block -> tryRenderBlock block = Text (renderBlock block)) /\
  OpenAI.getTextFromContentBlocks blocks = JS.join JS.newline (map renderBlock blocks) /\
  Anthropic.getTextFromContentBlocks blocks = JS.join JS.newline (map renderBlock blocks) /\
  Google.getTextFromContentBlocks blocks = JS.join JS.newline (map renderBlock blocks) /\
  length (map renderBlock blocks) = length blocks /\
  (forall s, ContentBlock.type block = ContentBlockType_TEXT ->
     ContentBlock.text block = Some s -> s <> EmptyString ->
     renderBlock block = s) /\
  (forall c, ContentBlock.type block = ContentBlockType_CODE ->
     ContentBlock.code block = Some c -> c <> EmptyString ->
     renderBlock block =
       "```" +:+ JS.or_else (ContentBlock.language block) EmptyString +:+ JS.newline
       +:+ c +:+ JS.newline +:+ "```") /\
  (forall n, ContentBlock.type block = ContentBlockType_TOOL_USE ->
     ContentBlock.toolName block = Some n -> n <> EmptyString ->
     renderBlock block = "[Tool use: " +:+ n +:+ "]") /\
  (forall v, ContentBlock.type block = ContentBlockType_TOOL_RESULT ->
     ContentBlock.result block = Some v ->
     renderBlock block = "[Tool result: " +:+ JSON_stringify v +:+ "]") /\
  (ContentBlock.type block = ContentBlockType_TOOL_RESULT ->
   ContentBlock.result block = None ->
   renderBlock block = "[Tool result: undefined]") /\
  (forall c, ContentBlock.type block = ContentBlockType_IMAGE ->
     ContentBlock.caption block = Some c -> c <> EmptyString ->
     renderBlock block = "[Image: " +:+ c +:+ "]") /\
  ((ContentBlock.type block = ContentBlockType_TEXT ->
      JS.truthy_opt (ContentBlock.text block) = false) ->
   (ContentBlock.type block = ContentBlockType_CODE ->
      JS.truthy_opt (ContentBlock.code block) = false) ->
   (ContentBlock.type block = ContentBlockType_TOOL_USE ->
      JS.truthy_opt (ContentBlock.toolName block) = false) ->
   ContentBlock.type block <> ContentBlockType_TOOL_RESULT ->
   (ContentBlock.type block = ContentBlockType_IMAGE ->
      JS.truthy_opt (ContentBlock.caption block) = false) ->
   renderBlock block = placeholder block).
Proof.
  intros Hd. apply distinct_block_types_ne in Hd.
  destruct Hd as (N1 & N2 & N3 & N4 & N5 & N6 & N7 & N8 & N9 & N10).
  split.
  { intros Hall. unfold tryBlocksToText. now rewrite (tryRenderBlocks_serialisable _ Hall). }
  split; [apply tryRenderBlock_serialisable|].
  split; [reflexivity|]. split; [reflexivity|]. split; [reflexivity|].
  split; [apply length_map|].
  unfold renderBlock, placeholder.
  repeat split.
  - intros s Ht Hs Hne. rewrite Ht, Hs.
    rewrite bool_decide_eq_true_2 by done. simpl.
    apply truthy_true_iff in Hne. now rewrite Hne.
  - intros c Ht Hc Hne. rewrite Ht, Hc.
    rewrite (bool_decide_eq_false_2 (_ = ContentBlockType_TEXT)) by congruence.
    rewrite bool_decide_eq_true_2 by done. simpl.
    apply truthy_true_iff in Hne. now rewrite Hne.
  - intros n Ht Hn Hne. rewrite Ht, Hn.
    rewrite (bool_decide_eq_false_2 (_ = ContentBlockType_TEXT)) by congruence.
    rewrite (bool_decide_eq_false_2 (_ = ContentBlockType_CODE)) by congruence.
    rewrite bool_decide_eq_true_2 by done. simpl.
    apply truthy_true_iff in Hne. now rewrite Hne.
  - intros v Ht Hv. rewrite Ht, Hv.
    rewrite (bool_decide_eq_false_2 (_ = ContentBlockType_TEXT)) by congruence.
    rewrite (bool_decide_eq_false_2 (_ = ContentBlockType_CODE)) by congruence.
    rewrite (bool_decide_eq_false_2 (_ = ContentBlockType_TOOL_USE)) by congruence.
    rewrite bool_decide_eq_true_2 by done. reflexivity.
  - intros Ht Hv. rewrite Ht, Hv.
    rewrite (bool_decide_eq_false_2 (_ = ContentBlockType_TEXT)) by congruence.
    rewrite (bool_decide_eq_false_2 (_ = ContentBlockType_CODE)) by congruence.
    rewrite (bool_decide_eq_false_2 (_ = ContentBlockType_TOOL_USE)) by congruence.
    rewrite bool_decide_eq_true_2 by done. reflexivity.
  - intros c Ht Hc Hne. rewrite Ht, Hc.
    rewrite (bool_decide_eq_false_2 (_ = ContentBlockType_TEXT)) by congruence.
    rewrite (bool_decide_eq_false_2 (_ = ContentBlockType_CODE)) by congruence.
    rewrite (bool_decide_eq_false_2 (_ = ContentBlockType_TOOL_USE)) by congruence.
    rewrite (bool_decide_eq_false_2 (_ = ContentBlockType_TOOL_RESULT)) by congruence.
    rewrite bool_decide_eq_true_2 by done. simpl.
    apply truthy_true_iff in Hne. now rewrite Hne.
  - intros G1 G2 G3 G4 G5.
    repeat case_bool_decide; simpl;
      repeat match goal with
             | G : ?a = ?b -> _, E : ?a = ?b |- _ => specialize (G E); rewrite G
             end; simpl; try reflexivity; congruence.
Qed.

(** Whatever the members of the enum are, a TEXT block with an empty text
    is not rendered as its text. *)
Lemma empty_text_is_not_raw (block : ContentBlock.t) :
  ContentBlock.type block = ContentBlockType_TEXT ->
  ContentBlock.text block = Some EmptyString ->
  renderBlock block <> EmptyString.
Proof.
  intros Ht Hs. unfold renderBlock. rewrite Hs. simpl. rewrite andb_false_r.
  repeat match goal with
         | |- context [if ?b then _ else _] => destruct b
         end; discriminate.
Qed.

End RenderingFacts.

(** C6 applied to a text block, an image without caption, a tool result
    without result and the tool result [null]: the conversion returns, with
    four renderings. *)
Lemma C6_blocks_to_text_witness :
  @tryBlocksToText exampleShared exampleRuntime
    [textBlock "hi"; imageWithoutCaption; resultBlock None; resultBlock (Some LitNull)]
  = Text ("hi" +:+ JS.newline +:+ "[image content]" +:+ JS.newline
          +:+ "[Tool result: undefined]" +:+ JS.newline +:+ "[Tool result: null]") /\
  @OpenAI.getTextFromContentBlocks exampleShared exampleRuntime
    [textBlock "hi"; imageWithoutCaption; resultBlock None; resultBlock (Some LitNull)]
  = "hi" +:+ JS.newline +:+ "[image content]" +:+ JS.newline
    +:+ "[Tool result: undefined]" +:+ JS.newline +:+ "[Tool result: null]".
Proof.
  assert (D : @distinct_block_types exampleShared) by (unfold distinct_block_types; apply (bool_decide_unpack _); vm_compute; exact I).
  destruct (@C6_blocks_to_text exampleShared exampleRuntime
              [textBlock "hi"; imageWithoutCaption; resultBlock None; resultBlock (Some LitNull)]
              (resultBlock None) D) as (Hreturns & _ & E & _).
  split.
  - rewrite Hreturns; [reflexivity|].
    repeat constructor; intros v _ _; reflexivity.
  - rewrite E. reflexivity.
Defined.

(** C6 as stated fails. A TEXT block whose text is empty is not rendered
    as its raw text, and an IMAGE block without a caption is not rendered
    as an [Image: ...] marker; both get the placeholder of unknown types.
    And the conversion does fail: on a TOOL_RESULT block whose result is a
    BigInt the serialisation throws, and so does the conversion of a
    sequence that holds such a block. *)
Lemma C6_counterexample :
  @renderBlock exampleShared exampleRuntime emptyTextBlock = "[text content]" /\
  @documentedRenderBlock exampleShared exampleRuntime emptyTextBlock = EmptyString /\
  @renderBlock exampleShared exampleRuntime imageWithoutCaption = "[image content]" /\
  @documentedRenderBlock exampleShared exampleRuntime imageWithoutCaption = "[Image: ]" /\
  @renderBlock exampleShared exampleRuntime emptyTextBlock
    <> @documentedRenderBlock exampleShared exampleRuntime emptyTextBlock /\
  @tryRenderBlock exampleShared scalarRuntime bigIntResultBlock
  = TypeError "Do not know how to serialize a BigInt" /\
  @tryBlocksToText exampleShared scalarRuntime [scalarTextBlock "hi"; bigIntResultBlock]
  = TypeError "Do not know how to serialize a BigInt".
Proof. repeat split; vm_compute; congruence. Qed.

(** ** Substrings and concatenation *)

Lemma substring_of_empty (k n : nat) : String.substring k n EmptyString = EmptyString.
Proof. destruct k, n; reflexivity. Qed.

Lemma substring_none (s : string) : forall k, String.substring k 0 s = EmptyString.
Proof. induction s as [|c s IH]; intros [|k]; simpl; auto. Qed.

Lemma append_cons (c : Ascii.ascii) (a b : string) :
  String c a +:+ b = String c (a +:+ b).
Proof. reflexivity. Qed.

Lemma append_empty_l (s : string) : EmptyString +:+ s = s.
Proof. reflexivity. Qed.

Lemma substring_append (s : string) :
  forall k n m,
    String.substring k n s +:+ String.substring (k + n) m s = String.substring k (n + m) s.
Proof.
  induction s as [|c s IH]; intros k n m.
  - now rewrite !substring_of_empty.
  - destruct k as [|k]; simpl.
    + destruct n as [|n]; simpl; [reflexivity|].
      rewrite append_cons. f_equal. apply (IH 0).
    + apply IH.
Qed.

Lemma substring_clamp (s : string) :
  forall k n,
    String.length s - k <= n ->
    String.substring k n s = String.substring k (String.length s - k) s.
Proof.
  induction s as [|c s IH]; intros k n Hn.
  - now rewrite !substring_of_empty.
  - destruct k as [|k]; simpl in *.
    + destruct n as [|n]; [lia|]. f_equal.
      rewrite (IH 0 n) by lia. now rewrite Nat.sub_0_r.
    + now apply IH.
Qed.

Lemma substring_whole (s : string) : String.substring 0 (String.length s) s = s.
Proof. induction s as [|c s IH]; simpl; [reflexivity|now rewrite IH]. Qed.

Lemma substring_length (s : string) :
  forall k n, k + n <= String.length s -> String.length (String.substring k n s) = n.
Proof.
  induction s as [|c s IH]; intros k n Hn; simpl in *.
  - assert (k = 0 /\ n = 0) as [-> ->] by lia. reflexivity.
  - destruct k as [|k]; simpl.
    + destruct n as [|n]; simpl; [reflexivity|]. f_equal. apply IH. lia.
    + apply IH. lia.
Qed.

Lemma append_empty_r (s : string) : s +:+ EmptyString = s.
Proof. induction s as [|c s IH]; [reflexivity|now rewrite append_cons, IH]. Qed.

Lemma append_assoc (a b c : string) : (a +:+ b) +:+ c = a +:+ (b +:+ c).
Proof. induction a as [|x a IH]; [reflexivity|now rewrite !append_cons, IH]. Qed.

Lemma join_empty_cons (piece : string) (pieces : list string) :
  JS.join EmptyString (piece :: pieces) = piece +:+ JS.join EmptyString pieces.
Proof.
  unfold JS.join. destruct pieces as [|p ps]; simpl.
  - now rewrite append_empty_r.
  - reflexivity.
Qed.

Lemma join_empty_app (xs ys : list string) :
  JS.join EmptyString (xs ++ ys) = JS.join EmptyString xs +:+ JS.join EmptyString ys.
Proof.
  induction xs as [|x xs IH].
  - reflexivity.
  - rewrite <- app_comm_cons, !join_empty_cons, IH. now rewrite append_assoc.
Qed.

Lemma concat_deltas_cons (chunk : StreamChunk.t) (chunks : list StreamChunk.t) :
  concat_deltas (chunk :: chunks) = delta_text chunk +:+ concat_deltas chunks.
Proof. unfold concat_deltas. simpl. apply join_empty_cons. Qed.

Lemma concat_deltas_app (xs ys : list StreamChunk.t) :
  concat_deltas (xs ++ ys) = concat_deltas xs +:+ concat_deltas ys.
Proof. unfold concat_deltas. rewrite map_app. apply join_empty_app. Qed.





(** ** The simulated stream of the Google adapter *)

Section GoogleStreamFacts.
Context `{Shared, Runtime}.

(** The loop of [generateStream], given enough iterations, ends normally;
    it hands over the text from position [k] on in pieces of [chunkSize]
    characters, the last one possibly shorter and the only final one, and
    waits 50 ms after each. *)
Lemma streamLoop_spec (streamId : string) (response : AIModelResponse.t) :
  forall fuel k w,
    0 < fuel ->
    String.length (AIModelResponse.content response) < k + fuel ->
    exists chunks,
      Google.streamLoop fuel streamId response k w
      = (Return tt,
         World.mk (World.sent w) (World.waits w ++ replicate (length chunks) 50)
           (World.emitted w ++ chunks)) /\
      concat_deltas chunks
      = String.substring k (String.length (AIModelResponse.content response) - k)
          (AIModelResponse.content response) /\
      (chunks = [] <-> String.length (AIModelResponse.content response) <= k) /\
      (forall i chunk, chunks !! i = Some chunk ->
         StreamChunk.type chunk = CONTENT_DELTA /\
         StreamChunk.isFinal chunk = bool_decide (S i = length chunks) /\
         exists text, StreamChunk.payload chunk = PayloadText text /\
                      (S i < length chunks -> String.length text = Google.chunkSize)).
Proof.
  set (text := AIModelResponse.content response).
  assert (Hsize10 : Google.chunkSize = 10) by reflexivity.
  induction fuel as [|fuel IH]; intros k w Hfuel Hlen; [lia|].
  simpl. fold text.
  destruct (Nat.ltb_spec k (String.length text)) as [Hk|Hk].
  - unfold bind at 1. unfold onChunk at 1. unfold bind at 1. unfold sleep at 1.
    simpl.
    match goal with
    | |- context [Google.streamLoop fuel streamId response ?k' ?w'] =>
        destruct (IH k' w') as (rest & Hrun & Hcat & Hnil & Hall); [lia|lia|]
    end.
    simpl in Hrun.
    eexists (_ :: rest). split; [|split; [|split]].
    + rewrite Hrun. simpl. rewrite <- !app_assoc. reflexivity.
    + rewrite concat_deltas_cons, Hcat. unfold delta_text, JS.substring. simpl.
      replace (k + Google.chunkSize - k) with Google.chunkSize by lia.
      rewrite substring_append. apply substring_clamp. lia.
    + split; [discriminate|lia].
    + intros [|i] chunk Hi; simpl in Hi.
      * injection Hi as <-. simpl. split; [reflexivity|]. split.
        -- destruct (Nat.leb_spec (String.length text) (k + Google.chunkSize)) as [Hl|Hl].
           ++ apply Hnil in Hl. subst rest. reflexivity.
           ++ symmetry. apply bool_decide_eq_false_2. intros E.
              injection E as E. symmetry in E. apply length_zero_iff_nil in E.
              apply Hnil in E. lia.
        -- eexists. split; [reflexivity|]. intros Hmore.
           unfold JS.substring.
           replace (k + Google.chunkSize - k) with Google.chunkSize by lia.
           apply substring_length.
           destruct (Nat.le_gt_cases (String.length text) (k + Google.chunkSize)) as [Hl|Hl]; [|fold text; lia].
           apply Hnil in Hl. subst rest. simpl in Hmore. lia.
      * destruct (Hall i chunk Hi) as (Ht & Hf & t & Hp & Hsize).
        split; [exact Ht|]. split.
        -- rewrite Hf. apply bool_decide_ext. simpl. lia.
        -- exists t. split; [exact Hp|]. intros Hmore. apply Hsize. simpl in Hmore. lia.
  - exists []. simpl. rewrite !app_nil_r. destruct w; simpl.
    split; [reflexivity|]. split; [|split].
    + unfold concat_deltas. simpl.
      replace (String.length text - k) with 0 by lia.
      now rewrite substring_none.
    + split; [intros _; exact Hk|reflexivity].
    + intros i chunk Hi. discriminate.
Qed.

End GoogleStreamFacts.

(** ** Cost estimation *)

Section CostFacts.
Context `{Shared, Runtime}.
Hypothesis fl_mono : monotone_rounding.
Hypothesis fl_zero : rounding_keeps_zero.

Lemma Qeq_le (x y : Q) : (x == y)%Q -> (x <= y)%Q.
Proof. intros E. rewrite E. apply Qle_refl. Qed.

Lemma fl_nonneg (x : Q) : (0 <= x)%Q -> (0 <= fl x)%Q.
Proof.
  intros Hx. apply Qle_trans with (fl 0).
  - apply Qeq_le, Qeq_sym, fl_zero.
  - now apply fl_mono.
Qed.

Lemma fl_eq_zero (x : Q) : (x == 0)%Q -> (fl x == 0)%Q.
Proof.
  intros Hx. apply Qle_antisym.
  - apply Qle_trans with (fl 0).
    + apply fl_mono. now apply Qeq_le.
    + apply Qeq_le, fl_zero.
  - apply fl_nonneg. now apply Qeq_le, Qeq_sym.
Qed.

Lemma thousandth_nonneg (n : nat) : (0 <= inject_Z (Z.of_nat n) / 1000)%Q.
Proof. unfold Qdiv, Qmult, Qinv, Qle, inject_Z. simpl. lia. Qed.

Lemma thousandth_mono (n m : nat) :
  n <= m -> (inject_Z (Z.of_nat n) / 1000 <= inject_Z (Z.of_nat m) / 1000)%Q.
Proof. intros Hnm. unfold Qdiv, Qmult, Qinv, Qle, inject_Z. simpl. lia. Qed.

(** One rounded product [fl (fl (tokens / 1000) * fl price)]. *)
Lemma term_nonneg (n : nat) (price : Q) :
  (0 <= price)%Q -> (0 <= fl (fl (inject_Z (Z.of_nat n) / 1000) * fl price))%Q.
Proof.
  intros Hp. apply fl_nonneg. apply Qmult_le_0_compat.
  - apply fl_nonneg, thousandth_nonneg.
  - now apply fl_nonneg.
Qed.

Lemma term_mono (n m : nat) (price : Q) :
  (0 <= price)%Q -> n <= m ->
  (fl (fl (inject_Z (Z.of_nat n) / 1000) * fl price)
   <= fl (fl (inject_Z (Z.of_nat m) / 1000) * fl price))%Q.
Proof.
  intros Hp Hnm. apply fl_mono. apply Qmult_le_compat_r.
  - apply fl_mono. now apply thousandth_mono.
  - now apply fl_nonneg.
Qed.

Lemma term_zero (price : Q) :
  (fl (fl (inject_Z (Z.of_nat 0) / 1000) * fl price) == 0)%Q.
Proof.
  apply fl_eq_zero.
  assert (E : (fl (inject_Z (Z.of_nat 0) / 1000) == 0)%Q) by (apply fl_eq_zero; reflexivity).
  rewrite E. apply Qmult_0_l.
Qed.

Lemma costOf_nonneg (modelCost : ModelCost.t) (p c : nat) :
  (0 <= ModelCost.input modelCost)%Q -> (0 <= ModelCost.output modelCost)%Q ->
  (0 <= costOf modelCost p c)%Q.
Proof.
  intros Hi Ho. unfold costOf. apply fl_nonneg.
  replace 0%Q with (0 + 0)%Q by reflexivity.
  apply Qplus_le_compat; now apply term_nonneg.
Qed.

Lemma costOf_mono (modelCost : ModelCost.t) (p c p' c' : nat) :
  (0 <= ModelCost.input modelCost)%Q -> (0 <= ModelCost.output modelCost)%Q ->
  p <= p' -> c <= c' ->
  (costOf modelCost p c <= costOf modelCost p' c')%Q.
Proof.
  intros Hi Ho Hp Hc. unfold costOf. apply fl_mono.
  apply Qplus_le_compat; now apply term_mono.
Qed.

Lemma costOf_zero (modelCost : ModelCost.t) : (costOf modelCost 0 0 == 0)%Q.
Proof.
  unfold costOf. apply fl_eq_zero.
  rewrite !term_zero. reflexivity.
Qed.

(** The lookup with a default tier gives an entry of the table, the entry
    of the model id or the default one, unless the model id is not in the
    table and names an inherited member. *)
Lemma modelCostFor_cases (costs : gmap string ModelCost.t) (fallback modelId : string)
    (dflt : ModelCost.t) :
  costs !! fallback = Some dflt ->
  match costs !! modelId with
  | Some modelCost => modelCostFor costs fallback modelId = Some (Entry modelCost)
  | None =>
      if bool_decide (modelId ∈ inheritedNames)
      then modelCostFor costs fallback modelId = Some Inherited
      else modelCostFor costs fallback modelId = Some (Entry dflt)
  end.
Proof.
  intros Hd. unfold modelCostFor, member.
  destruct (costs !! modelId); [reflexivity|].
  destruct (bool_decide (modelId ∈ inheritedNames)); [reflexivity|].
  now rewrite Hd.
Qed.

(** A table whose prices are not negative and which has the default tier
    gives a well-behaved estimator on the model ids it prices. *)
Lemma estimator_of_table (costs : gmap string ModelCost.t) (fallback : string) :
  is_Some (costs !! fallback) ->
  map_Forall (fun _ modelCost =>
                (0 <= ModelCost.input modelCost)%Q /\ (0 <= ModelCost.output modelCost)%Q) costs ->
  CostEstimator
    (fun modelId p c =>
       modelCost ← modelCostFor costs fallback modelId; Some (costWith modelCost p c))
    costs fallback.
Proof.
  intros [dflt Hd] Hpos.
  assert (Hcases : forall modelId,
             (exists modelCost,
                modelCostFor costs fallback modelId = Some (Entry modelCost) /\
                (0 <= ModelCost.input modelCost)%Q /\ (0 <= ModelCost.output modelCost)%Q) \/
             (modelCostFor costs fallback modelId = Some Inherited /\ ~ priced costs modelId)).
  { intros modelId. pose proof (modelCostFor_cases costs fallback modelId dflt Hd) as Hc.
    destruct (costs !! modelId) as [mc|] eqn:E.
    - left. exists mc. split; [exact Hc|]. exact (Hpos _ _ E).
    - case_bool_decide as Hin.
      + right. split; [exact Hc|]. intros [[? Habs]|Habs]; [congruence|contradiction].
      + left. exists dflt. split; [exact Hc|]. exact (Hpos _ _ Hd). }
  repeat split.
  - intros modelId p c Hpriced.
    destruct (Hcases modelId) as [(mc & -> & Hi & Ho)|[_ Habs]]; [|contradiction].
    cbn. eexists. split; [reflexivity|]. now apply costOf_nonneg.
  - intros modelId p c p' c' cost cost' Hp Hc.
    destruct (Hcases modelId) as [(mc & -> & Hi & Ho)|[-> _]]; cbn; [|discriminate].
    intros [= <-] [= <-]. now apply costOf_mono.
  - intros modelId cost.
    destruct (Hcases modelId) as [(mc & -> & _)|[-> _]]; cbn; [|discriminate].
    intros [= <-]. apply costOf_zero.
  - intros modelId p c Hnone Hin.
    pose proof (modelCostFor_cases costs fallback modelId dflt Hd) as Hc.
    rewrite Hnone, bool_decide_eq_false_2 in Hc by exact Hin. rewrite Hc.
    pose proof (modelCostFor_cases costs fallback fallback dflt Hd) as Hf.
    rewrite Hd in Hf. now rewrite Hf.
Qed.

End CostFacts.

Section CostTables.
Context `{Shared, Runtime}.

Lemma modelCostFor_is_Some (costs : gmap string ModelCost.t) (fallback modelId : string) :
  is_Some (costs !! fallback) -> is_Some (modelCostFor costs fallback modelId).
Proof.
  intros [dflt Hd]. pose proof (modelCostFor_cases costs fallback modelId dflt Hd) as Hc.
  destruct (costs !! modelId); [eauto|]. destruct (bool_decide _); eauto.
Qed.

Lemma openai_fallback : is_Some (OpenAI.costs !! MODEL_IDS_GPT_3_5_TURBO).
Proof. unfold OpenAI.costs. rewrite lookup_insert_eq. eauto. Qed.

Lemma anthropic_fallback : is_Some (Anthropic.costs !! MODEL_IDS_CLAUDE_3_HAIKU).
Proof. unfold Anthropic.costs. rewrite lookup_insert_eq. eauto. Qed.

Lemma google_fallback : is_Some (Google.costs !! MODEL_IDS_GEMINI_PRO).
Proof.
  unfold Google.costs. rewrite lookup_insert. case_decide; [eauto|].
  rewrite lookup_insert_eq. eauto.
Qed.

(** No [calculateCost] ever reads a price of [undefined]. *)
Lemma openai_cost_total (modelId : string) (p c : nat) :
  exists cost, OpenAI.calculateCost modelId p c = Some cost.
Proof.
  unfold OpenAI.calculateCost.
  destruct (modelCostFor_is_Some OpenAI.costs MODEL_IDS_GPT_3_5_TURBO modelId openai_fallback)
    as [mc ->]. simpl. eauto.
Qed.

Lemma anthropic_cost_total (modelId : string) (p c : nat) :
  exists cost, Anthropic.calculateCost modelId p c = Some cost.
Proof.
  unfold Anthropic.calculateCost.
  destruct (modelCostFor_is_Some Anthropic.costs MODEL_IDS_CLAUDE_3_HAIKU modelId
              anthropic_fallback) as [mc ->]. simpl. eauto.
Qed.

Lemma google_cost_total (modelId : string) (p c : nat) :
  exists cost, Google.calculateCost modelId p c = Some cost.
Proof.
  unfold Google.calculateCost.
  destruct (modelCostFor_is_Some Google.costs MODEL_IDS_GEMINI_PRO modelId google_fallback)
    as [mc ->]. simpl. eauto.
Qed.

Local Ltac prices_nonneg :=
  repeat (apply map_Forall_insert_2; [split; discriminate|]); apply map_Forall_empty.

(** X25. With rounding that is monotone and keeps zero, as rounding to
    binary64 is, the cost estimator of each adapter, on every model id that
    is in its table or is not the name of a member every object inherits,
    yields a cost that is not negative, is non-decreasing in the prompt
    tokens and in the completion tokens, is zero when both counts are zero,
    and prices a model id missing from its table as its default tier:
    gpt-3.5-turbo for OpenAI, claude-3-haiku for Anthropic, gemini-pro for
    Google. *)
Theorem X25_cost_estimators :
  monotone_rounding -> rounding_keeps_zero ->
  CostEstimator OpenAI.calculateCost OpenAI.costs MODEL_IDS_GPT_3_5_TURBO /\
  CostEstimator Anthropic.calculateCost Anthropic.costs MODEL_IDS_CLAUDE_3_HAIKU /\
  CostEstimator Google.calculateCost Google.costs MODEL_IDS_GEMINI_PRO.
Proof.
  intros Hmono Hzero. split; [|split].
  - apply (estimator_of_table Hmono Hzero); [apply openai_fallback|].
    unfold OpenAI.costs. prices_nonneg.
  - apply (estimator_of_table Hmono Hzero); [apply anthropic_fallback|].
    unfold Anthropic.costs. prices_nonneg.
  - apply (estimator_of_table Hmono Hzero); [apply google_fallback|].
    unfold Google.costs. prices_nonneg.
Qed.

End CostTables.

(** Rounding to a grid is monotone and keeps zero. *)
Lemma grid_rounding_monotone : @monotone_rounding gridRuntime.
Proof.
  intros x y Hxy. simpl. unfold roundToGrid.
  apply Qmult_le_compat_r; [|discriminate].
  rewrite <- Zle_Qle. apply Qfloor_resp_le.
  apply Qplus_le_compat; [|apply Qle_refl].
  apply Qmult_le_compat_r; [exact Hxy|discriminate].
Qed.

Lemma grid_rounding_keeps_zero : @rounding_keeps_zero gridRuntime.
Proof. reflexivity. Qed.

(** X25 with exact arithmetic as rounding, and with rounding to a grid. *)
Lemma X25_cost_estimators_witness :
  (CostEstimator (@OpenAI.calculateCost exampleShared exampleRuntime)
     (@OpenAI.costs exampleShared) "gpt-3.5-turbo" /\
   CostEstimator (@Anthropic.calculateCost exampleShared exampleRuntime)
     (@Anthropic.costs exampleShared) "claude-3-haiku" /\
   CostEstimator (@Google.calculateCost exampleShared exampleRuntime)
     (@Google.costs exampleShared) "gemini-pro") /\
  (CostEstimator (@OpenAI.calculateCost exampleShared gridRuntime)
     (@OpenAI.costs exampleShared) "gpt-3.5-turbo" /\
   CostEstimator (@Anthropic.calculateCost exampleShared gridRuntime)
     (@Anthropic.costs exampleShared) "claude-3-haiku" /\
   CostEstimator (@Google.calculateCost exampleShared gridRuntime)
     (@Google.costs exampleShared) "gemini-pro").
Proof.
  split.
  - apply (@X25_cost_estimators exampleShared exampleRuntime).
    + intros x y Hxy. exact Hxy.
    + unfold rounding_keeps_zero. simpl. reflexivity.
  - apply (@X25_cost_estimators exampleShared gridRuntime).
    + exact grid_rounding_monotone.
    + exact grid_rounding_keeps_zero.
Defined.

Example gpt4_cost :
  exists cost,
    @OpenAI.calculateCost exampleShared exampleRuntime "gpt-4" 1000 2000 = Some (Num cost) /\
    (cost == 15 # 100)%Q.
Proof. eexists. split; [vm_compute; reflexivity|reflexivity]. Qed.

Section InheritedNameExamples.
Local Existing Instances exampleShared exampleRuntime.

(** C9, on the code. A model id that is the name of a member every object
    inherits is not priced as the default tier: [costs[modelId]] is that
    member, the default is not looked up, and the cost is NaN, for zero
    tokens too, where the default tier gives 0; a response for such a model
    id carries NaN as its estimated cost. A model id that is in no table and
    names no such member is priced as the default tier. *)
Theorem C9_inherited_name_costs_NaN :
  OpenAI.calculateCost "constructor" 0 0 = Some NaN /\
  OpenAI.calculateCost "constructor" 1000 2000 = Some NaN /\
  Anthropic.calculateCost "toString" 0 0 = Some NaN /\
  Google.calculateCost "__proto__" 0 0 = Some NaN /\
  (exists cost, OpenAI.calculateCost "gpt-3.5-turbo" 0 0 = Some (Num cost) /\ (cost == 0)%Q) /\
  OpenAI.calculateCost "constructor" 0 0 <> OpenAI.calculateCost "gpt-3.5-turbo" 0 0 /\
  OpenAI.calculateCost "unknown-model-x" 1000 2000
  = OpenAI.calculateCost "gpt-3.5-turbo" 1000 2000 /\
  (exists r w',
     run (OpenAI.generate (answering (openaiAnswer "Hello!" None))
            (textRequest "constructor" "hi")) = (Return r, w') /\
     Usage.estimatedCost (AIModelResponse.usage r) = NaN).
Proof.
  split; [reflexivity|]. split; [reflexivity|]. split; [reflexivity|].
  split; [reflexivity|]. split; [eexists; split; [vm_compute; reflexivity|reflexivity]|].
  split; [vm_compute; discriminate|]. split; [reflexivity|].
  eexists _, _. split; vm_compute; reflexivity.
Qed.

End InheritedNameExamples.

(** ** Equations of the monad *)

Lemma bind_eq {Req A B} (m : M Req A) (k : A -> M Req B) (w : World.t Req) :
  bind m k w =
  match m w with
  | (Return a, w') => k a w'
  | (Throw message, w') => (Throw message, w')
  | (OutOfFuel, w') => (OutOfFuel, w')
  end.
Proof. reflexivity. Qed.

Lemma try_catch_eq {Req A} (m : M Req A) (handler : string -> M Req A) (w : World.t Req) :
  try_catch m handler w =
  match m w with
  | (Throw message, w') => handler message w'
  | other => other
  end.
Proof. reflexivity. Qed.

Lemma call_eq {Req Resp} (backend : nat -> Req -> Settled Resp) (request : Req)
    (w : World.t Req) :
  call backend request w =
  (match backend (length (World.sent w)) request with
   | Resolved response => Return response
   | Rejected message => Throw message
   end, World.sends w [request]).
Proof. reflexivity. Qed.

Lemma onChunk_eq {Req} (chunk : StreamChunk.t) (w : World.t Req) :
  onChunk chunk w = (Return tt, World.emits w [chunk]).
Proof. reflexivity. Qed.

(** ** Worlds *)


Lemma world_waited_nil {Req} (w : World.t Req) : World.waited w [] = w.
Proof. destruct w. unfold World.waited. simpl. now rewrite app_nil_r. Qed.

Lemma world_emits_nil {Req} (w : World.t Req) : World.emits w [] = w.
Proof. destruct w. unfold World.emits. simpl. now rewrite app_nil_r. Qed.

(** ** The retry loop of the Google adapter *)

Section GoogleGenerateFacts.
Context `{Shared, Runtime}.
Variable generateMessage :
  nat -> Google.GenerateMessageRequest.t -> Settled Google.GenerateMessageResponse.t.
Variable params : AIModelRequest.t.

Local Abbreviation request := (Google.request params).
Local Abbreviation attempt := (Google.attempt generateMessage params).
Local Abbreviation generateLoop := (Google.generateLoop generateMessage).

Lemma attempt_resolved (w : World.t Google.GenerateMessageRequest.t)
    (response : Google.GenerateMessageResponse.t) :
  generateMessage (length (World.sent w)) request = Resolved response ->
  exists cost,
    attempt w = (Return (Google.responseOf params response cost), World.sends w [request]).
Proof.
  intros Hr. unfold Google.attempt, bind, call. rewrite Hr.
  match goal with
  | |- context [Google.calculateCost ?m ?p ?c] =>
      destruct (google_cost_total m p c) as [cost Hc]; rewrite Hc
  end.
  exists cost. reflexivity.
Qed.

Lemma attempt_rejected (w : World.t Google.GenerateMessageRequest.t) (message : string) :
  generateMessage (length (World.sent w)) request = Rejected message ->
  attempt w = (Throw message, World.sends w [request]).
Proof. intros Hr. unfold Google.attempt, bind, call. now rewrite Hr. Qed.

(** An attempt never runs out of fuel and never emits. *)
Lemma attempt_cases (w : World.t Google.GenerateMessageRequest.t) :
  (exists r, attempt w = (Return r, World.sends w [request])) \/
  (exists message, attempt w = (Throw message, World.sends w [request])).
Proof.
  destruct (generateMessage (length (World.sent w)) request) as [response|message] eqn:E.
  - left. destruct (attempt_resolved w response E) as [cost Hc]. eauto.
  - right. exists message. now apply attempt_rejected.
Qed.

Lemma generateLoop_return (fuel retries delay : nat) w r w' :
  retries <= Google.maxRetries ->
  attempt w = (Return r, w') ->
  generateLoop (S fuel) params retries delay w = (Return r, w').
Proof.
  intros Hr Ha. simpl.
  destruct (Nat.leb_spec retries Google.maxRetries) as [_|]; [|lia].
  unfold try_catch. now rewrite Ha.
Qed.

Lemma generateLoop_retry (fuel retries delay : nat) w message w' :
  retries < Google.maxRetries ->
  attempt w = (Throw message, w') ->
  Google.isRateLimitError message = true ->
  generateLoop (S fuel) params retries delay w
  = generateLoop fuel params (retries + 1) (delay * 2) (World.waited w' [delay]).
Proof.
  intros Hr Ha Hm. simpl.
  destruct (Nat.leb_spec retries Google.maxRetries) as [_|]; [|lia].
  unfold try_catch. rewrite Ha, Hm.
  destruct (Nat.ltb_spec retries Google.maxRetries) as [_|]; [|lia].
  reflexivity.
Qed.

Lemma generateLoop_give_up (fuel retries delay : nat) w message w' :
  retries <= Google.maxRetries ->
  attempt w = (Throw message, w') ->
  Google.isRateLimitError message = false \/ retries = Google.maxRetries ->
  generateLoop (S fuel) params retries delay w
  = (Throw ("Google AI API Error: " +:+ message), w').
Proof.
  intros Hr Ha Hm. simpl.
  destruct (Nat.leb_spec retries Google.maxRetries) as [_|]; [|lia].
  unfold try_catch. rewrite Ha.
  destruct Hm as [->| ->]; [reflexivity|].
  rewrite Nat.ltb_irrefl, andb_false_r. reflexivity.
Qed.


(** With enough iterations the loop ends, and it emits nothing. *)
Lemma generateLoop_total (fuel : nat) :
  forall retries delay w,
    0 < fuel -> Google.maxRetries + 2 <= retries + fuel ->
    fst (generateLoop fuel params retries delay w) <> OutOfFuel /\
    World.emitted (snd (generateLoop fuel params retries delay w)) = World.emitted w.
Proof.
  induction fuel as [|fuel IH]; intros retries delay w Hfuel Hle; [lia|].
  destruct (Nat.le_gt_cases retries Google.maxRetries) as [Hr|Hr].
  - destruct (attempt_cases w) as [[r Ha]|[message Ha]].
    + rewrite (generateLoop_return fuel retries delay w r _ Hr Ha). simpl. split; congruence.
    + destruct (Google.isRateLimitError message) eqn:Hm;
        [destruct (decide (retries = Google.maxRetries)) as [He|Hne]|].
      * rewrite (generateLoop_give_up fuel retries delay w message _ Hr Ha (or_intror He)). simpl.
        split; congruence.
      * rewrite (generateLoop_retry fuel retries delay w message (World.sends w [request]));
          [|lia|exact Ha|exact Hm].
        destruct (IH (retries + 1) (delay * 2)
                    (World.waited (World.sends w [request]) [delay])) as [H1 H2];
          [lia|lia|]. split; [exact H1|]. rewrite H2. reflexivity.
      * rewrite (generateLoop_give_up fuel retries delay w message _ Hr Ha (or_introl Hm)).
        simpl. split; congruence.
  - simpl. destruct (Nat.leb_spec retries Google.maxRetries) as [|_]; [lia|].
    simpl. split; congruence.
Qed.

Lemma generateLoopThen_throw (fuel : nat) :
  forall retries delay w,
    Google.generateLoopThen generateMessage
      (throw "Google AI API Error: Maximum retry limit reached") fuel params retries delay w
    = generateLoop fuel params retries delay w.
Proof.
  induction fuel as [|fuel IH]; intros retries delay w; [reflexivity|].
  simpl. destruct (retries <=? Google.maxRetries)%nat; [|reflexivity].
  rewrite !try_catch_eq.
  destruct (attempt w) as [[r|message|] w1]; try reflexivity.
  destruct (Google.isRateLimitError message && (retries <? Google.maxRetries)%nat);
    [|reflexivity].
  rewrite !bind_eq. simpl. apply IH.
Qed.

(** The statement after the loop is never reached: started with at most
    [maxRetries] retries, the loop behaves the same whatever follows it. *)
Lemma after_loop_unreachable (after1 after2 : M Google.GenerateMessageRequest.t AIModelResponse.t)
    (fuel : nat) :
  forall retries delay w,
    retries <= Google.maxRetries ->
    Google.generateLoopThen generateMessage after1 fuel params retries delay w
    = Google.generateLoopThen generateMessage after2 fuel params retries delay w.
Proof.
  induction fuel as [|fuel IH]; intros retries delay w Hr; [reflexivity|].
  simpl. destruct (Nat.leb_spec retries Google.maxRetries) as [_|]; [|lia].
  rewrite !try_catch_eq.
  destruct (attempt w) as [[r|message|] w1]; try reflexivity.
  destruct (Google.isRateLimitError message); simpl; [|reflexivity].
  destruct (Nat.ltb_spec retries Google.maxRetries) as [Hlt|]; [|reflexivity].
  rewrite !bind_eq. simpl. apply IH. lia.
Qed.

(** So [generate] never throws the error written after its loop, unless
    the backend itself words a failure that way. *)
Lemma generate_ignores_after_loop (after : M Google.GenerateMessageRequest.t AIModelResponse.t)
    (w : World.t Google.GenerateMessageRequest.t) :
  Google.generateLoopThen generateMessage after (Google.maxRetries + 2) params 0 1000 w
  = Google.generate generateMessage params w.
Proof.
  unfold Google.generate. rewrite <- generateLoopThen_throw.
  apply after_loop_unreachable. unfold Google.maxRetries. lia.
Qed.

Lemma generate_total (w : World.t Google.GenerateMessageRequest.t) :
  fst (Google.generate generateMessage params w) <> OutOfFuel /\
  World.emitted (snd (Google.generate generateMessage params w)) = World.emitted w.
Proof. apply generateLoop_total; unfold Google.maxRetries; lia. Qed.



End GoogleGenerateFacts.

(** ** One-shot [generate] of the OpenAI and Anthropic adapters *)

Section OneShotFacts.
Context `{Shared, Runtime}.

Lemma openai_generate_resolved create params w response :
  create (length (World.sent w)) (OpenAI.request params false) = Resolved response ->
  exists cost,
    OpenAI.generate create params w
    = (Return (OpenAI.responseOf params response cost),
       World.sends w [OpenAI.request params false]).
Proof.
  intros Hr. unfold OpenAI.generate, try_catch, bind, call. rewrite Hr.
  match goal with
  | |- context [OpenAI.calculateCost ?m ?p ?c] =>
      destruct (openai_cost_total m p c) as [cost Hc]; rewrite Hc
  end.
  exists cost. reflexivity.
Qed.

Lemma openai_generate_rejected create params w message :
  create (length (World.sent w)) (OpenAI.request params false) = Rejected message ->
  OpenAI.generate create params w
  = (Throw ("OpenAI API Error: " +:+ message), World.sends w [OpenAI.request params false]).
Proof. intros Hr. unfold OpenAI.generate, try_catch, bind, call. now rewrite Hr. Qed.

Lemma anthropic_generate_resolved create params w response :
  create (length (World.sent w))
    (Anthropic.request params (AIModelRequest.systemPrompt params) false) = Resolved response ->
  exists cost,
    Anthropic.generate create params w
    = (Return (Anthropic.responseOf params response cost),
       World.sends w [Anthropic.request params (AIModelRequest.systemPrompt params) false]).
Proof.
  intros Hr. unfold Anthropic.generate, try_catch, bind, call. rewrite Hr.
  match goal with
  | |- context [Anthropic.calculateCost ?m ?p ?c] =>
      destruct (anthropic_cost_total m p c) as [cost Hc]; rewrite Hc
  end.
  exists cost. reflexivity.
Qed.

Lemma anthropic_generate_rejected create params w message :
  create (length (World.sent w))
    (Anthropic.request params (AIModelRequest.systemPrompt params) false) = Rejected message ->
  Anthropic.generate create params w
  = (Throw ("Anthropic API Error: " +:+ message),
     World.sends w [Anthropic.request params (AIModelRequest.systemPrompt params) false]).
Proof. intros Hr. unfold Anthropic.generate, try_catch, bind, call. now rewrite Hr. Qed.

End OneShotFacts.

(** ** Retries *)


Section RetryExamples.
Local Existing Instances exampleShared exampleRuntime.



(** C3, on the code. A Google backend that rejects every request as
    rate-limited is asked four times, after waits of 1000, 2000 and
    4000 ms; the error thrown then carries the text of the fourth
    failure, not the text Maximum retry limit reached. *)
Theorem C3_retry_exhaustion :
  Google.isRateLimitError "Quota exceeded" = true /\
  run (Google.generate
         (rejecting "Quota exceeded") (textRequest "gemini-pro" "hi"))
  = (Throw "Google AI API Error: Quota exceeded",
     World.mk (replicate 4 (Google.request (textRequest "gemini-pro" "hi")))
       [1000; 2000; 4000] []) /\
  "Google AI API Error: Quota exceeded" <> "Google AI API Error: Maximum retry limit reached".
Proof. repeat split. discriminate. Qed.

End RetryExamples.

(** ** Streaming of the Google adapter *)

Section GoogleStreamCalls.
Context `{Shared, Runtime}.
Variable generateMessage :
  nat -> Google.GenerateMessageRequest.t -> Settled Google.GenerateMessageResponse.t.

Lemma google_stream_success params streamId w r w' :
  Google.generate generateMessage params w = (Return r, w') ->
  exists chunks,
    Google.generateStream generateMessage params streamId w
    = (Return r, World.emits (World.waited w' (replicate (length chunks) 50)) chunks) /\
    World.emitted w' = World.emitted w /\
    concat_deltas chunks = AIModelResponse.content r /\
    (chunks = [] <-> AIModelResponse.content r = EmptyString) /\
    (forall i chunk, chunks !! i = Some chunk ->
       StreamChunk.type chunk = CONTENT_DELTA /\
       StreamChunk.isFinal chunk = bool_decide (S i = length chunks) /\
       exists text, StreamChunk.payload chunk = PayloadText text /\
                    (S i < length chunks -> String.length text = Google.chunkSize)).
Proof.
  intros Hgen.
  destruct (streamLoop_spec streamId r (String.length (AIModelResponse.content r) + 1) 0 w')
    as (chunks & Hrun & Hcat & Hnil & Hall); [lia|lia|].
  exists chunks. split; [|split; [|split; [|split]]].
  - unfold Google.generateStream, try_catch, bind. rewrite Hgen, Hrun. reflexivity.
  - pose proof (generate_total generateMessage params w) as [_ He].
    now rewrite Hgen in He.
  - rewrite Hcat, Nat.sub_0_r. apply substring_whole.
  - rewrite Hnil. destruct (AIModelResponse.content r); simpl; split;
      (congruence || lia).
  - exact Hall.
Qed.

Lemma google_stream_failure params streamId w message w' :
  Google.generate generateMessage params w = (Throw message, w') ->
  Google.generateStream generateMessage params streamId w
  = (Throw ("Google AI Streaming Error: " +:+ message),
     World.emits w' [errorChunk streamId message (AIModelRequest.modelId params) "google"]) /\
  World.emitted w' = World.emitted w.
Proof.
  intros Hgen. split.
  - unfold Google.generateStream, try_catch, bind. rewrite Hgen. reflexivity.
  - pose proof (generate_total generateMessage params w) as [_ He].
    now rewrite Hgen in He.
Qed.

(** C10. When [generate] succeeds, the simulated stream of the Google
    adapter succeeds with the same response; every chunk it emits is a
    CONTENT_DELTA, and every chunk but the last carries exactly 10
    characters; when the content of the response is empty it emits no
    chunk at all, so no chunk with [isFinal = true] is delivered. *)
Theorem C10_google_simulated_stream params streamId w r w' :
  Google.generate generateMessage params w = (Return r, w') ->
  exists chunks,
    Google.generateStream generateMessage params streamId w
    = (Return r, World.emits (World.waited w' (replicate (length chunks) 50)) chunks) /\
    World.emitted w' = World.emitted w /\
    (forall i chunk, chunks !! i = Some chunk ->
       StreamChunk.type chunk = CONTENT_DELTA /\
       exists text, StreamChunk.payload chunk = PayloadText text /\
                    (S i < length chunks -> String.length text = 10)) /\
    (AIModelResponse.content r = EmptyString ->
       chunks = [] /\ final_chunks chunks = []).
Proof.
  intros Hgen.
  destruct (google_stream_success params streamId w r w' Hgen)
    as (chunks & Hrun & Hem & _ & Hnil & Hall).
  exists chunks. split; [exact Hrun|]. split; [exact Hem|]. split.
  - intros i chunk Hi. destruct (Hall i chunk Hi) as (Ht & _ & text & Hp & Hlen).
    split; [exact Ht|]. exists text. split; [exact Hp|exact Hlen].
  - intros Hempty. apply Hnil in Hempty. subst chunks. split; reflexivity.
Qed.

End GoogleStreamCalls.

Section GoogleStreamExamples.
Local Existing Instances exampleShared exampleRuntime.

(** C10 applied to an answer of 13 characters. *)
Lemma C10_google_simulated_stream_witness :
  exists r w' chunks,
    Google.generate (answering (googleAnswer "Hello, world!"))
      (textRequest "gemini-pro" "hi") World.init = (Return r, w') /\
    Google.generateStream (answering (googleAnswer "Hello, world!"))
      (textRequest "gemini-pro" "hi") "s1" World.init
    = (Return r, World.emits (World.waited w' (replicate (length chunks) 50)) chunks) /\
    (forall i chunk, chunks !! i = Some chunk ->
       StreamChunk.type chunk = CONTENT_DELTA /\
       exists text, StreamChunk.payload chunk = PayloadText text /\
                    (S i < length chunks -> String.length text = 10)).
Proof.
  edestruct (C10_google_simulated_stream (answering (googleAnswer "Hello, world!"))
               (textRequest "gemini-pro" "hi") "s1" World.init)
    as (chunks & Hrun & _ & Hall & _).
  - vm_compute. reflexivity.
  - eexists _, _, chunks. split; [vm_compute; reflexivity|]. split; [exact Hrun|exact Hall].
Defined.

Example google_stream_of_13_characters :
  map delta_text
    (World.emitted
       (snd (run (Google.generateStream (answering (googleAnswer "Hello, world!"))
                    (textRequest "gemini-pro" "hi") "s1"))))
  = ["Hello, wor"; "ld!"].
Proof. vm_compute. reflexivity. Qed.

(** C1, on the code. The Google backend answers without a candidate, so
    the content is empty: [generateStream] succeeds and hands over no chunk,
    hence no chunk with [isFinal = true]. *)
Theorem C1_google_stream_without_final_chunk :
  exists r,
    run (Google.generateStream (answering (Google.GenerateMessageResponse.mk []))
           (textRequest "gemini-pro" "hi") "s1")
    = (Return r, World.mk [Google.request (textRequest "gemini-pro" "hi")] [] []) /\
    AIModelResponse.content r = EmptyString.
Proof. eexists. split; vm_compute; reflexivity. Qed.

End GoogleStreamExamples.

(** ** Streaming of the OpenAI adapter *)

Lemma world_emits_emits {Req} (w : World.t Req) (xs ys : list StreamChunk.t) :
  World.emits (World.emits w xs) ys = World.emits w (xs ++ ys).
Proof. unfold World.emits. simpl. now rewrite app_assoc. Qed.

Section OpenAIStreamFacts.
Context `{Shared, Runtime}.
Variable create_stream :
  nat -> OpenAI.ChatRequest.t -> Settled (Stream.t OpenAI.ChatCompletionChunk.t).

Lemma openai_streamStep_spec streamId modelId st item w :
  exists chunks st',
    OpenAI.streamStep streamId modelId st item w = (Return st', World.emits w chunks) /\
    OpenAI.StreamState.accumulatedContent st'
    = OpenAI.StreamState.accumulatedContent st +:+ concat_deltas chunks /\
    Forall partial_delta chunks.
Proof.
  unfold OpenAI.streamStep, bind.
  destruct (JS.truthy (JS.or_else (OpenAI.ChatCompletionChunk.delta_content item) EmptyString));
    destruct (OpenAI.ChatCompletionChunk.usage item).
  - eexists [_], _. unfold onChunk, ret. simpl.
    split; [reflexivity|]. split; [reflexivity|repeat constructor].
  - eexists [_], _. unfold onChunk, ret. simpl.
    split; [reflexivity|]. split; [reflexivity|repeat constructor].
  - exists []. eexists. unfold ret. rewrite world_emits_nil. simpl.
    split; [reflexivity|]. split; [now rewrite append_empty_r|constructor].
  - exists []. eexists. unfold ret. rewrite world_emits_nil. simpl.
    split; [reflexivity|]. split; [now rewrite append_empty_r|constructor].
Qed.

Lemma openai_for_items_spec streamId modelId items :
  forall st w,
    exists chunks st',
      for_items (OpenAI.streamStep streamId modelId) items st w
      = (Return st', World.emits w chunks) /\
      OpenAI.StreamState.accumulatedContent st'
      = OpenAI.StreamState.accumulatedContent st +:+ concat_deltas chunks /\
      Forall partial_delta chunks.
Proof.
  induction items as [|item items IH]; intros st w.
  - exists [], st. simpl. unfold ret. rewrite world_emits_nil.
    split; [reflexivity|]. split; [now rewrite append_empty_r|constructor].
  - destruct (openai_streamStep_spec streamId modelId st item w)
      as (cs1 & st1 & Hstep & Hacc1 & Hall1).
    destruct (IH st1 (World.emits w cs1)) as (cs2 & st2 & Hrest & Hacc2 & Hall2).
    exists (cs1 ++ cs2), st2. simpl. unfold bind. rewrite Hstep, Hrest.
    rewrite world_emits_emits. split; [reflexivity|]. split.
    + rewrite Hacc2, Hacc1, concat_deltas_app. apply append_assoc.
    + now apply Forall_app.
Qed.

(** Every streaming call ends in one of two ways. Either it returns, having
    handed over partial deltas and then one final chunk with empty text, and
    the content of the response is the concatenation of the deltas; or it
    throws, having handed over partial deltas and then one error chunk. *)
Lemma openai_generateStream_cases params streamId w :
  exists chunks,
    Forall partial_delta chunks /\
    ((exists r final,
        OpenAI.generateStream create_stream params streamId w
        = (Return r,
           World.emits (World.sends w [OpenAI.request params true]) (chunks ++ [final])) /\
        StreamChunk.type final = CONTENT_DELTA /\
        StreamChunk.payload final = PayloadText EmptyString /\
        StreamChunk.isFinal final = true /\
        AIModelResponse.content r = concat_deltas chunks) \/
     (exists message,
        OpenAI.generateStream create_stream params streamId w
        = (Throw ("OpenAI Streaming Error: " +:+ message),
           World.emits (World.sends w [OpenAI.request params true])
             (chunks ++ [errorChunk streamId message (AIModelRequest.modelId params) "openai"])))).
Proof.
  unfold OpenAI.generateStream. cbv zeta.
  rewrite try_catch_eq, bind_eq, call_eq.
  destruct (create_stream (length (World.sent w)) (OpenAI.request params true))
    as [stream|message].
  - destruct (openai_for_items_spec streamId (AIModelRequest.modelId params)
                (Stream.items stream) (OpenAI.StreamState.mk 0 0 EmptyString)
                (World.sends w [OpenAI.request params true]))
      as (chunks & st & Hitems & Hacc & Hall).
    exists chunks. split; [exact Hall|].
    rewrite bind_eq. unfold for_await. rewrite bind_eq, Hitems.
    destruct (Stream.failure stream) as [message|].
    + right. exists message. unfold throw.
      rewrite bind_eq, onChunk_eq, world_emits_emits. reflexivity.
    + left. unfold ret at 1.
      match goal with
      | |- context [OpenAI.calculateCost ?m ?p ?c] =>
          destruct (openai_cost_total m p c) as [cost Hc]; rewrite Hc
      end.
      rewrite bind_eq. unfold cost_or_throw, ret at 1.
      rewrite bind_eq, onChunk_eq, world_emits_emits. unfold ret.
      eexists _, _. split; [reflexivity|].
      simpl. repeat split. rewrite Hacc. reflexivity.
  - exists []. split; [constructor|]. right. exists message.
    rewrite bind_eq, onChunk_eq. reflexivity.
Qed.


End OpenAIStreamFacts.

(** ** Streaming of the Anthropic adapter *)

Section AnthropicStreamFacts.
Context `{Shared, Runtime}.
Variable create_stream :
  nat -> Anthropic.MessageCreateParams.t -> Settled (Stream.t Anthropic.StreamEvent).

(** One event either hands over at most one partial chunk and goes on, or
    throws before handing over anything. *)
Lemma anthropic_streamStep_spec streamId modelId st item w :
  exists chunks,
    Forall partial_delta chunks /\
    ((exists st',
        Anthropic.streamStep streamId modelId st item w = (Return st', World.emits w chunks) /\
        Anthropic.StreamState.accumulatedContent st'
        = Anthropic.StreamState.accumulatedContent st +:+ concat_deltas chunks) \/
     (exists message,
        Anthropic.streamStep streamId modelId st item w
        = (Throw message, World.emits w chunks))).
Proof.
  assert (Hstay : exists chunks,
            Forall partial_delta chunks /\
            ((exists st',
                (ret st : M Anthropic.MessageCreateParams.t _) w
                = (Return st', World.emits w chunks) /\
                Anthropic.StreamState.accumulatedContent st'
                = Anthropic.StreamState.accumulatedContent st +:+ concat_deltas chunks) \/
             (exists message,
                (ret st : M Anthropic.MessageCreateParams.t _) w
                = (Throw message, World.emits w chunks)))).
  { exists []. split; [constructor|]. left. exists st. unfold ret.
    rewrite world_emits_nil. split; [reflexivity|now rewrite append_empty_r]. }
  assert (Hdelta : forall text,
            exists chunks,
              Forall partial_delta chunks /\
              ((exists st',
                  (if JS.truthy text then
                     onChunk (StreamChunk.mk streamId CONTENT_DELTA (PayloadText text)
                                false modelId (Some "anthropic") None) ;;;
                     ret (Anthropic.StreamState.mk
                            (Anthropic.StreamState.totalPromptTokens st)
                            (Anthropic.StreamState.totalCompletionTokens st)
                            (Anthropic.StreamState.accumulatedContent st +:+ text))
                   else ret st) w
                  = (Return st', World.emits w chunks) /\
                  Anthropic.StreamState.accumulatedContent st'
                  = Anthropic.StreamState.accumulatedContent st +:+ concat_deltas chunks) \/
               (exists message,
                  (if JS.truthy text then
                     onChunk (StreamChunk.mk streamId CONTENT_DELTA (PayloadText text)
                                false modelId (Some "anthropic") None) ;;;
                     ret (Anthropic.StreamState.mk
                            (Anthropic.StreamState.totalPromptTokens st)
                            (Anthropic.StreamState.totalCompletionTokens st)
                            (Anthropic.StreamState.accumulatedContent st +:+ text))
                   else ret st) w
                  = (Throw message, World.emits w chunks)))).
  { intros text. destruct (JS.truthy text); [|exact Hstay].
    eexists [_]. split; cycle 1.
    - left. eexists. rewrite bind_eq, onChunk_eq. unfold ret. split; [reflexivity|].
      rewrite concat_deltas_cons. unfold concat_deltas. cbn [map].
      change (JS.join EmptyString []) with EmptyString. now rewrite append_empty_r.
    - repeat constructor. }
  unfold Anthropic.streamStep.
  destruct item as [[[text|json|shown]|]|[usage|]|].
  - apply Hdelta.
  - apply Hdelta.
  - exists []. split; [constructor|]. right. eexists. unfold throw.
    rewrite world_emits_nil. reflexivity.
  - apply (Hdelta EmptyString).
  - exists []. split; [constructor|]. left. eexists. unfold ret.
    rewrite world_emits_nil. split; [reflexivity|]. cbn. now rewrite append_empty_r.
  - exact Hstay.
  - exact Hstay.
Qed.

Lemma anthropic_for_items_spec streamId modelId items :
  forall st w,
    exists chunks,
      Forall partial_delta chunks /\
      ((exists st',
          for_items (Anthropic.streamStep streamId modelId) items st w
          = (Return st', World.emits w chunks) /\
          Anthropic.StreamState.accumulatedContent st'
          = Anthropic.StreamState.accumulatedContent st +:+ concat_deltas chunks) \/
       (exists message,
          for_items (Anthropic.streamStep streamId modelId) items st w
          = (Throw message, World.emits w chunks))).
Proof.
  induction items as [|item items IH]; intros st w.
  - exists []. split; [constructor|]. left. exists st. cbn [for_items]. unfold ret.
    rewrite world_emits_nil. split; [reflexivity|now rewrite append_empty_r].
  - cbn [for_items]. rewrite bind_eq.
    destruct (anthropic_streamStep_spec streamId modelId st item w)
      as (cs1 & Hall1 & [(st1 & Hstep & Hacc1)|(message & Hstep)]); rewrite Hstep.
    + destruct (IH st1 (World.emits w cs1))
        as (cs2 & Hall2 & [(st2 & Hrest & Hacc2)|(message & Hrest)]); rewrite Hrest.
      * exists (cs1 ++ cs2). split; [now apply Forall_app|]. left. exists st2.
        rewrite world_emits_emits. split; [reflexivity|].
        rewrite Hacc2, Hacc1, concat_deltas_app. apply append_assoc.
      * exists (cs1 ++ cs2). split; [now apply Forall_app|]. right. exists message.
        now rewrite world_emits_emits.
    + exists cs1. split; [exact Hall1|]. right. exists message. reflexivity.
Qed.

(** The two ways a streaming call ends, as for the OpenAI adapter. *)
Lemma anthropic_generateStream_cases params streamId w :
  exists chunks,
    Forall partial_delta chunks /\
    ((exists r final,
        Anthropic.generateStream create_stream params streamId w
        = (Return r,
           World.emits
             (World.sends w [Anthropic.request params (Anthropic.streamSystem params) true])
             (chunks ++ [final])) /\
        StreamChunk.type final = CONTENT_DELTA /\
        StreamChunk.payload final = PayloadText EmptyString /\
        StreamChunk.isFinal final = true /\
        AIModelResponse.content r = concat_deltas chunks) \/
     (exists message,
        Anthropic.generateStream create_stream params streamId w
        = (Throw ("Anthropic Streaming Error: " +:+ message),
           World.emits
             (World.sends w [Anthropic.request params (Anthropic.streamSystem params) true])
             (chunks ++ [errorChunk streamId message (AIModelRequest.modelId params)
                           "anthropic"])))).
Proof.
  unfold Anthropic.generateStream. cbv zeta.
  rewrite try_catch_eq, bind_eq, call_eq.
  destruct (create_stream (length (World.sent w))
              (Anthropic.request params (Anthropic.streamSystem params) true))
    as [stream|message].
  - destruct (anthropic_for_items_spec streamId (AIModelRequest.modelId params)
                (Stream.items stream) (Anthropic.StreamState.mk 0 0 EmptyString)
                (World.sends w [Anthropic.request params (Anthropic.streamSystem params) true]))
      as (chunks & Hall & [(st & Hitems & Hacc)|(message & Hitems)]).
    + exists chunks. split; [exact Hall|].
      rewrite bind_eq. unfold for_await. rewrite bind_eq, Hitems.
      destruct (Stream.failure stream) as [message|].
      * right. exists message. unfold throw.
        rewrite bind_eq, onChunk_eq, world_emits_emits. reflexivity.
      * left. unfold ret at 1.
        match goal with
        | |- context [Anthropic.calculateCost ?m ?p ?c] =>
            destruct (anthropic_cost_total m p c) as [cost Hc]; rewrite Hc
        end.
        rewrite bind_eq. unfold cost_or_throw, ret at 1.
        rewrite bind_eq, onChunk_eq, world_emits_emits. unfold ret.
        eexists _, _. split; [reflexivity|].
        simpl. repeat split. rewrite Hacc. reflexivity.
    + exists chunks. split; [exact Hall|]. right. exists message.
      rewrite bind_eq. unfold for_await. rewrite bind_eq, Hitems.
      rewrite bind_eq, onChunk_eq, world_emits_emits. reflexivity.
  - exists []. split; [constructor|]. right. exists message.
    rewrite bind_eq, onChunk_eq. reflexivity.
Qed.





End AnthropicStreamFacts.

(** ** The default stream of the base provider *)

Section BaseStreamFacts.
Context `{Runtime} {Req : Type}.
Variable generate : AIModelRequest.t -> M Req AIModelResponse.t.

(** A successful [generate] is followed by one chunk: final, with the
    whole content. *)
Lemma base_stream_success params streamId w r w' :
  generate params w = (Return r, w') ->
  exists final,
    BaseModelProvider.generateStream generate params streamId w
    = (Return r, World.emits w' [final]) /\
    StreamChunk.type final = CONTENT_DELTA /\
    StreamChunk.payload final = PayloadText (AIModelResponse.content r) /\
    StreamChunk.isFinal final = true.
Proof.
  intros Hgen. unfold BaseModelProvider.generateStream.
  rewrite bind_eq, Hgen, bind_eq, onChunk_eq. unfold ret.
  eexists. split; [reflexivity|]. repeat split.
Qed.

(** The base provider has no [catch]: a failure of [generate] leaves the
    call without any chunk. *)
Lemma base_stream_failure params streamId w message w' :
  generate params w = (Throw message, w') ->
  BaseModelProvider.generateStream generate params streamId w = (Throw message, w').
Proof.
  intros Hgen. unfold BaseModelProvider.generateStream. now rewrite bind_eq, Hgen.
Qed.

End BaseStreamFacts.

(** ** Failing streams *)



Section FailingStreamExamples.
Local Existing Instances exampleShared exampleRuntime.

Local Abbreviation brokenChunks :=
  (Stream.mk
     [OpenAI.ChatCompletionChunk.mk (Some "Hel") None;
      OpenAI.ChatCompletionChunk.mk (Some "lo") None]
     (Some "socket hang up")).

Local Abbreviation brokenEvents :=
  (Stream.mk
     [Anthropic.content_block_delta (Some (Anthropic.TextDelta "Hel"));
      Anthropic.message_delta (Some (Anthropic.ResponseUsage.mk (Some 3) None))]
     (Some "connection reset")).

Local Abbreviation primitiveEvents :=
  (Stream.mk
     [Anthropic.content_block_delta (Some (Anthropic.TextDelta "Hel"));
      Anthropic.content_block_delta (Some (Anthropic.PrimitiveDelta "42"))]
     None).


Example anthropic_broken_stream :
  run (Anthropic.generateStream (answering brokenEvents) (textRequest "claude-3-haiku" "hi") "s2")
  = (Throw "Anthropic Streaming Error: connection reset",
     World.mk [Anthropic.request (textRequest "claude-3-haiku" "hi") None true] []
       [StreamChunk.mk "s2" CONTENT_DELTA (PayloadText "Hel") false "claude-3-haiku"
          (Some "anthropic") None;
        errorChunk "s2" "connection reset" "claude-3-haiku" "anthropic"]).
Proof. reflexivity. Qed.

Example openai_broken_stream :
  run (OpenAI.generateStream
         (answering (Stream.mk
            [OpenAI.ChatCompletionChunk.mk (Some "Hel") None;
             OpenAI.ChatCompletionChunk.mk (Some "lo") None]
            (Some "socket hang up")))
         (textRequest "gpt-4" "hi") "s1")
  = (Throw "OpenAI Streaming Error: socket hang up",
     World.mk [OpenAI.request (textRequest "gpt-4" "hi") true] []
       [StreamChunk.mk "s1" CONTENT_DELTA (PayloadText "Hel") false "gpt-4" (Some "openai") None;
        StreamChunk.mk "s1" CONTENT_DELTA (PayloadText "lo") false "gpt-4" (Some "openai") None;
        errorChunk "s1" "socket hang up" "gpt-4" "openai"]).
Proof. reflexivity. Qed.

End FailingStreamExamples.

(** ** The streaming invariant on successful calls *)

Lemma invariant_of_partials (chunks : list StreamChunk.t) (final : StreamChunk.t)
    (r : AIModelResponse.t) :
  Forall partial_delta chunks ->
  StreamChunk.type final = CONTENT_DELTA ->
  StreamChunk.payload final = PayloadText EmptyString ->
  StreamChunk.isFinal final = true ->
  AIModelResponse.content r = concat_deltas chunks ->
  StreamingInvariant (chunks ++ [final]) r.
Proof.
  intros Hall Ht Hp Hf Hc. split.
  - rewrite concat_deltas_app, Hc.
    unfold concat_deltas at 2. simpl. unfold delta_text. rewrite Ht, Hp.
    apply append_empty_r.
  - exists chunks, final. split; [reflexivity|]. split; [exact Hf|].
    eapply Forall_impl; [exact Hall|]. now intros c [_ Hc'].
Qed.

Section StreamingInvariantFacts.
Context `{Shared, Runtime}.

Lemma openai_streaming_invariant create_stream params streamId w r w' :
  OpenAI.generateStream create_stream params streamId w = (Return r, w') ->
  exists chunks,
    World.emitted w' = World.emitted w ++ chunks /\ StreamingInvariant chunks r.
Proof.
  intros Hrun.
  destruct (openai_generateStream_cases create_stream params streamId w)
    as (chunks & Hall & [(r0 & final & Hok & Ht & Hp & Hf & Hc)|(message & Hfail)]).
  - rewrite Hok in Hrun. injection Hrun as <- <-.
    exists (chunks ++ [final]). split; [reflexivity|].
    now apply invariant_of_partials.
  - rewrite Hfail in Hrun. discriminate.
Qed.

Lemma anthropic_streaming_invariant create_stream params streamId w r w' :
  Anthropic.generateStream create_stream params streamId w = (Return r, w') ->
  exists chunks,
    World.emitted w' = World.emitted w ++ chunks /\ StreamingInvariant chunks r.
Proof.
  intros Hrun.
  destruct (anthropic_generateStream_cases create_stream params streamId w)
    as (chunks & Hall & [(r0 & final & Hok & Ht & Hp & Hf & Hc)|(message & Hfail)]).
  - rewrite Hok in Hrun. injection Hrun as <- <-.
    exists (chunks ++ [final]). split; [reflexivity|].
    now apply invariant_of_partials.
  - rewrite Hfail in Hrun. discriminate.
Qed.

Lemma base_streaming_invariant {Req} (generate : AIModelRequest.t -> M Req AIModelResponse.t)
    params streamId w r w' :
  BaseModelProvider.generateStream generate params streamId w = (Return r, w') ->
  exists w1 final,
    generate params w = (Return r, w1) /\
    World.emitted w' = World.emitted w1 ++ [final] /\ StreamingInvariant [final] r.
Proof.
  intros Hrun.
  destruct (generate params w) as [[r0|message|] w1] eqn:Hgen.
  - destruct (base_stream_success generate params streamId w r0 w1 Hgen)
      as (final & Hok & Ht & Hp & Hf).
    rewrite Hok in Hrun. injection Hrun as <- <-.
    exists w1, final. split; [reflexivity|]. split; [reflexivity|]. split.
    + unfold concat_deltas, delta_text. simpl. now rewrite Ht, Hp.
    + exists [], final. repeat split; [exact Hf|constructor].
  - rewrite (base_stream_failure generate params streamId w message w1 Hgen) in Hrun.
    discriminate.
  - unfold BaseModelProvider.generateStream in Hrun. rewrite bind_eq, Hgen in Hrun.
    discriminate.
Qed.

(** The Google adapter keeps the invariant when the content is not empty. *)
Lemma google_streaming_invariant generateMessage params streamId w r w' :
  Google.generateStream generateMessage params streamId w = (Return r, w') ->
  AIModelResponse.content r <> EmptyString ->
  exists chunks,
    World.emitted w' = World.emitted w ++ chunks /\ StreamingInvariant chunks r.
Proof.
  intros Hrun Hne.
  destruct (Google.generate generateMessage params w) as [[r0|message|] w1] eqn:Hgen.
  - destruct (google_stream_success generateMessage params streamId w r0 w1 Hgen)
      as (chunks & Hok & Hem & Hcat & Hnil & Hall).
    rewrite Hok in Hrun. injection Hrun as <- <-.
    exists chunks. split; [simpl; now rewrite Hem|]. split; [exact Hcat|].
    destruct chunks as [|c cs _] using rev_ind; [now apply proj1 in Hnil; elim Hne; apply Hnil|].
    exists cs, c. split; [reflexivity|]. split.
    + destruct (Hall (length cs) c) as (_ & Hf & _).
      { rewrite lookup_app_r, Nat.sub_diag by lia. reflexivity. }
      rewrite Hf. apply bool_decide_eq_true_2. rewrite length_app. simpl. lia.
    + apply Forall_lookup_2. intros i chunk Hi.
      destruct (Hall i chunk) as (_ & Hf & _).
      { rewrite lookup_app_l; [exact Hi|]. now apply lookup_lt_Some in Hi. }
      rewrite Hf. apply bool_decide_eq_false_2.
      apply lookup_lt_Some in Hi. rewrite length_app. simpl. lia.
  - destruct (google_stream_failure generateMessage params streamId w message w1 Hgen)
      as [Hfail _].
    rewrite Hfail in Hrun. discriminate.
  - pose proof (generate_total generateMessage params w) as [Hfuel _].
    rewrite Hgen in Hfuel. now contradict Hfuel.
Qed.

End StreamingInvariantFacts.

(** ** The router *)

Section RouterFacts.
Context `{Shared}.

Lemma register_lookup id key make providers id' :
  ModelService.register id key make providers !! id'
  = if decide (id = id')
    then match adapterFor key make with
         | Some adapter => Some adapter
         | None => providers !! id'
         end
    else providers !! id'.
Proof.
  unfold ModelService.register, adapterFor.
  destruct key as [k|]; [destruct (JS.truthy k)|]; case_decide; subst;
    rewrite ?lookup_insert_eq, ?lookup_insert_ne by done; reflexivity.
Qed.

Lemma initializeProviders_lookup (config : ModelService.AppConfig.t) :
  distinct_providers ->
  ModelService.initializeProviders config !! PROVIDERS_OPENAI
  = adapterFor (ModelService.AppConfig.openaiApiKey config) ModelService.OpenAIProvider /\
  ModelService.initializeProviders config !! PROVIDERS_ANTHROPIC
  = adapterFor (ModelService.AppConfig.anthropicApiKey config) ModelService.AnthropicProvider /\
  ModelService.initializeProviders config !! PROVIDERS_GOOGLE
  = adapterFor (ModelService.AppConfig.geminiApiKey config) ModelService.GoogleAIProvider.
Proof.
  unfold distinct_providers. rewrite !NoDup_cons.
  intros (N1 & N2 & _).
  assert (PROVIDERS_OPENAI <> PROVIDERS_ANTHROPIC) by set_solver.
  assert (PROVIDERS_OPENAI <> PROVIDERS_GOOGLE) by set_solver.
  assert (PROVIDERS_ANTHROPIC <> PROVIDERS_GOOGLE) by set_solver.
  unfold ModelService.initializeProviders. rewrite !register_lookup.
  repeat case_decide; try congruence; rewrite ?lookup_empty;
    repeat split;
    repeat match goal with |- context [adapterFor ?k ?m] => destruct (adapterFor k m) end;
    reflexivity.
Qed.

(** The three prefixes exclude one another. *)
Lemma prefix_first (p s : string) (a : Ascii.ascii) :
  JS.startsWith s (String a p) = true -> exists s', s = String a s'.
Proof.
  unfold JS.startsWith. destruct s as [|b s']; simpl; [discriminate|].
  destruct (Ascii.ascii_dec a b) as [->|]; [eauto|discriminate].
Qed.

Lemma prefix_cons (p s : string) (a : Ascii.ascii) :
  JS.startsWith (String a s) (String a p) = JS.startsWith s p.
Proof.
  unfold JS.startsWith. simpl.
  destruct (Ascii.ascii_dec a a) as [_|Hne]; [reflexivity|now elim Hne].
Qed.

Lemma claude_is_not_gpt (modelId : string) :
  JS.startsWith modelId "claude" = true -> JS.startsWith modelId "gpt" = false.
Proof.
  intros Hc. apply prefix_first in Hc as [s' ->]. reflexivity.
Qed.

Lemma gemini_is_not_gpt_nor_claude (modelId : string) :
  JS.startsWith modelId "gemini" = true ->
  JS.startsWith modelId "gpt" = false /\ JS.startsWith modelId "claude" = false.
Proof.
  intros Hg. pose proof Hg as Hg'. apply prefix_first in Hg' as [s' ->].
  split; [|reflexivity].
  rewrite prefix_cons in Hg. apply prefix_first in Hg as [s'' ->]. reflexivity.
Qed.

(** C8. Whatever the registry holds, the model ids gpt-4, claude-3-haiku
    and gemini-pro, as every id that starts with gpt, claude or gemini,
    resolve to the adapter registered under the OpenAI, the Anthropic and
    the Google provider id, and to null when none is registered there;
    unknown-model-x, as every id with none of the three prefixes, resolves
    to null. In the registry built from a configuration
    (the three provider ids being different), the adapter under a provider
    id is the adapter of that family made from its key when the key is
    present and not empty, and there is none otherwise. The result is a
    function of the registry and the model id. *)
Theorem C8_router_resolution (providers : gmap string ModelService.ModelProvider)
    (config : ModelService.AppConfig.t) :
  distinct_providers ->
  ModelService.getProviderForModel providers "gpt-4" = providers !! PROVIDERS_OPENAI /\
  ModelService.getProviderForModel providers "claude-3-haiku" = providers !! PROVIDERS_ANTHROPIC /\
  ModelService.getProviderForModel providers "gemini-pro" = providers !! PROVIDERS_GOOGLE /\
  ModelService.getProviderForModel providers "unknown-model-x" = None /\
  (forall modelId,
     JS.startsWith modelId "gpt" = true ->
     ModelService.getProviderForModel providers modelId = providers !! PROVIDERS_OPENAI) /\
  (forall modelId,
     JS.startsWith modelId "claude" = true ->
     ModelService.getProviderForModel providers modelId = providers !! PROVIDERS_ANTHROPIC) /\
  (forall modelId,
     JS.startsWith modelId "gemini" = true ->
     ModelService.getProviderForModel providers modelId = providers !! PROVIDERS_GOOGLE) /\
  (forall modelId,
     JS.startsWith modelId "gpt" = false ->
     JS.startsWith modelId "claude" = false ->
     JS.startsWith modelId "gemini" = false ->
     ModelService.getProviderForModel providers modelId = None) /\
  ModelService.getProviderForModel (ModelService.initializeProviders config) "gpt-4"
  = adapterFor (ModelService.AppConfig.openaiApiKey config) ModelService.OpenAIProvider /\
  ModelService.getProviderForModel (ModelService.initializeProviders config) "claude-3-haiku"
  = adapterFor (ModelService.AppConfig.anthropicApiKey config) ModelService.AnthropicProvider /\
  ModelService.getProviderForModel (ModelService.initializeProviders config) "gemini-pro"
  = adapterFor (ModelService.AppConfig.geminiApiKey config) ModelService.GoogleAIProvider.
Proof.
  intros Hd. destruct (initializeProviders_lookup config Hd) as (HO & HA & HG).
  repeat split; try reflexivity.
  - intros modelId H1. unfold ModelService.getProviderForModel, ModelService.providerIdOf.
    now rewrite H1.
  - intros modelId H2. unfold ModelService.getProviderForModel, ModelService.providerIdOf.
    now rewrite (claude_is_not_gpt modelId H2), H2.
  - intros modelId H3. unfold ModelService.getProviderForModel, ModelService.providerIdOf.
    destruct (gemini_is_not_gpt_nor_claude modelId H3) as [H1 H2].
    now rewrite H1, H2, H3.
  - intros modelId H1 H2 H3. unfold ModelService.getProviderForModel, ModelService.providerIdOf.
    now rewrite H1, H2, H3.
  - exact HO.
  - exact HA.
  - exact HG.
Qed.

End RouterFacts.

Section RouterExamples.
Local Existing Instances exampleShared exampleRuntime.

(** C8 applied to a configuration with an OpenAI and a Google key only. *)
Lemma C8_router_resolution_witness :
  ModelService.getProviderForModel (ModelService.initializeProviders twoKeys) "gpt-4"
  = Some (ModelService.OpenAIProvider "sk-1") /\
  ModelService.getProviderForModel (ModelService.initializeProviders twoKeys) "claude-3-haiku"
  = None /\
  ModelService.getProviderForModel (ModelService.initializeProviders twoKeys) "gemini-pro"
  = Some (ModelService.GoogleAIProvider "g-1") /\
  ModelService.getProviderForModel (ModelService.initializeProviders twoKeys) "unknown-model-x"
  = None.
Proof.
  assert (D : distinct_providers)
    by (unfold distinct_providers; apply (bool_decide_unpack _); vm_compute; exact I).
  destruct (C8_router_resolution (ModelService.initializeProviders twoKeys) twoKeys D)
    as (_ & _ & _ & Hx & _ & _ & _ & _ & HO & HA & HG).
  split; [exact HO|]. split; [exact HA|]. split; [exact HG|exact Hx].
Defined.

End RouterExamples.

(** ** Message formatting *)

Section FormatFacts.
Context `{Shared, Runtime}.

(** The OpenAI adapter keeps every message, in order, under its own role,
    after the system prompt if there is one. *)
Lemma openai_formatMessages_keeps_all (messages : list Message.t) (systemPrompt : option string) :
  exists prefix,
    OpenAI.formatMessages messages systemPrompt = prefix ++ map OpenAI.formatMessage messages /\
    prefix = OpenAI.systemMessage systemPrompt /\
    map OpenAI.ChatMessage.content (map OpenAI.formatMessage messages)
    = map (fun m => blocksToText (Message.content m)) messages /\
    map OpenAI.ChatMessage.role (map OpenAI.formatMessage messages)
    = map (fun m => openaiRole (Message.role m)) messages.
Proof.
  eexists. split; [reflexivity|]. split; [reflexivity|].
  rewrite !map_map. split; apply map_ext; intros m; unfold OpenAI.formatMessage;
    destruct (Message.role m); reflexivity.
Qed.

(** The Google adapter keeps every message, in order; a SYSTEM message
    goes under the author system and a TOOL message under the author user. *)
Lemma google_formatMessages_keeps_all (messages : list Message.t) (systemPrompt : option string) :
  map Google.GoogleMessage.content (Google.formatMessages messages systemPrompt)
  = map (fun m => blocksToText (Message.content m)) messages /\
  map Google.GoogleMessage.author (Google.formatMessages messages systemPrompt)
  = map (fun m => Some (googleAuthor (Message.role m))) messages.
Proof.
  unfold Google.formatMessages. rewrite !map_map.
  split; apply map_ext; intros m; unfold Google.formatMessage; simpl;
    [reflexivity|]. destruct (Message.role m); reflexivity.
Qed.

(** The Anthropic adapter keeps the USER and ASSISTANT messages, in order,
    and no other. *)
Lemma anthropic_formatMessages_keeps_some (messages : list Message.t)
    (systemPrompt : option string) :
  map Anthropic.MessageParam.content (Anthropic.formatMessages messages systemPrompt)
  = map (fun m => blocksToText (Message.content m))
      (filter (fun m => Message.role m = USER \/ Message.role m = ASSISTANT) messages).
Proof.
  unfold Anthropic.formatMessages.
  induction messages as [|m ms IH]; [reflexivity|].
  change (omap Anthropic.formatMessage (m :: ms))
    with (match Anthropic.formatMessage m with
          | Some y => y :: omap Anthropic.formatMessage ms
          | None => omap Anthropic.formatMessage ms
          end).
  unfold Anthropic.formatMessage at 1.
  destruct (Message.role m) eqn:Hr.
  - rewrite filter_cons_False by (rewrite Hr; intros [|]; discriminate). exact IH.
  - rewrite filter_cons_True by (rewrite Hr; now left).
    rewrite !map_cons, IH. reflexivity.
  - rewrite filter_cons_True by (rewrite Hr; now right).
    rewrite !map_cons, IH. reflexivity.
  - rewrite filter_cons_False by (rewrite Hr; intros [|]; discriminate). exact IH.
Qed.

End FormatFacts.

Section FormatExamples.
Local Existing Instances exampleShared exampleRuntime.

(** C4, on the code. The Anthropic adapter formats a conversation of a
    SYSTEM, a USER and a TOOL message to the USER message alone, and the
    request [generate] sends carries the system text neither in its
    messages nor in its [system] field, while the request [generateStream]
    sends has it in [system]. The OpenAI and the Google adapter keep the
    three messages. *)
Theorem C4_anthropic_drops_system_and_tool :
  let conversation :=
    [textMessage SYSTEM "Be brief."; textMessage USER "hi"; textMessage TOOL "42"] in
  Anthropic.formatMessages conversation None = [Anthropic.MessageParam.mk "user" "hi"] /\
  World.sent
    (snd (run (Anthropic.generate (answering (anthropicAnswer "Hello!" None))
                 (messagesRequest "claude-3-haiku" conversation))))
  = [Anthropic.MessageCreateParams.mk "claude-3-haiku"
       [Anthropic.MessageParam.mk "user" "hi"] (7 # 10) 1024 None None false] /\
  World.sent
    (snd (run (Anthropic.generateStream (answering (Stream.mk [] None))
                 (messagesRequest "claude-3-haiku" conversation) "s1")))
  = [Anthropic.MessageCreateParams.mk "claude-3-haiku"
       [Anthropic.MessageParam.mk "user" "hi"] (7 # 10) 1024 None (Some "Be brief.") true] /\
  OpenAI.formatMessages conversation None
  = [OpenAI.ChatMessage.mk "system" "Be brief." None;
     OpenAI.ChatMessage.mk "user" "hi" None;
     OpenAI.ChatMessage.mk "tool" "42" (Some "placeholder-tool-call-id")] /\
  Google.formatMessages conversation None
  = [Google.GoogleMessage.mk "Be brief." (Some "system");
     Google.GoogleMessage.mk "hi" (Some "user");
     Google.GoogleMessage.mk "42" (Some "user")].
Proof. repeat split. Qed.

End FormatExamples.

(** ** Usage of a non-streaming call *)

Lemma foldl_add_sum {A} (f : A -> nat) (xs : list A) :
  forall start, foldl (fun total x => total + f x) start xs = start + sum_list (map f xs).
Proof.
  induction xs as [|x xs IH]; intros start; simpl; [lia|]. rewrite IH. lia.
Qed.

Section UsageFacts.
Context `{Shared, Runtime}.

(** Whatever [generate] of the Google adapter returns was built from an
    answer of the backend. *)
Lemma google_generateLoop_returns generateMessage params (fuel : nat) :
  forall retries delay w r w',
    Google.generateLoop generateMessage fuel params retries delay w = (Return r, w') ->
    exists response cost, r = Google.responseOf params response cost.
Proof.
  induction fuel as [|fuel IH]; intros retries delay w r w' Hrun; [discriminate|].
  simpl in Hrun.
  destruct (retries <=? Google.maxRetries)%nat; [|discriminate].
  rewrite try_catch_eq in Hrun.
  destruct (generateMessage (length (World.sent w)) (Google.request params))
    as [response|message] eqn:E.
  - destruct (attempt_resolved generateMessage params w response E) as [cost Hc].
    rewrite Hc in Hrun. injection Hrun as <- _. eauto.
  - rewrite (attempt_rejected generateMessage params w message E) in Hrun.
    destruct (Google.isRateLimitError message && (retries <? Google.maxRetries)%nat);
      [|discriminate].
    rewrite bind_eq in Hrun. simpl in Hrun. eapply IH. exact Hrun.
Qed.

(** C5, as amended. A successful non-streaming call of the Google adapter,
    whose backend reports no counts, returns as prompt tokens the token
    estimate of the prompt string, or the sum of the estimates of the
    rendered text of every message, as completion tokens the estimate of
    the output text, and as total their sum. A successful non-streaming
    call of the OpenAI or the Anthropic adapter returns the counts its
    backend reports, and 0 for a count the backend does not report; the
    total is the reported total for OpenAI and the sum of the two counts
    for Anthropic. *)
Theorem C5_usage_of_generate :
  (forall generateMessage params w r w',
     Google.generate generateMessage params w = (Return r, w') ->
     Usage.promptTokens (AIModelResponse.usage r)
     = match AIModelRequest.prompt params with
       | PromptText prompt => Google.countTokens prompt
       | PromptMessages messages =>
           sum_list (map (fun m => Google.countTokens (blocksToText (Message.content m)))
                       messages)
       end /\
     Usage.completionTokens (AIModelResponse.usage r)
     = Google.countTokens (AIModelResponse.content r) /\
     Usage.totalTokens (AIModelResponse.usage r)
     = Usage.promptTokens (AIModelResponse.usage r)
       + Usage.completionTokens (AIModelResponse.usage r)) /\
  (forall create params w r w',
     OpenAI.generate create params w = (Return r, w') ->
     exists response,
       create (length (World.sent w)) (OpenAI.request params false) = Resolved response /\
       let reported := OpenAI.ChatCompletion.usage response in
       Usage.promptTokens (AIModelResponse.usage r)
       = default 0 (OpenAI.CompletionUsage.prompt_tokens <$> reported) /\
       Usage.completionTokens (AIModelResponse.usage r)
       = default 0 (OpenAI.CompletionUsage.completion_tokens <$> reported) /\
       Usage.totalTokens (AIModelResponse.usage r)
       = default 0 (OpenAI.CompletionUsage.total_tokens <$> reported)) /\
  (forall create params w r w',
     Anthropic.generate create params w = (Return r, w') ->
     exists response,
       create (length (World.sent w))
         (Anthropic.request params (AIModelRequest.systemPrompt params) false)
       = Resolved response /\
       let reported := Anthropic.AnthropicMessage.usage response in
       Usage.promptTokens (AIModelResponse.usage r)
       = default 0 (reported ≫= Anthropic.ResponseUsage.input_tokens) /\
       Usage.completionTokens (AIModelResponse.usage r)
       = default 0 (reported ≫= Anthropic.ResponseUsage.output_tokens) /\
       Usage.totalTokens (AIModelResponse.usage r)
       = Usage.promptTokens (AIModelResponse.usage r)
         + Usage.completionTokens (AIModelResponse.usage r)).
Proof.
  split; [|split].
  - intros generateMessage params w r w' Hrun.
    destruct (google_generateLoop_returns generateMessage params _ _ _ _ _ _ Hrun)
      as (response & cost & ->).
    simpl. repeat split.
    unfold Google.inputTokens. destruct (AIModelRequest.prompt params); [reflexivity|].
    now rewrite foldl_add_sum.
  - intros create params w r w' Hrun.
    destruct (create (length (World.sent w)) (OpenAI.request params false))
      as [response|message] eqn:E.
    + destruct (openai_generate_resolved create params w response E) as [cost Hc].
      rewrite Hc in Hrun. injection Hrun as <- _.
      exists response. repeat split.
    + rewrite (openai_generate_rejected create params w message E) in Hrun. discriminate.
  - intros create params w r w' Hrun.
    destruct (create (length (World.sent w))
                (Anthropic.request params (AIModelRequest.systemPrompt params) false))
      as [response|message] eqn:E.
    + destruct (anthropic_generate_resolved create params w response E) as [cost Hc].
      rewrite Hc in Hrun. injection Hrun as <- _.
      exists response. repeat split.
    + rewrite (anthropic_generate_rejected create params w message E) in Hrun. discriminate.
Qed.

End UsageFacts.

Section UsageExamples.
Local Existing Instances exampleShared exampleRuntime.

(** C5 applied: a Google call over two messages, an OpenAI call whose
    backend reports 7, 2 and 9 tokens, an Anthropic call whose backend
    reports 5 input tokens only. *)
Lemma C5_usage_of_generate_witness :
  (exists r w',
     Google.generate (answering (googleAnswer "Hello!"))
       (messagesRequest "gemini-pro"
          [textMessage SYSTEM "Be brief."; textMessage USER "hello world!"])
       World.init = (Return r, w') /\
     Usage.promptTokens (AIModelResponse.usage r) = 3 + 3 /\
     Usage.completionTokens (AIModelResponse.usage r) = 2) /\
  (exists r w',
     OpenAI.generate
       (answering (openaiAnswer "Hello!" (Some (OpenAI.CompletionUsage.mk 7 2 9))))
       (textRequest "gpt-4" "hello world!") World.init = (Return r, w') /\
     Usage.promptTokens (AIModelResponse.usage r) = 7 /\
     Usage.totalTokens (AIModelResponse.usage r) = 9) /\
  (exists r w',
     Anthropic.generate
       (answering (anthropicAnswer "Hello!"
                     (Some (Anthropic.ResponseUsage.mk (Some 5) None))))
       (textRequest "claude-3-haiku" "hello world!") World.init = (Return r, w') /\
     Usage.promptTokens (AIModelResponse.usage r) = 5 /\
     Usage.completionTokens (AIModelResponse.usage r) = 0).
Proof.
  destruct C5_usage_of_generate as (HG & HO & HA).
  split; [|split].
  - edestruct (HG (answering (googleAnswer "Hello!"))
                 (messagesRequest "gemini-pro"
                    [textMessage SYSTEM "Be brief."; textMessage USER "hello world!"])
                 World.init) as (Hp & Hc & _).
    + vm_compute. reflexivity.
    + eexists _, _. split; [vm_compute; reflexivity|]. split; [exact Hp|exact Hc].
  - edestruct (HO (answering (openaiAnswer "Hello!" (Some (OpenAI.CompletionUsage.mk 7 2 9))))
                 (textRequest "gpt-4" "hello world!") World.init)
      as (response & Hresp & Hp & _ & Ht).
    + vm_compute. reflexivity.
    + injection Hresp as <-.
      eexists _, _. split; [vm_compute; reflexivity|]. split; [exact Hp|exact Ht].
  - edestruct (HA (answering (anthropicAnswer "Hello!"
                                (Some (Anthropic.ResponseUsage.mk (Some 5) None))))
                 (textRequest "claude-3-haiku" "hello world!") World.init)
      as (response & Hresp & Hp & Hc & _).
    + vm_compute. reflexivity.
    + injection Hresp as <-.
      eexists _, _. split; [vm_compute; reflexivity|]. split; [exact Hp|exact Hc].
Defined.

(** C5 as stated fails for the OpenAI and the Anthropic adapter: when the
    backend reports no counts, the usage is zero, not the sum of the token
    estimates of the prompt (3) and of the output (2). *)
Lemma C5_counterexample :
  (exists r w',
     OpenAI.generate (answering (openaiAnswer "Hello!" None))
       (textRequest "gpt-4" "hello world!") World.init = (Return r, w') /\
     AIModelResponse.content r = "Hello!" /\
     Usage.promptTokens (AIModelResponse.usage r) = 0 /\
     Usage.completionTokens (AIModelResponse.usage r) = 0 /\
     Usage.totalTokens (AIModelResponse.usage r) = 0) /\
  OpenAI.countTokens "hello world!" = 3 /\
  OpenAI.countTokens "Hello!" = 2 /\
  (exists r w',
     Anthropic.generate (answering (anthropicAnswer "Hello!" None))
       (textRequest "claude-3-haiku" "hello world!") World.init = (Return r, w') /\
     Usage.promptTokens (AIModelResponse.usage r) = 0 /\
     Usage.completionTokens (AIModelResponse.usage r) = 0) /\
  Anthropic.countTokens "hello world!" = 3 /\
  Anthropic.countTokens "Hello!" = 2.
Proof.
  split; [eexists _, _; split; [vm_compute; reflexivity|repeat split]|].
  split; [reflexivity|]. split; [reflexivity|].
  split; [eexists _, _; split; [vm_compute; reflexivity|repeat split]|].
  split; reflexivity.
Qed.

End UsageExamples.

(** * Further properties of the adapters *)

(** ** The retry loop of the Google adapter, for every backend *)

Section GoogleGenerateRuns.
Context `{Shared, Runtime}.
Variable generateMessage :
  nat -> Google.GenerateMessageRequest.t -> Settled Google.GenerateMessageResponse.t.
Variable params : AIModelRequest.t.



End GoogleGenerateRuns.

(** ** Searching in strings *)

Lemma startsWith_app (p s : string) :
  String.prefix p s = true <-> exists rest, s = p +:+ rest.
Proof.
  revert s. induction p as [|a p IH]; intros s.
  - split; [intros _; exists s; reflexivity|intros _; destruct s; reflexivity].
  - destruct s as [|b s]; simpl.
    + split; [discriminate|]. intros [rest Hr]. discriminate.
    + destruct (Ascii.ascii_dec a b) as [->|Hne].
      * rewrite IH. split.
        -- intros [rest ->]. exists rest. reflexivity.
        -- intros [rest Hr]. rewrite append_cons in Hr. injection Hr as ->. eauto.
      * split; [discriminate|]. intros [rest Hr]. rewrite append_cons in Hr.
        injection Hr as Hab _. congruence.
Qed.

Lemma includes_empty (sub : string) :
  JS.includes EmptyString sub = String.prefix sub EmptyString.
Proof. unfold JS.includes. now rewrite orb_false_r. Qed.

Lemma includes_cons (c : Ascii.ascii) (s sub : string) :
  JS.includes (String c s) sub = String.prefix sub (String c s) || JS.includes s sub.
Proof. reflexivity. Qed.

Lemma includes_app (s sub : string) :
  JS.includes s sub = true <-> exists before after, s = before +:+ sub +:+ after.
Proof.
  induction s as [|c s IH].
  - rewrite includes_empty, startsWith_app. split.
    + intros [rest Hr]. exists EmptyString, rest. exact Hr.
    + intros (before & after & Hs). destruct before as [|b before].
      * eauto.
      * rewrite append_cons in Hs. discriminate.
  - rewrite includes_cons, orb_true_iff, startsWith_app, IH. split.
    + intros [[rest Hr]|(before & after & ->)].
      * exists EmptyString, rest. exact Hr.
      * exists (String c before), after. reflexivity.
    + intros (before & after & Hs). destruct before as [|b before].
      * left. eauto.
      * right. rewrite append_cons in Hs. injection Hs as -> ->. eauto.
Qed.

Lemma toLowerCase_app (a b : string) :
  JS.toLowerCase (a +:+ b) = JS.toLowerCase a +:+ JS.toLowerCase b.
Proof.
  induction a as [|c a IH]; [reflexivity|].
  rewrite append_cons. simpl. now rewrite IH.
Qed.

Lemma toLowerCase_split (s : string) :
  forall x y,
    JS.toLowerCase s = x +:+ y ->
    exists s1 s2, s = s1 +:+ s2 /\ JS.toLowerCase s1 = x /\ JS.toLowerCase s2 = y.
Proof.
  induction s as [|c s IH]; intros x y Hs.
  - destruct x as [|a x]; [|rewrite append_cons in Hs; discriminate].
    exists EmptyString, EmptyString. simpl in Hs. rewrite append_empty_l in Hs.
    subst y. repeat split.
  - destruct x as [|a x].
    + exists EmptyString, (String c s). rewrite append_empty_l in Hs.
      repeat split. exact Hs.
    + simpl in Hs. rewrite append_cons in Hs. injection Hs as Ha Hrest.
      destruct (IH x y Hrest) as (s1 & s2 & -> & H1 & H2).
      exists (String c s1), s2. simpl. rewrite Ha, H1. repeat split. exact H2.
Qed.

Lemma lower_char_idempotent (c : Ascii.ascii) :
  JS.lower_char (JS.lower_char c) = JS.lower_char c.
Proof. destruct c as [[] [] [] [] [] [] [] []]; reflexivity. Qed.

Lemma toLowerCase_idempotent (s : string) :
  JS.toLowerCase (JS.toLowerCase s) = JS.toLowerCase s.
Proof.
  induction s as [|c s IH]; [reflexivity|].
  simpl. now rewrite lower_char_idempotent, IH.
Qed.

(** The lower-cased text contains a lower-case word exactly when the text
    contains the word in some casing. *)
Lemma includes_lower (s word : string) :
  JS.includes (JS.toLowerCase s) word = true <->
  exists before found after,
    s = before +:+ found +:+ after /\ JS.toLowerCase found = word.
Proof.
  rewrite includes_app. split.
  - intros (x & z & Hs).
    destruct (toLowerCase_split s x (word +:+ z) Hs) as (s1 & s23 & -> & _ & H23).
    destruct (toLowerCase_split s23 word z H23) as (s2 & s3 & -> & H2 & _).
    exists s1, s2, s3. split; [reflexivity|exact H2].
  - intros (before & found & after & -> & Hf).
    exists (JS.toLowerCase before), (JS.toLowerCase after).
    now rewrite !toLowerCase_app, Hf.
Qed.

(** X2. An error text is classified as a rate limit exactly when it
    contains, in any casing, one of the words quota, rate and limit,
    anywhere, also inside a longer word; the classification does not depend
    on the casing of the text. *)
Theorem X2_rate_limit_classification (errorMessage : string) :
  (Google.isRateLimitError errorMessage = true <->
   exists before found after,
     errorMessage = before +:+ found +:+ after /\
     (JS.toLowerCase found = "quota" \/ JS.toLowerCase found = "rate"
      \/ JS.toLowerCase found = "limit")) /\
  Google.isRateLimitError (JS.toLowerCase errorMessage) = Google.isRateLimitError errorMessage.
Proof.
  split.
  - unfold Google.isRateLimitError. rewrite !orb_true_iff, !includes_lower. split.
    + intros [[(b & f & a & Hs & Hf)|(b & f & a & Hs & Hf)]|(b & f & a & Hs & Hf)];
        exists b, f, a; tauto.
    + intros (b & f & a & Hs & [Hf|[Hf|Hf]]); [left; left|left; right|right];
        exists b, f, a; tauto.
  - unfold Google.isRateLimitError. now rewrite toLowerCase_idempotent.
Qed.

(** X3. The model name sent to the Google backend always contains a slash:
    it is the model id itself when that contains one, and the id behind
    models/ otherwise; formatting a formatted name changes nothing. *)
Theorem X3_formatModelName (modelId : string) :
  JS.includes (Google.formatModelName modelId) "/" = true /\
  Google.formatModelName (Google.formatModelName modelId) = Google.formatModelName modelId /\
  (Google.formatModelName modelId = modelId \/
   Google.formatModelName modelId = "models/" +:+ modelId /\
   JS.includes modelId "/" = false).
Proof.
  assert (Hin : JS.includes (Google.formatModelName modelId) "/" = true).
  { unfold Google.formatModelName. destruct (JS.includes modelId "/") eqn:E; cbn [negb].
    - exact E.
    - apply includes_app. exists "models", modelId. reflexivity. }
  split; [exact Hin|]. split.
  - unfold Google.formatModelName at 1. now rewrite Hin.
  - unfold Google.formatModelName. destruct (JS.includes modelId "/"); cbn [negb]; auto.
Qed.

(** ** Token estimates *)

Lemma append_length (a b : string) :
  String.length (a +:+ b) = String.length a + String.length b.
Proof.
  induction a as [|c a IH]; [reflexivity|].
  rewrite append_cons. simpl. now rewrite IH.
Qed.

Lemma ceil_div_bounds (n d : nat) :
  0 < d -> n <= d * JS.ceil_div n d /\ d * JS.ceil_div n d < n + d.
Proof.
  intros Hd. unfold JS.ceil_div.
  pose proof (Nat.div_mod_eq (n + (d - 1)) d) as Hdiv.
  pose proof (Nat.mod_upper_bound (n + (d - 1)) d ltac:(lia)) as Hmod.
  lia.
Qed.

Lemma ceil_div_mono (n m d : nat) : n <= m -> JS.ceil_div n d <= JS.ceil_div m d.
Proof.
  intros Hnm. unfold JS.ceil_div. destruct d as [|d]; [reflexivity|].
  apply Nat.Div0.div_le_mono. lia.
Qed.

(** X4. The token estimate of the OpenAI and of the Google adapter is the
    length divided by 4 and rounded up, that of the Anthropic adapter the
    length divided by 4.5 and rounded up: each is zero for the empty text
    only, the Anthropic estimate never exceeds the other, and the estimate
    of a concatenation is at most the sum of the estimates of its parts. *)
Theorem X4_token_estimates (text other : string) :
  (String.length text <= 4 * OpenAI.countTokens text /\
   4 * OpenAI.countTokens text < String.length text + 4) /\
  Google.countTokens text = OpenAI.countTokens text /\
  (2 * String.length text <= 9 * Anthropic.countTokens text /\
   9 * Anthropic.countTokens text < 2 * String.length text + 9) /\
  (OpenAI.countTokens text = 0 <-> text = EmptyString) /\
  (Anthropic.countTokens text = 0 <-> text = EmptyString) /\
  Anthropic.countTokens text <= OpenAI.countTokens text /\
  OpenAI.countTokens (text +:+ other) <= OpenAI.countTokens text + OpenAI.countTokens other /\
  Anthropic.countTokens (text +:+ other)
  <= Anthropic.countTokens text + Anthropic.countTokens other.
Proof.
  unfold OpenAI.countTokens, Google.countTokens, Anthropic.countTokens.
  rewrite append_length.
  pose proof (ceil_div_bounds (String.length text) 4 ltac:(lia)) as B4.
  pose proof (ceil_div_bounds (2 * String.length text) 9 ltac:(lia)) as B9.
  pose proof (ceil_div_bounds (String.length other) 4 ltac:(lia)) as C4.
  pose proof (ceil_div_bounds (2 * String.length other) 9 ltac:(lia)) as C9.
  pose proof (ceil_div_bounds (String.length text + String.length other) 4 ltac:(lia)) as D4.
  pose proof (ceil_div_bounds (2 * (String.length text + String.length other)) 9 ltac:(lia))
    as D9.
  assert (Hlen : String.length text = 0 <-> text = EmptyString)
    by (destruct text; simpl; split; (congruence || lia)).
  repeat split; try lia.
  - intros H0. apply Hlen. lia.
  - intros ->. reflexivity.
  - intros H0. apply Hlen. lia.
  - intros ->. reflexivity.
Qed.

(** ** What a block renders to *)

Lemma append_not_empty (a b : string) : a <> EmptyString -> a +:+ b <> EmptyString.
Proof. destruct a; [congruence|]. intros _. rewrite append_cons. discriminate. Qed.

Lemma join_empty_iff (sep : string) (pieces : list string) :
  Forall (fun piece => piece <> EmptyString) pieces ->
  (JS.join sep pieces = EmptyString <-> pieces = []).
Proof.
  intros Hall. split; [|intros ->; reflexivity].
  destruct Hall as [|x l Hx _]; [reflexivity|].
  unfold JS.join. simpl. destruct l as [|y l].
  - intros ->. now elim Hx.
  - intros Habs. now apply append_not_empty in Habs.
Qed.

Section RenderedText.
Context `{Shared, Runtime}.

Lemma renderBlock_not_empty (block : ContentBlock.t) : renderBlock block <> EmptyString.
Proof.
  unfold renderBlock.
  destruct (ContentBlock.text block) as [[|c t]|]; simpl; rewrite ?andb_false_r, ?andb_true_r;
    repeat match goal with
           | |- context [if ?b then _ else _] => destruct b
           end; discriminate.
Qed.

(** X5. No block renders to the empty text, so the text of a sequence of
    blocks is empty only for the empty sequence; it is the rendering of the
    block for a single block, and the text of a sequence that starts with a
    block is the rendering of that block, a line feed, and the text of the
    rest. *)
Theorem X5_rendered_text (block : ContentBlock.t) (blocks : list ContentBlock.t) :
  renderBlock block <> EmptyString /\
  (blocksToText blocks = EmptyString <-> blocks = []) /\
  blocksToText [block] = renderBlock block /\
  (blocks <> [] ->
   blocksToText (block :: blocks)
   = renderBlock block +:+ JS.newline +:+ blocksToText blocks).
Proof.
  split; [apply renderBlock_not_empty|]. split; [|split].
  - unfold blocksToText. rewrite join_empty_iff.
    + split; [apply map_eq_nil|intros ->; reflexivity].
    + apply Forall_forall. intros piece Hin. apply list_elem_of_fmap in Hin as (b & -> & _).
      apply renderBlock_not_empty.
  - reflexivity.
  - intros Hne. destruct blocks as [|b bs]; [congruence|]. reflexivity.
Qed.

End RenderedText.

Section RenderedTextExamples.
Local Existing Instances exampleShared exampleRuntime.

(** X5 applied to two text blocks. *)
Lemma X5_rendered_text_witness :
  blocksToText [textBlock "a"; textBlock "b"]
  = renderBlock (textBlock "a") +:+ JS.newline +:+ blocksToText [textBlock "b"].
Proof.
  destruct (X5_rendered_text (textBlock "a") [textBlock "b"]) as (_ & _ & _ & Hcons).
  apply Hcons. discriminate.
Defined.

End RenderedTextExamples.

(** ** The chunks of the simulated stream *)

Section GoogleChunks.
Context `{Shared, Runtime}.

Lemma streamLoop_chunks (streamId : string) (response : AIModelResponse.t) :
  forall fuel j w,
    0 < fuel ->
    String.length (AIModelResponse.content response) < 10 * j + fuel ->
    exists chunks,
      Google.streamLoop fuel streamId response (10 * j) w
      = (Return tt,
         World.emits (World.waited w (replicate (length chunks) 50)) chunks) /\
      length chunks = JS.ceil_div (String.length (AIModelResponse.content response)) 10 - j /\
      (forall i chunk, chunks !! i = Some chunk ->
         let last :=
           (String.length (AIModelResponse.content response) <=? 10 * (j + i) + 10)%nat in
         chunk = StreamChunk.mk streamId CONTENT_DELTA
                   (PayloadText (JS.substring (AIModelResponse.content response)
                                   (10 * (j + i)) (10 * (j + i) + 10)))
                   last (AIModelResponse.modelId response) None
                   (if last then Some (AIModelResponse.usage response) else None)).
Proof.
  set (text := AIModelResponse.content response).
  pose proof (ceil_div_bounds (String.length text) 10 ltac:(lia)) as Hceil.
  induction fuel as [|fuel IH]; intros j w Hfuel Hlen; [lia|].
  cbn [Google.streamLoop]. cbv zeta. fold text.
  destruct (Nat.ltb_spec (10 * j) (String.length text)) as [Hj|Hj].
  - replace (10 * j + Google.chunkSize) with (10 * S j) by (unfold Google.chunkSize; lia).
    rewrite bind_eq, onChunk_eq, bind_eq. unfold sleep at 1.
    match goal with
    | |- context [Google.streamLoop fuel streamId response (10 * S j) ?w'] =>
        destruct (IH (S j) w') as (rest & Hrun & Hcount & Hall); [lia|lia|]
    end.
    eexists (_ :: rest). split; [|split].
    + rewrite Hrun. unfold World.emits, World.waited.
      cbn [World.sent World.waits World.emitted length replicate].
      rewrite <- !app_assoc. reflexivity.
    + cbn [length]. rewrite Hcount. lia.
    + intros [|i] chunk Hi; rewrite lookup_cons in Hi.
      * apply (inj Some) in Hi. subst chunk. cbv zeta. rewrite Nat.add_0_r.
        replace (10 * j + 10) with (10 * S j) by lia. reflexivity.
      * specialize (Hall i chunk Hi). cbv zeta in Hall. cbv zeta.
        replace (j + S i) with (S j + i) by lia. exact Hall.
  - exists []. unfold ret. rewrite world_waited_nil, world_emits_nil.
    split; [reflexivity|]. split; [cbn [length]; lia|]. intros i chunk Hi. discriminate.
Qed.

(** X6. When [generate] succeeds with a content of [n] characters, the
    simulated stream of the Google adapter hands over the whole number of
    tens in [n], rounded up, of chunks and waits 50 ms after each: chunk
    [i] carries [content.substring(10 i, 10 i + 10)], the model id of the
    response and no provider; it is final, and carries the usage of the
    response, exactly when it is the last one. *)
Theorem X6_google_stream_chunks generateMessage params streamId w r w' :
  Google.generate generateMessage params w = (Return r, w') ->
  exists chunks,
    Google.generateStream generateMessage params streamId w
    = (Return r, World.emits (World.waited w' (replicate (length chunks) 50)) chunks) /\
    length chunks = JS.ceil_div (String.length (AIModelResponse.content r)) 10 /\
    (forall i chunk, chunks !! i = Some chunk ->
       chunk = StreamChunk.mk streamId CONTENT_DELTA
                 (PayloadText (JS.substring (AIModelResponse.content r) (10 * i) (10 * i + 10)))
                 (bool_decide (S i = length chunks)) (AIModelResponse.modelId r) None
                 (if bool_decide (S i = length chunks)
                  then Some (AIModelResponse.usage r) else None)).
Proof.
  intros Hgen.
  destruct (streamLoop_chunks streamId r (String.length (AIModelResponse.content r) + 1) 0 w')
    as (chunks & Hrun & Hcount & Hall); [lia|lia|].
  rewrite Nat.sub_0_r in Hcount.
  exists chunks. split; [|split; [exact Hcount|]].
  - unfold Google.generateStream. rewrite try_catch_eq, bind_eq, Hgen, bind_eq.
    change (10 * 0) with 0 in Hrun. rewrite Hrun. reflexivity.
  - intros i chunk Hi. pose proof (Hall i chunk Hi) as Hc. cbv zeta in Hc.
    change (0 + i) with i in Hc.
    apply lookup_lt_Some in Hi.
    pose proof (ceil_div_bounds (String.length (AIModelResponse.content r)) 10 ltac:(lia))
      as Hceil.
    assert (Hlast : (String.length (AIModelResponse.content r) <=? 10 * i + 10)%nat
                    = bool_decide (S i = length chunks)).
    { destruct (Nat.leb_spec (String.length (AIModelResponse.content r)) (10 * i + 10)).
      - symmetry. apply bool_decide_eq_true_2. lia.
      - symmetry. apply bool_decide_eq_false_2. lia. }
    rewrite Hlast in Hc. exact Hc.
Qed.

End GoogleChunks.

Section GoogleChunksExamples.
Local Existing Instances exampleShared exampleRuntime.

(** X6 applied to an answer of 25 characters: three chunks. *)
Lemma X6_google_stream_chunks_witness :
  exists r w' chunks,
    Google.generate (answering (googleAnswer "The quick brown fox jumps"))
      (textRequest "gemini-pro" "hi") World.init = (Return r, w') /\
    Google.generateStream (answering (googleAnswer "The quick brown fox jumps"))
      (textRequest "gemini-pro" "hi") "s1" World.init
    = (Return r, World.emits (World.waited w' (replicate (length chunks) 50)) chunks) /\
    length chunks = 3.
Proof.
  edestruct (X6_google_stream_chunks (answering (googleAnswer "The quick brown fox jumps"))
               (textRequest "gemini-pro" "hi") "s1" World.init)
    as (chunks & Hrun & Hcount & _).
  - vm_compute. reflexivity.
  - eexists _, _, chunks. split; [vm_compute; reflexivity|]. split; [exact Hrun|exact Hcount].
Defined.

End GoogleChunksExamples.

(** ** What a stream of the OpenAI adapter hands over *)

Section OpenAIStreamShape.
Context `{Shared, Runtime}.
Variable create_stream :
  nat -> OpenAI.ChatRequest.t -> Settled (Stream.t OpenAI.ChatCompletionChunk.t).

Local Abbreviation openai_deltas items :=
  (List.filter JS.truthy
     (map (fun chunk => JS.or_else (OpenAI.ChatCompletionChunk.delta_content chunk) EmptyString)
        items)).

Local Abbreviation openai_reported items :=
  (last (omap OpenAI.ChatCompletionChunk.usage items)).

Local Abbreviation openai_delta_chunk streamId modelId :=
  (fun text => StreamChunk.mk streamId CONTENT_DELTA (PayloadText text) false modelId
                 (Some "openai") None).




End OpenAIStreamShape.
Section OpenAIStreamShapeExamples.
Local Existing Instances exampleShared exampleRuntime.

Local Abbreviation helloStream :=
  (Stream.mk
     [OpenAI.ChatCompletionChunk.mk (Some "Hel") None;
      OpenAI.ChatCompletionChunk.mk None None;
      OpenAI.ChatCompletionChunk.mk (Some "lo") (Some (OpenAI.CompletionUsage.mk 7 0 7))]
     None).


End OpenAIStreamShapeExamples.

(** ** What a stream of the Anthropic adapter hands over *)


Section AnthropicStreamShape.
Context `{Shared, Runtime}.
Variable create_stream :
  nat -> Anthropic.MessageCreateParams.t -> Settled (Stream.t Anthropic.StreamEvent).

Local Abbreviation anthropic_textDelta :=
  (fun event : Anthropic.StreamEvent =>
     match event with
     | Anthropic.content_block_delta (Some (Anthropic.TextDelta text)) => text
     | Anthropic.content_block_delta (Some (Anthropic.ObjectDelta json)) => json
     | _ => EmptyString
     end).

Local Abbreviation anthropic_throws :=
  (fun event : Anthropic.StreamEvent =>
     match event with
     | Anthropic.content_block_delta (Some (Anthropic.PrimitiveDelta shown)) =>
         Some (Anthropic.inOperatorError shown)
     | _ => None
     end).

Local Abbreviation anthropic_usage :=
  (fun event : Anthropic.StreamEvent =>
     match event with
     | Anthropic.message_delta usage => usage
     | _ => None
     end).

Local Abbreviation anthropic_deltas items :=
  (List.filter JS.truthy (map anthropic_textDelta items)).

Local Abbreviation anthropic_reported items := (last (omap anthropic_usage items)).

Local Abbreviation input_of :=
  (fun usage => JS.num_or_zero (Anthropic.ResponseUsage.input_tokens usage)).

Local Abbreviation output_of :=
  (fun usage => JS.num_or_zero (Anthropic.ResponseUsage.output_tokens usage)).

Local Abbreviation anthropic_delta_chunk streamId modelId :=
  (fun text => StreamChunk.mk streamId CONTENT_DELTA (PayloadText text) false modelId
                 (Some "anthropic") None).




End AnthropicStreamShape.

Section AnthropicStreamShapeExamples.
Local Existing Instances exampleShared exampleRuntime.

Local Abbreviation eventStream :=
  (Stream.mk
     [Anthropic.other_event;
      Anthropic.content_block_delta (Some (Anthropic.TextDelta "Hel"));
      Anthropic.content_block_delta None;
      Anthropic.content_block_delta (Some (Anthropic.ObjectDelta "{}"));
      Anthropic.message_delta (Some (Anthropic.ResponseUsage.mk None (Some 5)))]
     None).

Local Abbreviation primitiveStream :=
  (Stream.mk
     [Anthropic.content_block_delta (Some (Anthropic.TextDelta "Hel"));
      Anthropic.content_block_delta (Some (Anthropic.PrimitiveDelta "true"));
      Anthropic.content_block_delta (Some (Anthropic.TextDelta "lo"))]
     None).


End AnthropicStreamShapeExamples.

(** ** Which providers are available *)

Section AvailabilityFacts.
Context `{Shared}.

Lemma register_truthy id key make providers :
  (forall k, JS.truthy (ModelService.apiKey (make k)) = JS.truthy k) ->
  map_Forall (fun _ adapter => JS.truthy (ModelService.apiKey adapter) = true) providers ->
  map_Forall (fun _ adapter => JS.truthy (ModelService.apiKey adapter) = true)
    (ModelService.register id key make providers).
Proof.
  intros Hmake Hall. unfold ModelService.register.
  destruct key as [k|]; [|exact Hall].
  destruct (JS.truthy k) eqn:Hk; [|exact Hall].
  apply map_Forall_insert_2; [|exact Hall]. now rewrite Hmake.
Qed.

Lemma initializeProviders_truthy (config : ModelService.AppConfig.t) :
  map_Forall (fun _ adapter => JS.truthy (ModelService.apiKey adapter) = true)
    (ModelService.initializeProviders config).
Proof.
  unfold ModelService.initializeProviders.
  repeat (apply register_truthy; [reflexivity|]).
  apply map_Forall_empty.
Qed.

(** X9. In the registry the router builds from a configuration, whatever
    the provider ids are, an adapter is only ever registered with a key that
    is not empty. So a provider is reported available exactly when it is
    one of the listed providers, and every adapter the router resolves for a
    model id is available. *)
Theorem X9_registered_is_available (config : ModelService.AppConfig.t)
    (provider modelId : string) :
  let providers := ModelService.initializeProviders config in
  ModelService.isProviderAvailable providers provider
  = bool_decide (provider ∈ ModelService.getAvailableProviders providers) /\
  from_option (fun adapter => BaseModelProvider.isAvailable (ModelService.apiKey adapter)) true
    (ModelService.getProviderForModel providers modelId) = true.
Proof.
  cbv zeta. pose proof (initializeProviders_truthy config) as Hall. split.
  - unfold ModelService.isProviderAvailable, ModelService.getAvailableProviders.
    destruct (ModelService.initializeProviders config !! provider) as [adapter|] eqn:E.
    + unfold BaseModelProvider.isAvailable. rewrite (Hall _ _ E).
      symmetry. apply bool_decide_eq_true_2.
      apply elem_of_dom. now exists adapter.
    + symmetry. apply bool_decide_eq_false_2. now apply not_elem_of_dom.
  - unfold ModelService.getProviderForModel.
    destruct (ModelService.providerIdOf modelId) as [id|]; [|reflexivity].
    destruct (ModelService.initializeProviders config !! id) as [adapter|] eqn:E;
      [|reflexivity].
    exact (Hall _ _ E).
Qed.

(** X10. When the three provider ids are different, the availability of a
    provider in the registry built from a configuration is read off the
    configuration alone: a provider id of the three is available exactly
    when its key is present and not empty, and no other provider is. *)
Theorem X10_availability_of_config (config : ModelService.AppConfig.t) (provider : string) :
  distinct_providers ->
  ModelService.isProviderAvailable (ModelService.initializeProviders config) provider
  = if decide (provider = PROVIDERS_OPENAI)
    then JS.truthy_opt (ModelService.AppConfig.openaiApiKey config)
    else if decide (provider = PROVIDERS_ANTHROPIC)
    then JS.truthy_opt (ModelService.AppConfig.anthropicApiKey config)
    else if decide (provider = PROVIDERS_GOOGLE)
    then JS.truthy_opt (ModelService.AppConfig.geminiApiKey config)
    else false.
Proof.
  intros Hd. destruct (initializeProviders_lookup config Hd) as (HO & HA & HG).
  assert (Hkey : forall key make,
             (forall k, ModelService.apiKey (make k) = k) ->
             match adapterFor key make with
             | Some adapter => BaseModelProvider.isAvailable (ModelService.apiKey adapter)
             | None => false
             end = JS.truthy_opt key).
  { intros [k|] make Hmake; [|reflexivity]. unfold adapterFor. cbn [JS.truthy_opt].
    destruct (JS.truthy k) eqn:Hk; [|reflexivity].
    unfold BaseModelProvider.isAvailable. now rewrite Hmake. }
  unfold ModelService.isProviderAvailable.
  repeat case_decide; subst.
  - rewrite HO. now apply Hkey.
  - rewrite HA. now apply Hkey.
  - rewrite HG. now apply Hkey.
  - unfold ModelService.initializeProviders. rewrite !register_lookup.
    repeat case_decide; try congruence. now rewrite lookup_empty.
Qed.

End AvailabilityFacts.

Section AvailabilityExamples.
Local Existing Instances exampleShared exampleRuntime.

(** X10 applied to a configuration with an OpenAI and a Google key only. *)
Lemma X10_availability_of_config_witness :
  ModelService.isProviderAvailable (ModelService.initializeProviders twoKeys) PROVIDERS_ANTHROPIC
  = false /\
  ModelService.isProviderAvailable (ModelService.initializeProviders twoKeys) PROVIDERS_GOOGLE
  = true.
Proof.
  assert (D : distinct_providers)
    by (unfold distinct_providers; apply (bool_decide_unpack _); vm_compute; exact I).
  split.
  - rewrite (X10_availability_of_config twoKeys PROVIDERS_ANTHROPIC D). reflexivity.
  - rewrite (X10_availability_of_config twoKeys PROVIDERS_GOOGLE D). reflexivity.
Defined.

End AvailabilityExamples.

(** ** The default tier of a price table *)

Section CheapestTier.
Context `{Shared, Runtime}.
Hypothesis fl_mono : monotone_rounding.
Hypothesis fl_zero : rounding_keeps_zero.

(** One rounded product does not decrease when the price grows. *)
Lemma term_price_mono (n : nat) (price price' : Q) :
  (price <= price')%Q ->
  (fl (fl (inject_Z (Z.of_nat n) / 1000) * fl price)
   <= fl (fl (inject_Z (Z.of_nat n) / 1000) * fl price'))%Q.
Proof.
  intros Hp. apply fl_mono.
  rewrite (Qmult_comm _ (fl price)), (Qmult_comm _ (fl price')).
  apply Qmult_le_compat_r.
  - now apply fl_mono.
  - apply (fl_nonneg fl_mono fl_zero), thousandth_nonneg.
Qed.

Lemma costOf_price_mono (modelCost modelCost' : ModelCost.t) (p c : nat) :
  (ModelCost.input modelCost <= ModelCost.input modelCost')%Q ->
  (ModelCost.output modelCost <= ModelCost.output modelCost')%Q ->
  (costOf modelCost p c <= costOf modelCost' p c)%Q.
Proof.
  intros Hi Ho. unfold costOf. apply fl_mono.
  apply Qplus_le_compat; now apply term_price_mono.
Qed.

(** In a table where no tier is priced below the default one, a model id
    is charged at least the default tier, unless it is not in the table and
    names an inherited member. *)
Lemma cheapest_of_table (costs : gmap string ModelCost.t) (fallback : string)
    (dflt : ModelCost.t) (modelId : string) (p c : nat) :
  costs !! fallback = Some dflt ->
  map_Forall (fun _ modelCost =>
                (ModelCost.input dflt <= ModelCost.input modelCost)%Q /\
                (ModelCost.output dflt <= ModelCost.output modelCost)%Q) costs ->
  modelCostFor costs fallback fallback = Some (Entry dflt) /\
  match modelCostFor costs fallback modelId with
  | Some (Entry modelCost) => (costOf dflt p c <= costOf modelCost p c)%Q
  | Some Inherited => costs !! modelId = None /\ modelId ∈ inheritedNames
  | None => False
  end.
Proof.
  intros Hd Hall. split.
  - pose proof (modelCostFor_cases costs fallback fallback dflt Hd) as Hf.
    now rewrite Hd in Hf.
  - pose proof (modelCostFor_cases costs fallback modelId dflt Hd) as Hc.
    destruct (costs !! modelId) as [modelCost|] eqn:E.
    + rewrite Hc. destruct (Hall _ _ E). now apply costOf_price_mono.
    + case_bool_decide as Hin; rewrite Hc; [now split|apply Qle_refl].
Qed.

(** The comparison of a cost with that of the default tier. *)
Lemma cheapest_of_lookup (costs : gmap string ModelCost.t) (fallback : string)
    (dflt : ModelCost.t) (modelId : string) (p c : nat) :
  costs !! fallback = Some dflt ->
  map_Forall (fun _ modelCost =>
                (ModelCost.input dflt <= ModelCost.input modelCost)%Q /\
                (ModelCost.output dflt <= ModelCost.output modelCost)%Q) costs ->
  exists dcost,
    (modelCost ← modelCostFor costs fallback fallback; Some (costWith modelCost p c))
    = Some (Num dcost) /\
    match modelCost ← modelCostFor costs fallback modelId; Some (costWith modelCost p c) with
    | Some (Num cost) => (dcost <= cost)%Q
    | Some NaN => costs !! modelId = None /\ modelId ∈ inheritedNames
    | None => False
    end.
Proof.
  intros Hd Hall.
  destruct (cheapest_of_table costs fallback dflt modelId p c Hd Hall) as [Hf Hm].
  rewrite Hf. eexists. split; [reflexivity|].
  destruct (modelCostFor costs fallback modelId) as [[modelCost|]|]; exact Hm.
Qed.

Local Ltac tiers_above :=
  repeat (apply map_Forall_insert_2; [split; unfold Qle; simpl; lia|]);
  apply map_Forall_empty.

(** X11. With rounding that is monotone and keeps zero, an adapter charges a
    model id at least what it charges its default tier (gpt-3.5-turbo,
    claude-3-haiku, gemini-pro) for the same token counts: the default tier
    is the cheapest of its table, for input and for output. The one
    exception is a model id that is not in the table and is the name of a
    member every object inherits: its cost is NaN. *)
Theorem X11_default_tier_is_cheapest (modelId : string) (p c : nat) :
  (exists dcost,
     OpenAI.calculateCost MODEL_IDS_GPT_3_5_TURBO p c = Some (Num dcost) /\
     match OpenAI.calculateCost modelId p c with
     | Some (Num cost) => (dcost <= cost)%Q
     | Some NaN => OpenAI.costs !! modelId = None /\ modelId ∈ inheritedNames
     | None => False
     end) /\
  (exists dcost,
     Anthropic.calculateCost MODEL_IDS_CLAUDE_3_HAIKU p c = Some (Num dcost) /\
     match Anthropic.calculateCost modelId p c with
     | Some (Num cost) => (dcost <= cost)%Q
     | Some NaN => Anthropic.costs !! modelId = None /\ modelId ∈ inheritedNames
     | None => False
     end) /\
  (exists dcost,
     Google.calculateCost MODEL_IDS_GEMINI_PRO p c = Some (Num dcost) /\
     match Google.calculateCost modelId p c with
     | Some (Num cost) => (dcost <= cost)%Q
     | Some NaN => Google.costs !! modelId = None /\ modelId ∈ inheritedNames
     | None => False
     end).
Proof.
  split; [|split].
  - apply (cheapest_of_lookup OpenAI.costs MODEL_IDS_GPT_3_5_TURBO
             (ModelCost.mk (15 # 10000) (2 # 1000))).
    + unfold OpenAI.costs. now rewrite lookup_insert_eq.
    + unfold OpenAI.costs. tiers_above.
  - apply (cheapest_of_lookup Anthropic.costs MODEL_IDS_CLAUDE_3_HAIKU
             (ModelCost.mk (25 # 100000) (125 # 100000))).
    + unfold Anthropic.costs. now rewrite lookup_insert_eq.
    + unfold Anthropic.costs. tiers_above.
  - destruct (decide (MODEL_IDS_GEMINI_ULTRA = MODEL_IDS_GEMINI_PRO)) as [Heq|Hne].
    + apply (cheapest_of_lookup Google.costs MODEL_IDS_GEMINI_PRO
               (ModelCost.mk (375 # 100000) (1125 # 100000))).
      * unfold Google.costs. rewrite Heq. now rewrite lookup_insert_eq.
      * unfold Google.costs. rewrite Heq, insert_insert_eq. tiers_above.
    + apply (cheapest_of_lookup Google.costs MODEL_IDS_GEMINI_PRO
               (ModelCost.mk (125 # 100000) (375 # 100000))).
      * unfold Google.costs. rewrite lookup_insert_ne by exact Hne.
        now rewrite lookup_insert_eq.
      * unfold Google.costs. tiers_above.
Qed.

End CheapestTier.

(** X11 with rounding to a grid, for a model id of the OpenAI table, at
    1000 prompt and 2000 completion tokens. *)
Lemma X11_default_tier_is_cheapest_witness :
  exists cost dcost,
    @OpenAI.calculateCost exampleShared gridRuntime "gpt-4" 1000 2000 = Some (Num cost) /\
    @OpenAI.calculateCost exampleShared gridRuntime "gpt-3.5-turbo" 1000 2000
    = Some (Num dcost) /\
    (dcost <= cost)%Q.
Proof.
  destruct (proj1 (@X11_default_tier_is_cheapest exampleShared gridRuntime
                     grid_rounding_monotone grid_rounding_keeps_zero "gpt-4" 1000 2000))
    as (dcost & Hd & Hle).
  destruct (@OpenAI.calculateCost exampleShared gridRuntime "gpt-4" 1000 2000)
    as [[cost|]|] eqn:E.
  - exists cost, dcost. split; [reflexivity|]. split; [exact Hd|exact Hle].
  - exfalso. vm_compute in E. discriminate E.
  - contradiction.
Defined.

(** ** What the formatted messages look like *)

Section FormatShape.
Context `{Shared, Runtime}.

Lemma anthropic_formatMessages_cons message messages systemPrompt :
  Anthropic.formatMessages (message :: messages) systemPrompt
  = match Anthropic.formatMessage message with
    | Some formatted => formatted :: Anthropic.formatMessages messages systemPrompt
    | None => Anthropic.formatMessages messages systemPrompt
    end.
Proof. reflexivity. Qed.

Lemma anthropic_formatMessage_kept message :
  match Anthropic.formatMessage message with
  | Some formatted =>
      (Message.role message = USER \/ Message.role message = ASSISTANT) /\
      (Anthropic.MessageParam.role formatted = "user"
       \/ Anthropic.MessageParam.role formatted = "assistant")
  | None => ~ (Message.role message = USER \/ Message.role message = ASSISTANT)
  end.
Proof.
  unfold Anthropic.formatMessage. destruct (Message.role message); cbn.
  - intros [|]; discriminate.
  - split; now left.
  - split; now right.
  - intros [|]; discriminate.
Qed.

Lemma openai_tool_call_id message :
  JS.truthy_opt (OpenAI.ChatMessage.tool_call_id (OpenAI.formatMessage message))
  = bool_decide (OpenAI.ChatMessage.role (OpenAI.formatMessage message) = "tool").
Proof.
  unfold OpenAI.formatMessage. destruct (Message.role message); try reflexivity.
  cbn. destruct (Message.toolCallId message) as [[|a s]|]; reflexivity.
Qed.

(** X12. What [formatMessages] of each adapter returns. OpenAI: the system
    prompt, when there is a non-empty one, then one message per input
    message; formatting distributes over concatenation; exactly the
    messages under the role tool carry a tool call id, and it is never
    empty. Anthropic: the system prompt is not read; formatting distributes
    over concatenation; every formatted message is under the role user or
    assistant, and no message is dropped exactly when every input message
    is a USER or an ASSISTANT message. Google: the system prompt is not
    read; one message per input message, under the author user, model or
    system. *)
Theorem X12_formatted_messages (messages more : list Message.t)
    (systemPrompt other : option string) :
  (OpenAI.formatMessages (messages ++ more) systemPrompt
   = OpenAI.formatMessages messages systemPrompt ++ OpenAI.formatMessages more None /\
   length (OpenAI.formatMessages messages systemPrompt)
   = (if JS.truthy_opt systemPrompt then 1 else 0) + length messages /\
   Forall (fun formatted =>
             JS.truthy_opt (OpenAI.ChatMessage.tool_call_id formatted)
             = bool_decide (OpenAI.ChatMessage.role formatted = "tool"))
     (OpenAI.formatMessages messages systemPrompt)) /\
  (Anthropic.formatMessages messages systemPrompt = Anthropic.formatMessages messages other /\
   Anthropic.formatMessages (messages ++ more) systemPrompt
   = Anthropic.formatMessages messages systemPrompt
     ++ Anthropic.formatMessages more systemPrompt /\
   Forall (fun formatted =>
             Anthropic.MessageParam.role formatted = "user"
             \/ Anthropic.MessageParam.role formatted = "assistant")
     (Anthropic.formatMessages messages systemPrompt) /\
   length (Anthropic.formatMessages messages systemPrompt) <= length messages /\
   (length (Anthropic.formatMessages messages systemPrompt) = length messages <->
    Forall (fun message => Message.role message = USER \/ Message.role message = ASSISTANT)
      messages)) /\
  (Google.formatMessages messages systemPrompt = Google.formatMessages messages other /\
   Google.formatMessages (messages ++ more) systemPrompt
   = Google.formatMessages messages systemPrompt ++ Google.formatMessages more systemPrompt /\
   length (Google.formatMessages messages systemPrompt) = length messages /\
   Forall (fun formatted =>
             Google.GoogleMessage.author formatted = Some "user"
             \/ Google.GoogleMessage.author formatted = Some "model"
             \/ Google.GoogleMessage.author formatted = Some "system")
     (Google.formatMessages messages systemPrompt)).
Proof.
  split; [|split].
  - unfold OpenAI.formatMessages. split; [|split].
    + rewrite map_app, app_assoc. reflexivity.
    + rewrite length_app, length_map. unfold OpenAI.systemMessage.
      destruct (JS.truthy_opt systemPrompt); reflexivity.
    + apply Forall_app. split.
      * unfold OpenAI.systemMessage.
        destruct (JS.truthy_opt systemPrompt); repeat constructor.
      * induction messages as [|message rest IH]; constructor;
          [apply openai_tool_call_id|exact IH].
  - split; [reflexivity|]. split; [|split; [|split]].
    + unfold Anthropic.formatMessages. apply omap_app.
    + induction messages as [|message rest IH]; [constructor|].
      rewrite anthropic_formatMessages_cons.
      pose proof (anthropic_formatMessage_kept message) as Hkept.
      destruct (Anthropic.formatMessage message); [|exact IH].
      constructor; [apply Hkept|exact IH].
    + induction messages as [|message rest IH]; [reflexivity|].
      rewrite anthropic_formatMessages_cons.
      destruct (Anthropic.formatMessage message); cbn [length]; lia.
    + assert (Hle : forall l, length (Anthropic.formatMessages l systemPrompt) <= length l).
      { intros l. induction l as [|message rest IH]; [reflexivity|].
        rewrite anthropic_formatMessages_cons.
        destruct (Anthropic.formatMessage message); cbn [length]; lia. }
      induction messages as [|message rest IH]; [split; [constructor|reflexivity]|].
      rewrite anthropic_formatMessages_cons.
      pose proof (anthropic_formatMessage_kept message) as Hkept.
      pose proof (Hle rest) as Hrest.
      destruct (Anthropic.formatMessage message); cbn [length].
      * split.
        -- intros Hlen. constructor; [apply Hkept|]. apply IH. lia.
        -- intros Hall. apply Forall_cons in Hall as [_ Hall]. apply IH in Hall. lia.
      * split; [lia|]. intros Hall. apply Forall_cons in Hall as [Hrole _].
        now elim Hkept.
  - unfold Google.formatMessages. split; [reflexivity|]. split; [apply map_app|].
    split; [apply length_map|].
    induction messages as [|message rest IH]; constructor; [|exact IH].
    unfold Google.formatMessage. cbn.
    destruct (Message.role message); cbn; auto.
Qed.

End FormatShape.

(** ** The text of an Anthropic answer *)

Section ExtractedText.
Context `{Shared, Runtime}.

Local Abbreviation text_of :=
  (fun block => default EmptyString (Anthropic.AnthropicContentBlock.text block)).

Lemma extractTextFromContent_cons block content :
  Anthropic.extractTextFromContent (block :: content)
  = if JS.truthy (text_of block)
    then JS.join JS.newline
           (text_of block
            :: filter (fun piece => JS.truthy piece = true) (map text_of content))
    else Anthropic.extractTextFromContent content.
Proof.
  unfold Anthropic.extractTextFromContent. cbn [map].
  destruct (JS.truthy (text_of block)) eqn:E.
  - now rewrite filter_cons_True by exact E.
  - rewrite filter_cons_False by (rewrite E; discriminate). reflexivity.
Qed.

(** X13. The text extracted from the content blocks of an Anthropic answer
    is empty exactly when no block has a non-empty text; blocks without a
    text, or with an empty one, contribute nothing, not even a line feed;
    the text of a single block with a text is that text. *)
Theorem X13_extracted_text (content : list Anthropic.AnthropicContentBlock.t)
    (type text : string) :
  (Anthropic.extractTextFromContent content = EmptyString <->
   Forall (fun block => text_of block = EmptyString) content) /\
  Anthropic.extractTextFromContent
    (filter (fun block => JS.truthy (text_of block) = true) content)
  = Anthropic.extractTextFromContent content /\
  Anthropic.extractTextFromContent (Anthropic.AnthropicContentBlock.mk type None :: content)
  = Anthropic.extractTextFromContent content /\
  Anthropic.extractTextFromContent
    (Anthropic.AnthropicContentBlock.mk type (Some EmptyString) :: content)
  = Anthropic.extractTextFromContent content /\
  Anthropic.extractTextFromContent [Anthropic.AnthropicContentBlock.mk type (Some text)] = text.
Proof.
  split; [|split; [|split; [|split]]].
  - induction content as [|block rest IH]; [split; [constructor|reflexivity]|].
    rewrite extractTextFromContent_cons.
    destruct (JS.truthy (text_of block)) eqn:E.
    + apply truthy_true_iff in E. split.
      * intros Hjoin. exfalso. revert Hjoin. unfold JS.join. cbn [String.concat].
        destruct (filter _ _); [exact E|]. now apply append_not_empty.
      * intros Hall. apply Forall_cons in Hall as [Hblock _]. now elim E.
    + assert (Hblock : text_of block = EmptyString)
        by (destruct (text_of block); [reflexivity|discriminate]).
      rewrite IH. split.
      * intros Hall. now constructor.
      * intros Hall. now apply Forall_cons in Hall as [_ Hall].
  - induction content as [|block rest IH]; [reflexivity|].
    destruct (JS.truthy (text_of block)) eqn:E.
    + rewrite filter_cons_True by exact E.
      rewrite !extractTextFromContent_cons, E. f_equal. f_equal.
      clear IH. induction rest as [|b bs IHr]; [reflexivity|].
      destruct (JS.truthy (text_of b)) eqn:Eb.
      * rewrite (filter_cons_True _ b) by exact Eb. cbn [map].
        rewrite !filter_cons_True by exact Eb. now rewrite IHr.
      * rewrite (filter_cons_False _ b) by (rewrite Eb; discriminate). cbn [map].
        rewrite (filter_cons_False _ (text_of b)) by (rewrite Eb; discriminate). exact IHr.
    + rewrite filter_cons_False by (rewrite E; discriminate).
      rewrite extractTextFromContent_cons, E. exact IH.
  - now rewrite extractTextFromContent_cons.
  - now rewrite extractTextFromContent_cons.
  - rewrite extractTextFromContent_cons. cbn [default Anthropic.AnthropicContentBlock.text].
    destruct text; reflexivity.
Qed.

End ExtractedText.

(** ** What the adapters do not read *)

Section UnreadFields.
Context `{Shared, Runtime}.

(** X14. The Google adapter reads the model id, the prompt and the
    temperature of a request only: two requests that differ in the system
    prompt, the token limit, the stop sequences or the request id get the
    same calls, waits, chunks and outcome, from [generate] and from
    [generateStream]. The OpenAI and the Anthropic adapter do not read the
    request id. For the three adapters a request without a temperature is
    treated as one with the temperature 0.7. *)
Theorem X14_unread_fields generateMessage create create_stream create' create_stream'
    (modelId : string) (prompt : Prompt) (temperature : option Q)
    (systemPrompt systemPrompt' : option string) (maxTokens maxTokens' : option nat)
    (stopSequences stopSequences' : option (list string))
    (requestId requestId' : option string) (streamId : string) :
  let params t := AIModelRequest.mk modelId prompt systemPrompt t maxTokens stopSequences
                    requestId in
  let renamed := AIModelRequest.mk modelId prompt systemPrompt temperature maxTokens
                   stopSequences requestId' in
  let other := AIModelRequest.mk modelId prompt systemPrompt' temperature maxTokens'
                 stopSequences' requestId' in
  (Google.generate generateMessage (params temperature) = Google.generate generateMessage other /\
   Google.generateStream generateMessage (params temperature) streamId
   = Google.generateStream generateMessage other streamId) /\
  (OpenAI.generate create (params temperature) = OpenAI.generate create renamed /\
   OpenAI.generateStream create_stream (params temperature) streamId
   = OpenAI.generateStream create_stream renamed streamId) /\
  (Anthropic.generate create' (params temperature) = Anthropic.generate create' renamed /\
   Anthropic.generateStream create_stream' (params temperature) streamId
   = Anthropic.generateStream create_stream' renamed streamId) /\
  (Google.generate generateMessage (params None)
   = Google.generate generateMessage (params (Some (7 # 10)%Q)) /\
   OpenAI.generate create (params None) = OpenAI.generate create (params (Some (7 # 10)%Q)) /\
   Anthropic.generate create' (params None)
   = Anthropic.generate create' (params (Some (7 # 10)%Q))).
Proof. cbv zeta. repeat split. Qed.

End UnreadFields.

(** ** The inherited stream and the override of the Google adapter *)

Section DefaultStream.
Context `{Shared, Runtime}.
Variable generateMessage :
  nat -> Google.GenerateMessageRequest.t -> Settled Google.GenerateMessageResponse.t.

(** X15. Over the same [generate], the default [generateStream] of the base
    provider and the override of the Google adapter return the same response
    after the same requests, and the texts of their chunks concatenate to
    the same content. They differ in the chunks: the default hands over one
    final chunk with the whole content, the usage and the provider google,
    without waiting, and keeps the streaming invariant even for an empty
    content. They differ on failure too: the default hands over no chunk
    and throws the error of [generate] as it is, the override hands over an
    error chunk and wraps the error. *)
Theorem X15_default_and_override params streamId w :
  (forall r w',
     Google.generate generateMessage params w = (Return r, w') ->
     exists final chunks,
       BaseModelProvider.generateStream (Google.generate generateMessage) params streamId w
       = (Return r, World.emits w' [final]) /\
       Google.generateStream generateMessage params streamId w
       = (Return r, World.emits (World.waited w' (replicate (length chunks) 50)) chunks) /\
       concat_deltas [final] = concat_deltas chunks /\
       final = StreamChunk.mk streamId CONTENT_DELTA (PayloadText (AIModelResponse.content r))
                 true (AIModelRequest.modelId params) (Some "google")
                 (Some (AIModelResponse.usage r)) /\
       StreamingInvariant [final] r) /\
  (forall message w',
     Google.generate generateMessage params w = (Throw message, w') ->
     BaseModelProvider.generateStream (Google.generate generateMessage) params streamId w
     = (Throw message, w') /\
     Google.generateStream generateMessage params streamId w
     = (Throw ("Google AI Streaming Error: " +:+ message),
        World.emits w' [errorChunk streamId message (AIModelRequest.modelId params) "google"])).
Proof.
  split.
  - intros r w' Hgen.
    destruct (google_stream_success generateMessage params streamId w r w' Hgen)
      as (chunks & Hrun & _ & Hcat & _).
    destruct (google_generateLoop_returns generateMessage params _ _ _ _ _ _ Hgen)
      as (response & cost & Hr).
    eexists _, chunks. split; [|split; [exact Hrun|split; [|split]]].
    + unfold BaseModelProvider.generateStream.
      rewrite bind_eq, Hgen, bind_eq, onChunk_eq. reflexivity.
    + rewrite Hcat. reflexivity.
    + rewrite Hr. reflexivity.
    + split.
      * reflexivity.
      * exists [], (StreamChunk.mk streamId CONTENT_DELTA
                      (PayloadText (AIModelResponse.content r)) true
                      (AIModelResponse.modelId r) (Some (AIModelResponse.provider r))
                      (Some (AIModelResponse.usage r))).
        split; [reflexivity|]. split; [reflexivity|constructor].
  - intros message w' Hgen. split.
    + apply base_stream_failure. exact Hgen.
    + apply (google_stream_failure generateMessage params streamId w message w' Hgen).
Qed.

End DefaultStream.

Section DefaultStreamExamples.
Local Existing Instances exampleShared exampleRuntime.

(** X15 applied to an empty answer: the override hands over no chunk, the
    default one final chunk. *)
Lemma X15_default_and_override_witness :
  exists r w' final,
    Google.generate (answering (googleAnswer EmptyString)) (textRequest "gemini-pro" "hi")
      World.init = (Return r, w') /\
    BaseModelProvider.generateStream (Google.generate (answering (googleAnswer EmptyString)))
      (textRequest "gemini-pro" "hi") "s1" World.init
    = (Return r, World.emits w' [final]) /\
    StreamingInvariant [final] r.
Proof.
  edestruct (proj1 (X15_default_and_override (answering (googleAnswer EmptyString))
                      (textRequest "gemini-pro" "hi") "s1" World.init))
    as (final & chunks & Hbase & _ & _ & _ & Hinv).
  - vm_compute. reflexivity.
  - eexists _, _, final. split; [vm_compute; reflexivity|]. split; [exact Hbase|exact Hinv].
Defined.

End DefaultStreamExamples.

(** ** Where the streaming invariant holds *)

Section InvariantScope.
Context `{Shared, Runtime}.

(** X16. Every streaming call of the OpenAI and of the Anthropic adapter
    that returns has handed over chunks that keep the streaming invariant
    for the response it returns: their texts concatenate to its content and
    exactly one chunk, the last, is final. A streaming call of the Google
    adapter that returns keeps it exactly when the content of the response
    is not empty. *)
Theorem X16_streaming_invariant_scope :
  (forall create_stream params streamId w r w',
     OpenAI.generateStream create_stream params streamId w = (Return r, w') ->
     exists chunks,
       World.emitted w' = World.emitted w ++ chunks /\ StreamingInvariant chunks r) /\
  (forall create_stream params streamId w r w',
     Anthropic.generateStream create_stream params streamId w = (Return r, w') ->
     exists chunks,
       World.emitted w' = World.emitted w ++ chunks /\ StreamingInvariant chunks r) /\
  (forall generateMessage params streamId w r w',
     Google.generateStream generateMessage params streamId w = (Return r, w') ->
     exists chunks,
       World.emitted w' = World.emitted w ++ chunks /\
       (StreamingInvariant chunks r <-> AIModelResponse.content r <> EmptyString)).
Proof.
  split; [|split].
  - intros create_stream params streamId w r w' Hrun.
    exact (openai_streaming_invariant create_stream params streamId w r w' Hrun).
  - intros create_stream params streamId w r w' Hrun.
    exact (anthropic_streaming_invariant create_stream params streamId w r w' Hrun).
  - intros generateMessage params streamId w r w' Hrun.
    destruct (AIModelResponse.content r) as [|a content] eqn:Hcontent.
    + destruct (Google.generate generateMessage params w) as [[r0|message|] w1] eqn:Hgen.
      * destruct (google_stream_success generateMessage params streamId w r0 w1 Hgen)
          as (chunks & Hok & Hem & _ & Hnil & _).
        rewrite Hok in Hrun. injection Hrun as <- <-.
        apply Hnil in Hcontent. subst chunks. exists []. split.
        -- cbn. now rewrite Hem.
        -- split; [|congruence]. intros (_ & earlier & final & Habs & _).
           now destruct earlier.
      * destruct (google_stream_failure generateMessage params streamId w message w1 Hgen)
          as [Hfail _].
        rewrite Hfail in Hrun. discriminate.
      * pose proof (generate_total generateMessage params w) as [Hfuel _].
        rewrite Hgen in Hfuel. now contradict Hfuel.
    + destruct (google_streaming_invariant generateMessage params streamId w r w' Hrun)
        as (chunks & Hem & Hinv); [rewrite Hcontent; discriminate|].
      exists chunks. split; [exact Hem|]. rewrite <- Hcontent. split; [|intros _; exact Hinv].
      intros _. rewrite Hcontent. discriminate.
Qed.

End InvariantScope.

Section InvariantScopeExamples.
Local Existing Instances exampleShared exampleRuntime.

(** X16 applied to a Google stream of a non-empty answer. *)
Lemma X16_streaming_invariant_scope_witness :
  exists r w' chunks,
    Google.generateStream (answering (googleAnswer "The quick brown fox"))
      (textRequest "gemini-pro" "hi") "s1" World.init = (Return r, w') /\
    World.emitted w' = chunks /\
    StreamingInvariant chunks r.
Proof.
  edestruct (proj2 (proj2 X16_streaming_invariant_scope)
               (answering (googleAnswer "The quick brown fox"))
               (textRequest "gemini-pro" "hi") "s1" World.init)
    as (chunks & Hem & Hinv).
  - vm_compute. reflexivity.
  - eexists _, _, chunks. split; [vm_compute; reflexivity|]. split; [exact Hem|].
    apply Hinv. vm_compute. discriminate.
Defined.

End InvariantScopeExamples.

(** * The stand-alone model service *)

Lemma substring_prefix_length (s : string) :
  forall n, String.length (String.substring 0 n s) = Nat.min n (String.length s).
Proof.
  induction s as [|c s IH]; intros [|n]; cbn; try reflexivity.
  now rewrite IH.
Qed.

Lemma map_ChatTurn_id (messages : list ModelServiceImplementation.ChatTurn.t) :
  map (fun msg =>
         ModelServiceImplementation.ChatTurn.mk
           (ModelServiceImplementation.ChatTurn.role msg)
           (ModelServiceImplementation.ChatTurn.content msg)) messages
  = messages.
Proof.
  induction messages as [|[role content] rest IH]; [reflexivity|].
  cbn. now rewrite IH.
Qed.

Section StandAloneService.
Context `{Runtime}.
Import ModelServiceImplementation.

(** X17. For a provider other than anthropic, [generate] of the stand-alone
    service contacts no backend, whether or not it holds an Anthropic
    client: it waits 500 ms once and then answers with the mock content
    made of the model name and at most the first 50 characters of the last
    message, and with the estimated usage; with no message at all it
    throws, after the wait, the TypeError of reading the content of
    [undefined]. *)
Theorem X17_mock_answer anthropic (params : Params.t) (w : World.t RequestBody.t) :
  Params.provider params <> "anthropic" ->
  snd (generate anthropic params w) = World.waited w [500] /\
  match last (Params.messages params) with
  | Some message =>
      let content := mockContent (Params.model params) (ChatTurn.content message) in
      fst (generate anthropic params w)
      = Return (Result.mk content (Estimated (mockUsage (Params.messages params) content))) /\
      String.length content
      = 130 + String.length (Params.model params)
        + Nat.min 50 (String.length (ChatTurn.content message))
  | None =>
      fst (generate anthropic params w)
      = Throw "Cannot read properties of undefined (reading 'content')"
  end.
Proof.
  intros Hprovider. unfold generate.
  rewrite bool_decide_eq_false_2 by exact Hprovider.
  rewrite bind_eq. unfold sleep at 1.
  destruct (last (Params.messages params)) as [message|].
  - split; [reflexivity|]. cbv zeta. split; [reflexivity|].
    unfold mockContent, JS.substring. rewrite !append_length, substring_prefix_length.
    repeat match goal with
           | |- context [String.length ?s] =>
               lazymatch s with
               | context [params] => fail
               | context [message] => fail
               | _ => let n := eval vm_compute in (String.length s) in
                      change (String.length s) with n
               end
           end.
    lia.
  - split; reflexivity.
Qed.

(** X18. For the provider anthropic, [generate] of the stand-alone service
    never falls back to the mock answer. Without a client it throws at once,
    with no request and no wait. With a client it sends one request, which
    carries the messages as they are, whatever their roles, and a positive
    token limit (1024 when none or zero is given); it returns the
    concatenated text of the answer with the usage the backend reported, or
    throws the failure wrapped as Anthropic API Error. *)
Theorem X18_anthropic_branch anthropic (params : Params.t) (w : World.t RequestBody.t) :
  Params.provider params = "anthropic" ->
  match anthropic with
  | None =>
      generate anthropic params w
      = (Throw "Anthropic client not initialized. Please provide ANTHROPIC_API_KEY.", w)
  | Some create =>
      snd (generate anthropic params w) = World.sends w [requestBody params] /\
      RequestBody.messages (requestBody params) = Params.messages params /\
      0 < RequestBody.max_tokens (requestBody params) /\
      match create (length (World.sent w)) (requestBody params) with
      | Resolved response =>
          fst (generate anthropic params w)
          = Return (Result.mk (responseContent response)
                      (Reported (Anthropic.AnthropicMessage.usage response)))
      | Rejected message =>
          fst (generate anthropic params w) = Throw ("Anthropic API Error: " +:+ message)
      end
  end.
Proof.
  intros Hprovider. unfold generate.
  rewrite bool_decide_eq_true_2 by exact Hprovider.
  destruct anthropic as [create|]; [|reflexivity].
  rewrite try_catch_eq, bind_eq, call_eq.
  split; [|split; [|split]].
  - destruct (create _ _); reflexivity.
  - apply map_ChatTurn_id.
  - unfold requestBody. cbn. destruct (Params.options params ≫= Options.maxTokens) as [[|n]|];
      lia.
  - destruct (create _ _); reflexivity.
Qed.

(** X19. The text the stand-alone service takes from an answer is the
    concatenation, with nothing in between, of the texts of the blocks of
    type text: it distributes over the concatenation of answers, a block of
    another type contributes nothing whatever it carries, and for a single
    block of type text it is the text the Anthropic adapter extracts. *)
Theorem X19_response_content (blocks more : list Anthropic.AnthropicContentBlock.t)
    (usage : option Anthropic.ResponseUsage.t) (stop_reason : option string)
    (type : string) (carried : option string) (text : string) :
  let answer content := Anthropic.AnthropicMessage.mk content usage stop_reason in
  responseContent (answer (blocks ++ more))
  = responseContent (answer blocks) +:+ responseContent (answer more) /\
  responseContent (answer (Anthropic.AnthropicContentBlock.mk type carried :: blocks))
  = (if bool_decide (type = "text") then default EmptyString carried else EmptyString)
    +:+ responseContent (answer blocks) /\
  responseContent (answer [Anthropic.AnthropicContentBlock.mk "text" (Some text)])
  = Anthropic.extractTextFromContent [Anthropic.AnthropicContentBlock.mk "text" (Some text)].
Proof.
  cbv zeta. unfold responseContent. cbn [Anthropic.AnthropicMessage.content].
  split; [|split].
  - rewrite map_app. apply join_empty_app.
  - cbn [map Anthropic.AnthropicContentBlock.type Anthropic.AnthropicContentBlock.text].
    apply join_empty_cons.
  - destruct text; reflexivity.
Qed.

End StandAloneService.

Section StandAloneServiceExamples.
Local Existing Instances exampleRuntime.
Import ModelServiceImplementation.

(** X17 applied to a request for the provider openai. *)
Lemma X17_mock_answer_witness :
  exists content usage,
    generate None (Params.mk "openai" "gpt-4" [ChatTurn.mk "user" "Write a test"] None)
      World.init
    = (Return (Result.mk content (Estimated usage)), World.mk [] [500] []) /\
    String.length content = 130 + 5 + 12.
Proof.
  destruct (X17_mock_answer None
              (Params.mk "openai" "gpt-4" [ChatTurn.mk "user" "Write a test"] None)
              World.init) as (Hworld & Hresult & Hlength).
  - vm_compute. discriminate.
  - eexists _, _. split; [|exact Hlength].
    apply injective_projections; [exact Hresult|exact Hworld].
Defined.

(** X18 applied to a request for the provider anthropic, with a client
    whose backend answers with one text block. *)
Lemma X18_anthropic_branch_witness :
  generate (Some (answering (anthropicAnswer "Hello!" None)))
    (Params.mk "anthropic" "claude-3-haiku" [ChatTurn.mk "system" "Be brief."] None)
    World.init
  = (Return (Result.mk "Hello!" (Reported None)),
     World.mk
       [RequestBody.mk "claude-3-haiku" [ChatTurn.mk "system" "Be brief."] 1024 None None]
       [] []).
Proof.
  destruct (X18_anthropic_branch (Some (answering (anthropicAnswer "Hello!" None)))
              (Params.mk "anthropic" "claude-3-haiku" [ChatTurn.mk "system" "Be brief."] None)
              World.init eq_refl) as (Hworld & _ & _ & Hresult).
  apply injective_projections; [exact Hresult|exact Hworld].
Defined.

End StandAloneServiceExamples.

(** * The cache *)

(** X20. The delay before a reconnection attempt starts at 100 ms, doubles
    with every attempt up to 6400 ms at the sixth retry, and is 10000 ms
    from the seventh on: it never decreases and stays between 100 and
    10000 ms. *)
Theorem X20_reconnect_delay (retries later : N) :
  (100 <= CacheService.reconnectStrategy retries <= 10000)%N /\
  ((retries <= later)%N ->
   (CacheService.reconnectStrategy retries <= CacheService.reconnectStrategy later)%N) /\
  ((retries <= 6)%N -> CacheService.reconnectStrategy retries = (100 * 2 ^ retries)%N) /\
  ((retries < 6)%N ->
   CacheService.reconnectStrategy (retries + 1)
   = (2 * CacheService.reconnectStrategy retries)%N) /\
  ((7 <= retries)%N -> CacheService.reconnectStrategy retries = 10000%N).
Proof.
  unfold CacheService.reconnectStrategy.
  assert (Hone : forall r : N, (1 <= 2 ^ r)%N).
  { intros r. change 1%N with (2 ^ 0)%N. apply N.pow_le_mono_r; lia. }
  assert (Hsmall : forall r : N, (r <= 6)%N -> (2 ^ r <= 64)%N).
  { intros r Hr. change 64%N with (2 ^ 6)%N. apply N.pow_le_mono_r; lia. }
  assert (Hlarge : forall r : N, (7 <= r)%N -> (128 <= 2 ^ r)%N).
  { intros r Hr. change 128%N with (2 ^ 7)%N. apply N.pow_le_mono_r; lia. }
  pose proof (Hone retries) as H1.
  split; [lia|]. split; [|split; [|split]].
  - intros Hle.
    assert ((2 ^ retries <= 2 ^ later)%N) by (apply N.pow_le_mono_r; lia). lia.
  - intros Hr. pose proof (Hsmall retries Hr). lia.
  - intros Hr. pose proof (Hsmall (retries + 1)%N ltac:(lia)) as Hs.
    pose proof (Hsmall retries ltac:(lia)).
    rewrite N.pow_add_r in *. change (2 ^ 1)%N with 2%N in *. lia.
  - intros Hr. pose proof (Hlarge retries Hr). lia.
Qed.

Lemma substring_of_prefix (p s : string) :
  String.substring 0 (String.length p) (p +:+ s) = p.
Proof.
  induction p as [|c p IH]; [apply substring_none|].
  rewrite append_cons. cbn. now rewrite IH.
Qed.

Lemma substring_within_prefix (p s : string) :
  forall n, n <= String.length p ->
    String.substring 0 n (p +:+ s) = String.substring 0 n p.
Proof.
  induction p as [|c p IH]; intros n Hn.
  - cbn in Hn. assert (n = 0) as -> by lia. now rewrite !substring_none.
  - rewrite append_cons. destruct n as [|n]; [reflexivity|].
    cbn in *. rewrite IH by lia. reflexivity.
Qed.

Section CacheKeys.
Context `{Runtime}.
Variable sha256_hex : string -> string.

Local Abbreviation generateKey := (CacheService.generateKey sha256_hex).

Local Abbreviation prefix_of namespace :=
  (if JS.truthy_opt namespace
   then "miktos:" +:+ default EmptyString namespace +:+ ":"
   else "miktos:").

Lemma prefix_of_starts namespace : exists rest, prefix_of namespace = "miktos:" +:+ rest.
Proof.
  destruct (JS.truthy_opt namespace).
  - eexists. reflexivity.
  - exists EmptyString. reflexivity.
Qed.

(** X21. A generated cache key never has more than 250 characters and
    always starts with miktos:. When the key fits, it is the prefix (with
    the namespace, if there is a non-empty one) followed by the first 32
    characters of the digest. A namespace of 242 characters or more leaves
    no room for the digest: every object then gets the same key, the first
    250 characters of the prefix. *)
Theorem X21_generated_key (data other : JSValue) (namespace : option string) :
  String.length (generateKey data namespace) <= 250 /\
  JS.startsWith (generateKey data namespace) "miktos:" = true /\
  (String.length (prefix_of namespace) + 32 <= 250 ->
   generateKey data namespace
   = prefix_of namespace +:+ JS.substring (sha256_hex (JSON_stringify data)) 0 32) /\
  (250 <= String.length (prefix_of namespace) ->
   generateKey data namespace = JS.substring (prefix_of namespace) 0 250 /\
   generateKey data namespace = generateKey other namespace).
Proof.
  assert (Hlong : forall d, 250 <= String.length (prefix_of namespace) ->
            generateKey d namespace = JS.substring (prefix_of namespace) 0 250).
  { intros d Hp. unfold CacheService.generateKey. cbv zeta.
    unfold CacheService.MAX_KEY_LENGTH.
    destruct (Nat.ltb_spec 250 (String.length
                (prefix_of namespace +:+ JS.substring (sha256_hex (JSON_stringify d)) 0 32)))
      as [Hgt|Hle].
    - unfold JS.substring. rewrite Nat.sub_0_r. now apply substring_within_prefix.
    - rewrite append_length in Hle.
      assert (Hempty : JS.substring (sha256_hex (JSON_stringify d)) 0 32 = EmptyString)
        by (destruct (JS.substring _ 0 32); [reflexivity|cbn in Hle; lia]).
      rewrite Hempty, append_empty_r. unfold JS.substring. rewrite Nat.sub_0_r.
      assert (Hp' : String.length (prefix_of namespace) = 250)
        by (rewrite Hempty in Hle; cbn in Hle; lia).
      rewrite <- Hp'. symmetry. apply substring_whole. }
  assert (Hhash : forall d, String.length (JS.substring (sha256_hex (JSON_stringify d)) 0 32) <= 32).
  { intros d. unfold JS.substring. rewrite substring_prefix_length. lia. }
  split; [|split; [|split]].
  - unfold CacheService.generateKey. cbv zeta. unfold CacheService.MAX_KEY_LENGTH.
    destruct (Nat.ltb_spec 250 (String.length
                (prefix_of namespace
                 +:+ JS.substring (sha256_hex (JSON_stringify data)) 0 32))) as [Hgt|Hle].
    + unfold JS.substring at 1. rewrite substring_prefix_length. lia.
    + exact Hle.
  - unfold JS.startsWith. apply startsWith_app.
    destruct (prefix_of_starts namespace) as [rest Hrest].
    unfold CacheService.generateKey. cbv zeta. unfold CacheService.MAX_KEY_LENGTH.
    rewrite Hrest, append_assoc.
    destruct (250 <? _)%nat.
    + unfold JS.substring at 1. rewrite Nat.sub_0_r.
      change 250 with (String.length "miktos:" + 243).
      rewrite <- (substring_append _ 0 (String.length "miktos:") 243).
      rewrite substring_of_prefix. eexists. reflexivity.
    + eexists. reflexivity.
  - intros Hfits. unfold CacheService.generateKey. cbv zeta.
    unfold CacheService.MAX_KEY_LENGTH.
    destruct (Nat.ltb_spec 250 (String.length
                (prefix_of namespace
                 +:+ JS.substring (sha256_hex (JSON_stringify data)) 0 32))) as [Hgt|Hle];
      [|reflexivity].
    rewrite append_length in Hgt. pose proof (Hhash data). lia.
  - intros Hp. split; [now apply Hlong|]. now rewrite !Hlong.
Qed.



End CacheKeys.

Section CacheKeysExamples.
Local Existing Instances exampleRuntime.

(** X21 applied to a namespace of 250 characters, with the identity in
    place of the digest: two different objects get one key. *)
Lemma X21_generated_key_witness :
  @CacheService.generateKey exampleRuntime (fun s => s) LitTrue
    (Some (String.concat EmptyString (replicate 250 "n")))
  = @CacheService.generateKey exampleRuntime (fun s => s) LitFalse
      (Some (String.concat EmptyString (replicate 250 "n"))).
Proof.
  apply (@X21_generated_key exampleRuntime (fun s => s) LitTrue LitFalse
           (Some (String.concat EmptyString (replicate 250 "n")))).
  apply Nat.leb_le. vm_compute. reflexivity.
Defined.

End CacheKeysExamples.

(** ** Storing and reading back *)

Section CacheRoundTrip.
Context `{Runtime}.
Variable sha256_hex : string -> string.
Variable gzip : string -> string.
Variable gunzip : string -> option string.
Variable stringifyData : CacheService.CacheData.t -> string.
Variable parseData : string -> option CacheService.CacheData.t.
Variable parseValue : string -> option JSValue.
(** the value [null] *)
Variable null : JSValue.


End CacheRoundTrip.




(** A stored null is answered as a missing entry is, and counted as a hit;
    a stored text that is no entry is counted as a hit and as a miss. *)
Example stored_null_and_broken_entry :
  @CacheService.get exampleRuntime (fun s => s) Literal LitNull true
    (fun _ => Resolved (Some (exampleStringifyData (CacheService.CacheData.mk "null" false 7 3600))))
    (@CacheService.decode exampleRuntime exampleGunzip exampleParseData exampleParseValue)
    (CacheService.StringKey "k") None (CacheService.Stats.mk 0 0)
  = (LitNull, CacheService.Stats.mk 1 0) /\
  @CacheService.get exampleRuntime (fun s => s) Literal LitNull true
    (fun _ => Resolved None)
    (@CacheService.decode exampleRuntime exampleGunzip exampleParseData exampleParseValue)
    (CacheService.StringKey "k") None (CacheService.Stats.mk 0 0)
  = (LitNull, CacheService.Stats.mk 0 1) /\
  @CacheService.get exampleRuntime (fun s => s) Literal LitNull true
    (fun _ => Resolved (Some "0,,{"))
    (@CacheService.decode exampleRuntime exampleGunzip exampleParseData exampleParseValue)
    (CacheService.StringKey "k") None (CacheService.Stats.mk 0 0)
  = (LitNull, CacheService.Stats.mk 1 1).
Proof. repeat split; vm_compute; reflexivity. Qed.

(** * The mailer *)

Lemma includes_char (a c : ascii) (rest : string) :
  JS.includes (String c rest) (String a EmptyString)
  = Ascii.eqb c a || JS.includes rest (String a EmptyString).
Proof.
  rewrite includes_cons. f_equal. cbn [String.prefix].
  destruct (Ascii.ascii_dec a c) as [->|Hne].
  - rewrite Ascii.eqb_refl. now destruct rest.
  - symmetry. apply Ascii.eqb_neq. congruence.
Qed.

Lemma includes_char_app (a : ascii) (before after : string) :
  JS.includes (before +:+ after) (String a EmptyString)
  = JS.includes before (String a EmptyString) || JS.includes after (String a EmptyString).
Proof.
  induction before as [|c before IH].
  - rewrite append_empty_l. reflexivity.
  - rewrite append_cons, !includes_char, IH. now rewrite orb_assoc.
Qed.

(** Stripping brings in no [>]. *)
Lemma stripTags_brings_nothing (html : string) :
  forall inTag,
    JS.includes (EmailService.stripTags inTag html) ">" = true ->
    JS.includes html ">" = true.
Proof.
  induction html as [|c rest IH]; intros inTag; cbn [EmailService.stripTags].
  - intros Habs. exact Habs.
  - rewrite includes_char. destruct inTag.
    + destruct (Ascii.eqb c ">"); [reflexivity|]. cbn [orb]. apply IH.
    + destruct (Ascii.eqb c "<" && JS.includes rest ">") eqn:E.
      * intros Hin. apply IH in Hin. rewrite Hin. apply orb_true_r.
      * rewrite includes_char. destruct (Ascii.eqb c ">"); [reflexivity|].
        cbn [orb]. apply IH.
Qed.

(** Behind a [<] that stripping leaves there is no [>]. *)
Lemma stripTags_leaves_no_tag (html : string) :
  forall inTag before behind,
    EmailService.stripTags inTag html = before +:+ String "<" behind ->
    JS.includes behind ">" = false.
Proof.
  induction html as [|c rest IH]; intros inTag before behind; cbn [EmailService.stripTags].
  - destruct before; [rewrite append_empty_l|rewrite append_cons]; discriminate.
  - destruct inTag.
    + destruct (Ascii.eqb c ">"); apply IH.
    + destruct (Ascii.eqb c "<" && JS.includes rest ">") eqn:E; [apply IH|].
      destruct before as [|b before].
      * rewrite append_empty_l. intros [= -> <-].
        rewrite Ascii.eqb_refl in E. cbn [andb] in E.
        destruct (JS.includes (EmailService.stripTags false rest) ">") eqn:Hin;
          [|reflexivity].
        apply stripTags_brings_nothing in Hin. congruence.
      * rewrite append_cons. intros [= _ Hrest]. eapply IH. exact Hrest.
Qed.

(** A text in which no [<] is followed by a [>] is left as it is. *)
Lemma stripTags_fixed (html : string) :
  (forall before behind,
     html = before +:+ String "<" behind -> JS.includes behind ">" = false) ->
  EmailService.stripTags false html = html.
Proof.
  induction html as [|c rest IH]; intros Hfree; [reflexivity|].
  cbn [EmailService.stripTags].
  assert (E : Ascii.eqb c "<" && JS.includes rest ">" = false).
  { destruct (Ascii.eqb c "<") eqn:Ec; [|reflexivity]. cbn [andb].
    apply Ascii.eqb_eq in Ec. subst c. apply (Hfree EmptyString rest).
    now rewrite append_empty_l. }
  rewrite E. f_equal. apply IH. intros before behind Hrest.
  apply (Hfree (String c before) behind). rewrite append_cons. now rewrite Hrest.
Qed.

Lemma stripTags_length (html : string) :
  forall inTag, String.length (EmailService.stripTags inTag html) <= String.length html.
Proof.
  induction html as [|c rest IH]; intros inTag; cbn [EmailService.stripTags String.length];
    [reflexivity|].
  destruct inTag.
  - destruct (Ascii.eqb c ">"); [specialize (IH false)|specialize (IH true)]; lia.
  - destruct (Ascii.eqb c "<" && JS.includes rest ">").
    + specialize (IH true). lia.
    + cbn [String.length]. specialize (IH false). lia.
Qed.

(** X24. The plain text [sendEmail] derives from the HTML of a mail that
    comes without a text holds no tag: no [<] in it is followed by a [>].
    Deriving it again changes nothing, it is never longer than the HTML,
    and an HTML without [<] or without [>] is its own plain text. A
    non-empty text given with the mail is used as it is. *)
Theorem X24_plain_text (html text before inner after : string) :
  EmailService.plainText None html <> before +:+ "<" +:+ inner +:+ ">" +:+ after /\
  EmailService.plainText None (EmailService.plainText None html)
  = EmailService.plainText None html /\
  String.length (EmailService.plainText None html) <= String.length html /\
  (JS.includes html "<" && JS.includes html ">" = false ->
   EmailService.plainText None html = html) /\
  (text <> EmptyString -> EmailService.plainText (Some text) html = text).
Proof.
  unfold EmailService.plainText. cbn [JS.truthy_opt default from_option id].
  split; [|split; [|split; [|split]]].
  - intros Habs.
    apply (stripTags_leaves_no_tag html false before (inner +:+ ">" +:+ after)) in Habs.
    rewrite includes_char_app in Habs. rewrite includes_char_app in Habs.
    rewrite includes_char, Ascii.eqb_refl in Habs. cbn [orb] in Habs.
    rewrite orb_true_r in Habs. discriminate.
  - apply stripTags_fixed. intros before' behind. apply stripTags_leaves_no_tag.
  - apply stripTags_length.
  - intros Hnone. apply stripTags_fixed. intros before' behind ->.
    rewrite !includes_char_app, !includes_char, Ascii.eqb_refl in Hnone.
    cbn [orb] in Hnone. rewrite orb_true_r in Hnone. cbn [andb] in Hnone.
    change (Ascii.eqb "<" ">") with false in Hnone. cbn [orb] in Hnone.
    apply orb_false_elim in Hnone as [_ Hbehind]. exact Hbehind.
  - intros Htext. now rewrite (proj2 (truthy_true_iff text) Htext).
Qed.
